(** * Remote asset importer and material tools of the Unity MCP server

    A shallow embedding of [Python/tools/asset_tools.py] ([download_file],
    [import_remote_asset], [batch_import_remote_assets]) and of
    [Python/tools/material_tools.py] ([set_material]).

    Python values are an inductive type, a Python [str] is the string of its
    UTF-8 bytes, the Unity connection, the HTTP client, the faults of the
    file system and of the standard output are oracles that see the history
    of the run, and the tools are programs of a state-and-exception monad
    over a world made of a file system and that history.

    The host is a POSIX system: [os.path] is [posixpath], a path is a string
    of names separated by [/], and the file system is a map from such paths.
    On Windows [os.path] is [ntpath], with drive letters and backslashes;
    nothing here speaks of that platform. *)

From Stdlib Require Import String Ascii List ZArith DecimalString Bool Lia.
From Stdlib Require Import Floats.
From stdpp Require Import gmap strings list fin_maps.

Local Open Scope string_scope.
Set Warnings "-register-all".
Unset Elimination Schemes.

(** ** Python values *)

(** The values that travel through the tools: arguments of the tool calls and
    the JSON-like answers of [send_command]. A [float] is an IEEE 754
    binary64 number, as in Python. A [dict] keeps its items in the order
    they were written; its keys are strings, each at most once. *)
Inductive pyval : Type :=
| PNone
| PBool (b : bool)
| PInt (z : Z)
| PFloat (f : float)
| PStr (s : string)
| PList (l : list pyval)
| PDict (d : list (string * pyval)).

Set Elimination Schemes.

(** An exception: its class and [str(e)]. *)
Inductive exn : Type :=
| Exception (cls : string) (msg : string).

Definition str_exn (e : exn) : string :=
  match e with Exception _ m => m end.

Inductive result (A : Type) : Type :=
| Ok (a : A)
| Raise (e : exn).
Arguments Ok {A} a.
Arguments Raise {A} e.

(** [type(v).__name__] *)
Definition type_name (v : pyval) : string :=
  match v with
  | PNone => "NoneType"
  | PBool _ => "bool"
  | PInt _ => "int"
  | PFloat _ => "float"
  | PStr _ => "str"
  | PList _ => "list"
  | PDict _ => "dict"
  end.

Definition AttributeError (v : pyval) (attr : string) : exn :=
  Exception "AttributeError"
    ("'" +:+ type_name v +:+ "' object has no attribute '" +:+ attr +:+ "'").

Definition TypeError_not_iterable (v : pyval) : exn :=
  Exception "TypeError" ("'" +:+ type_name v +:+ "' object is not iterable").

(** [bool(v)]: the truth value used by [if v], [not v] and [v or w]. *)
Definition truthy (v : pyval) : bool :=
  match v with
  | PNone => false
  | PBool b => b
  | PInt z => negb (z =? 0)%Z
  | PFloat f => negb (PrimFloat.eqb f 0%float)
  | PStr s => negb (String.eqb s "")
  | PList l => match l with [] => false | _ => true end
  | PDict d => match d with [] => false | _ => true end
  end.

(** [isinstance(v, str)] *)
Definition isinstance_str (v : pyval) : bool :=
  match v with PStr _ => true | _ => false end.

(** [isinstance(v, (int, float))]; [bool] is a subclass of [int]. *)
Definition isinstance_number (v : pyval) : bool :=
  match v with PBool _ | PInt _ | PFloat _ => true | _ => false end.

(** [v == s] for a string [s]: only an equal [str] compares equal. *)
Definition py_eq_str (v : pyval) (s : string) : bool :=
  match v with PStr s' => String.eqb s' s | _ => false end.

Fixpoint assoc (k : string) (d : list (string * pyval)) : option pyval :=
  match d with
  | [] => None
  | (k', v) :: d' => if String.eqb k' k then Some v else assoc k d'
  end.

(** [v.get(k, default)]; only a [dict] has the method. *)
Definition py_get (v : pyval) (k : string) (default : pyval) : result pyval :=
  match v with
  | PDict d => Ok (match assoc k d with Some x => x | None => default end)
  | _ => Raise (AttributeError v "get")
  end.

(** A byte [10xxxxxx] continues the UTF-8 encoding of a character. *)
Definition is_continuation (a : ascii) : bool :=
  match a with
  | Ascii _ _ _ _ _ _ b6 b7 => b7 && negb b6
  end.

(** The characters of a [str]: its bytes, each first byte taken with the
    continuation bytes that follow it. *)
Fixpoint utf8_chars (s : string) : list string :=
  match s with
  | EmptyString => []
  | String a s' =>
      let continued := match s' with
                       | String b _ => is_continuation b
                       | EmptyString => false
                       end in
      match utf8_chars s' with
      | h :: t => if continued then String a h :: t else String a EmptyString :: h :: t
      | [] => [String a EmptyString]
      end
  end.

(** The items a [for] loop or a generator draws from [v]. A [str] yields its
    characters, each again a [str], a [dict] its keys; [len(v)] is their
    number. *)
Definition py_iter (v : pyval) : result (list pyval) :=
  match v with
  | PList l => Ok l
  | PStr s => Ok (map PStr (utf8_chars s))
  | PDict d => Ok (map (fun kv => PStr (fst kv)) d)
  | _ => Raise (TypeError_not_iterable v)
  end.

(** [any(asset.get(field) == s for asset in assets)] on the drawn items: the
    generator stops at the first match, and an item that is not a [dict]
    raises when it is reached. *)
Fixpoint any_get_eq (field : string) (s : string) (items : list pyval) : result bool :=
  match items with
  | [] => Ok false
  | asset :: rest =>
      match py_get asset field PNone with
      | Raise e => Raise e
      | Ok v => if py_eq_str v s then Ok true else any_get_eq field s rest
      end
  end.

Definition any_field_eq (field : string) (s : string) (assets : pyval) : result bool :=
  match py_iter assets with
  | Raise e => Raise e
  | Ok items => any_get_eq field s items
  end.

(** ** Strings *)

Definition slash : ascii := "/"%char.
Definition qmark : ascii := "?"%char.
Definition newline : string := String (ascii_of_nat 10) EmptyString.

(** [s.split(c)] for a one-character separator: never empty. *)
Fixpoint py_split (c : ascii) (s : string) : list string :=
  match s with
  | EmptyString => [EmptyString]
  | String a s' =>
      if Ascii.eqb a c then EmptyString :: py_split c s'
      else match py_split c s' with
           | [] => [String a EmptyString]
           | h :: t => String a h :: t
           end
  end.

(** [sep.join(l)] *)
Definition py_join (sep : string) (l : list string) : string := String.concat sep l.

(** [l[-1]] of a list that [split] returned. *)
Definition last_item (l : list string) : string := List.last l EmptyString.

(** [l[:-1]] *)
Definition but_last (l : list string) : list string := List.removelast l.

(** [l[0]] of a list that [split] returned. *)
Definition first_item (l : list string) : string := List.hd EmptyString l.

(** [s.startswith(p)] *)
Definition startswith (p s : string) : bool := String.prefix p s.

(** [str(n)] of a non-negative [int] such as [len(l)] or a loop index. *)
Definition str_nat (n : nat) : string := NilZero.string_of_uint (Nat.to_uint n).

(** [str(z)] of an [int]. *)
Definition str_Z (z : Z) : string := NilZero.string_of_int (Z.to_int z).

(** The file name both remote tools take from a URL:
    [url.split('/')[-1].split('?')[0]]. *)
Definition url_filename (url : string) : string :=
  first_item (py_split qmark (last_item (py_split slash url))).

(** ** Paths: [os.path] on a POSIX host, that is [posixpath] *)

Fixpoint drop_while (f : ascii -> bool) (l : list ascii) : list ascii :=
  match l with
  | [] => []
  | a :: l' => if f a then drop_while f l' else l
  end.

Definition is_slash (a : ascii) : bool := Ascii.eqb a slash.

Definition endswith_slash (s : string) : bool :=
  match rev (list_ascii_of_string s) with
  | a :: _ => is_slash a
  | [] => false
  end.

(** [os.path.join(a, b)], as [posixpath.join] computes it. *)
Definition os_path_join (a b : string) : string :=
  if startswith "/" b then b
  else if String.eqb a "" || endswith_slash a then a +:+ b
  else a +:+ "/" +:+ b.

(** [os.path.dirname(p)], as [posixpath.dirname] computes it: everything up
    to the last slash, with the trailing slashes stripped unless the head is
    made of slashes only. *)
Definition os_path_dirname (p : string) : string :=
  let head := drop_while (fun a => negb (is_slash a)) (rev (list_ascii_of_string p)) in
  match drop_while is_slash head with
  | [] => string_of_list_ascii (rev head)
  | stripped => string_of_list_ascii (rev stripped)
  end.

(** [os.path.basename(p)], as [posixpath.basename] computes it. *)
Definition os_path_basename (p : string) : string := last_item (py_split slash p).

Example py_split_url :
  py_split slash "https://host/dir/model.fbx?v=2" = ["https:"; ""; "host"; "dir"; "model.fbx?v=2"].
Proof. reflexivity. Qed.

Example url_filename_model : url_filename "https://host/dir/model.fbx?v=2" = "model.fbx".
Proof. reflexivity. Qed.

Example dirname_examples :
  os_path_dirname "/tmp/tmpab12/model.fbx" = "/tmp/tmpab12"
  /\ os_path_dirname "/model.fbx" = "/"
  /\ os_path_dirname "model.fbx" = ""
  /\ os_path_dirname "/tmp/tmpab12/" = "/tmp/tmpab12"
  /\ os_path_dirname "//a" = "//".
Proof. repeat split. Qed.

Example join_examples :
  os_path_join "/tmp/tmpab12" "model.fbx" = "/tmp/tmpab12/model.fbx"
  /\ os_path_join "/tmp/tmpab12" "" = "/tmp/tmpab12/"
  /\ os_path_join "/home/u/" ".unity_mcp_downloads" = "/home/u/.unity_mcp_downloads".
Proof. repeat split. Qed.

(** ** The world: a file system and the history of the run *)

(** A path names a directory or a regular file with its bytes. Paths are
    compared as written: no [.], [..] or repeated slashes are resolved. *)
Inductive node : Type :=
| Dir
| File (content : string).

Inductive fs_op : Type :=
| OpMkdtemp
| OpMakedirs (p : string)
| OpOpenWb (p : string)
| OpWrite (p : string) (chunk : string)
| OpRemove (p : string)
| OpRmdir (p : string)
| OpExists (p : string).

(** What the tools do to the outside, most recent first. *)
Inductive event : Type :=
| EvConnect
| EvSend (cmd : string) (params : pyval)
| EvHttpGet (url : string)
| EvFs (op : fs_op)
| EvPrint (msg : string).

Record world : Type := mkWorld {
  w_fs : gmap string node;
  w_trace : list event
}.

(** The answer of the HTTP client to a streaming GET: no response at all, or
    a response whose [raise_for_status] may raise, the chunks its body
    yields, and the error that may end the body early. *)
Inductive http_outcome : Type :=
| HttpNoResponse (e : exn)
| HttpResponse (status_error : option exn) (chunks : list string) (broken : option exn).

(** The collaborators. Each one sees the history so far, so an answer may
    depend on everything that happened before it.
    - [home]: the value of [os.path.expanduser("~")];
    - [connect]: the exception [get_unity_connection()] raises, if any;
    - [reply]: what [send_command] returns or raises;
    - [fetch]: the answer of the HTTP client;
    - [temp_name]: the name [mkdtemp] picks;
    - [fs_fault]: the error with which a file system call fails, if any;
    - [print_fault]: the error with which [print] fails on a message, if
      any: a [UnicodeEncodeError] where the standard output cannot encode
      it, an [OSError] where the output is closed;
    - [int_max_str_digits]: the value of [sys.get_int_max_str_digits()],
      4300 unless it was changed; it is 0, for no limit, or at least 640. *)
Record environment : Type := mkEnv {
  home : string;
  connect : list event -> option exn;
  reply : list event -> string -> pyval -> result pyval;
  fetch : list event -> string -> http_outcome;
  temp_name : list event -> string;
  fs_fault : list event -> fs_op -> option exn;
  print_fault : list event -> string -> option exn;
  int_max_str_digits : nat
}.

(** ** The monad of the tools: state and exceptions *)

Definition M (A : Type) : Type := world -> result A * world.

Definition ret {A : Type} (a : A) : M A := fun w => (Ok a, w).

Definition raise {A : Type} (e : exn) : M A := fun w => (Raise e, w).

Definition bind {A B : Type} (m : M A) (k : A -> M B) : M B :=
  fun w =>
    match m w with
    | (Ok a, w') => k a w'
    | (Raise e, w') => (Raise e, w')
    end.

(** [try: m  except Exception as e: h e]; what [m] did before it raised
    stays done. *)
Definition try_except {A : Type} (m : M A) (h : exn -> M A) : M A :=
  fun w =>
    match m w with
    | (Ok a, w') => (Ok a, w')
    | (Raise e, w') => h e w'
    end.

Definition lift {A : Type} (r : result A) : M A := fun w => (r, w).

Definition log (ev : event) (w : world) : world :=
  {| w_fs := w_fs w; w_trace := ev :: w_trace w |}.

Declare Scope py_scope.
Delimit Scope py_scope with py.
Notation "x <- m ;; k" := (bind m (fun x => k))
  (at level 100, m at next level, k at level 200, right associativity) : py_scope.
Notation "m ;; k" := (bind m (fun _ => k))
  (at level 100, k at level 200, right associativity) : py_scope.
Local Open Scope py_scope.

Definition OSError (cls msg : string) : exn := Exception cls msg.

(** ** The limit on the digits of an [int] that [str] converts *)

(** The number of decimal digits of [z], without its sign. *)
Definition digits (z : Z) : nat := String.length (str_Z (Z.abs z)).

(** [str(z)] is refused when there is a limit and [z] has more digits. *)
Definition over_limit (limit : nat) (z : Z) : bool :=
  negb (Nat.eqb limit 0) && Nat.ltb limit (digits z).

(** [str(v)] is refused when the text of [v] would hold such an [int]. *)
Fixpoint str_refused (limit : nat) (v : pyval) : bool :=
  match v with
  | PInt z => over_limit limit z
  | PList l => existsb (str_refused limit) l
  | PDict d => existsb (fun kv => let '(_, x) := kv in str_refused limit x) d
  | _ => false
  end.

Definition ValueError_digits (limit : nat) : exn :=
  Exception "ValueError"
    ("Exceeds the limit (" +:+ str_nat limit
     +:+ " digits) for integer string conversion; "
     +:+ "use sys.set_int_max_str_digits() to increase the limit").

Section Tools.

Variable env : environment.

(** [str(v)] of a [float], a [list] or a [dict]: the interpreter's own
    formatting, taken as given. *)
Variable str_other : pyval -> string.

(** The text of [str(v)], where [str(v)] returns. *)
Definition str_text (v : pyval) : string :=
  match v with
  | PNone => "None"
  | PBool true => "True"
  | PBool false => "False"
  | PInt z => str_Z z
  | PStr s => s
  | _ => str_other v
  end.

(** [str(v)], as an f-string formats [v]: an [int] with more digits than the
    limit allows is refused with a [ValueError], on its own or inside a
    [list] or a [dict]. *)
Definition py_str (v : pyval) : result string :=
  if str_refused (int_max_str_digits env) v
  then Raise (ValueError_digits (int_max_str_digits env))
  else Ok (str_text v).

(** *** The Unity connection *)

Definition get_unity_connection : M unit :=
  fun w =>
    match connect env (w_trace w) with
    | Some e => (Raise e, log EvConnect w)
    | None => (Ok tt, log EvConnect w)
    end.

Definition send_command (cmd : string) (params : pyval) : M pyval :=
  fun w => (reply env (w_trace w) cmd params, log (EvSend cmd params) w).

(** [print(msg)]: the message goes to the standard output, or the call
    fails and nothing is written. *)
Definition print (msg : string) : M unit :=
  fun w =>
    match print_fault env (w_trace w) msg with
    | Some e => (Raise e, w)
    | None => (Ok tt, log (EvPrint msg) w)
    end.

(** *** The file system *)

(** A call into the file system: it is recorded, then it fails if the
    environment says so (permissions, a full disk, a name the system
    refuses), and otherwise acts on the file system. *)
Definition fs_call {A : Type} (op : fs_op)
    (act : gmap string node -> result A * gmap string node) : M A :=
  fun w =>
    match fs_fault env (w_trace w) op with
    | Some e => (Raise e, log (EvFs op) w)
    | None =>
        let '(r, fs') := act (w_fs w) in
        (r, {| w_fs := fs'; w_trace := EvFs op :: w_trace w |})
    end.

(** [tempfile.mkdtemp()]: a directory that did not exist before. *)
Definition tempfile_mkdtemp : M string :=
  fun w =>
    fs_call OpMkdtemp
      (fun fs =>
         let d := temp_name env (w_trace w) in
         match fs !! d with
         | Some _ => (Raise (OSError "FileExistsError" "No usable temporary directory name found"), fs)
         | None => (Ok d, <[d := Dir]> fs)
         end) w.

(** The non-empty prefixes of [p] that end before a slash, and [p] itself:
    the directories [makedirs] walks through. *)
Definition path_prefixes (p : string) : list string :=
  let segs := py_split slash p in
  List.filter (fun q => negb (String.eqb q ""))
    (map (fun k => py_join "/" (firstn k segs)) (seq 1 (List.length segs))).

Fixpoint mkdir_chain (ps : list string) (fs : gmap string node)
    : result unit * gmap string node :=
  match ps with
  | [] => (Ok tt, fs)
  | p :: rest =>
      match fs !! p with
      | Some (File _) => (Raise (OSError "FileExistsError" p), fs)
      | _ => mkdir_chain rest (<[p := Dir]> fs)
      end
  end.

(** [os.makedirs(p, exist_ok=True)]: a directory that is already there is
    a success; otherwise the missing directories on the way are made, and a
    regular file in the way is an error. *)
Definition os_makedirs (p : string) : M unit :=
  fs_call (OpMakedirs p)
    (fun fs =>
       if String.eqb p "" then (Raise (OSError "FileNotFoundError" p), fs)
       else match fs !! p with
            | Some Dir => (Ok tt, fs)
            | _ => mkdir_chain (path_prefixes p) fs
            end).

Definition names_a_directory (base : string) : bool :=
  String.eqb base "" || String.eqb base "." || String.eqb base "..".

(** [open(p, 'wb')]: the file is created or truncated. *)
Definition open_wb (p : string) : M unit :=
  fs_call (OpOpenWb p)
    (fun fs =>
       if names_a_directory (os_path_basename p)
       then (Raise (OSError "IsADirectoryError" p), fs)
       else match fs !! p with
            | Some Dir => (Raise (OSError "IsADirectoryError" p), fs)
            | _ =>
                if String.eqb (os_path_dirname p) "" then (Ok tt, <[p := File ""]> fs)
                else match fs !! os_path_dirname p with
                     | Some Dir => (Ok tt, <[p := File ""]> fs)
                     | Some (File _) => (Raise (OSError "NotADirectoryError" p), fs)
                     | None => (Raise (OSError "FileNotFoundError" p), fs)
                     end
            end).

Definition append_bytes (chunk : string) (n : node) : node :=
  match n with
  | File c => File (c +:+ chunk)
  | Dir => Dir
  end.

(** [f.write(chunk)] on the file opened at [p]. *)
Definition file_write (p : string) (chunk : string) : M unit :=
  fs_call (OpWrite p chunk) (fun fs => (Ok tt, alter (append_bytes chunk) p fs)).

(** [os.remove(p)] *)
Definition os_remove (p : string) : M unit :=
  fs_call (OpRemove p)
    (fun fs =>
       match fs !! p with
       | Some (File _) => (Ok tt, delete p fs)
       | Some Dir => (Raise (OSError "IsADirectoryError" p), fs)
       | None => (Raise (OSError "FileNotFoundError" p), fs)
       end).

Definition has_entries (d : string) (fs : gmap string node) : bool :=
  negb (bool_decide (map_Forall (fun q _ => os_path_dirname q <> d \/ q = d) fs)).

(** [os.rmdir(p)]: only an empty directory goes. *)
Definition os_rmdir (p : string) : M unit :=
  fs_call (OpRmdir p)
    (fun fs =>
       match fs !! p with
       | Some Dir =>
           if has_entries p fs then (Raise (OSError "OSError" "Directory not empty"), fs)
           else (Ok tt, delete p fs)
       | Some (File _) => (Raise (OSError "NotADirectoryError" p), fs)
       | None => (Raise (OSError "FileNotFoundError" p), fs)
       end).

(** [os.path.exists(p)]: never raises, a failing [stat] reads as absent. *)
Definition os_path_exists (p : string) : M bool :=
  fun w =>
    match fs_fault env (w_trace w) (OpExists p) with
    | Some _ => (Ok false, log (EvFs (OpExists p)) w)
    | None => (Ok (bool_decide (is_Some (w_fs w !! p))), log (EvFs (OpExists p)) w)
    end.

(** [os.path.expanduser("~")] *)
Definition expanduser_home : string := home env.

(** ** [asset_tools.py] *)

(** The body of the streaming GET in [download_file]: the request, then
    [response.raise_for_status()]. *)
Definition http_stream (url : string) : M (list string * option exn) :=
  fun w =>
    match fetch env (w_trace w) url with
    | HttpNoResponse e => (Raise e, log (EvHttpGet url) w)
    | HttpResponse (Some e) _ _ => (Raise e, log (EvHttpGet url) w)
    | HttpResponse None chunks broken => (Ok (chunks, broken), log (EvHttpGet url) w)
    end.

(** [async for chunk in response.aiter_bytes(): f.write(chunk)] *)
Fixpoint write_chunks (target_path : string) (chunks : list string) : M unit :=
  match chunks with
  | [] => ret tt
  | chunk :: rest => file_write target_path chunk ;; write_chunks target_path rest
  end.

Definition end_of_body (broken : option exn) : M unit :=
  match broken with
  | Some e => raise e
  | None => ret tt
  end.

(** [download_file(url, target_path)], lines 269-293. The file is opened at
    [target_path] itself and written chunk by chunk; any exception is
    printed and turned into [False]. The [print] is inside the handler: when
    it fails, its exception leaves [download_file]. *)
Definition download_file (url target_path : string) : M bool :=
  try_except
    (os_makedirs (os_path_dirname target_path) ;;
     response <- http_stream url ;;
     open_wb target_path ;;
     write_chunks target_path (fst response) ;;
     end_of_body (snd response) ;;
     ret true)
    (fun e =>
       print ("下載文件時出錯: " +:+ str_exn e) ;;
       ret false).

(** [not v or not isinstance(v, str)] fails exactly on a non-empty [str]. *)
Definition valid_string (v : pyval) : option string :=
  if negb (truthy v) || negb (isinstance_str v) then None
  else match v with PStr s => Some s | _ => None end.

Definition normalize_target (target_path : string) : string :=
  if startswith "Assets/" target_path then target_path
  else "Assets/" +:+ target_path.

Definition asset_list_params (target_path : string) : pyval :=
  let target_dir := py_join "/" (but_last (py_split slash target_path)) in
  let target_filename := last_item (py_split slash target_path) in
  PDict [("search_pattern", PStr target_filename);
         ("folder", PStr (if String.eqb target_dir "" then "Assets" else target_dir))].

Definition import_params (download_path target_path : string) (overwrite : bool) : pyval :=
  PDict [("source_path", PStr download_path);
         ("target_path", PStr target_path);
         ("overwrite", PBool overwrite)].

Definition msg_bad_url : string := "錯誤: URL必須是有效的字符串".
Definition msg_bad_target : string := "錯誤: 目標路徑必須是有效的字符串".
Definition msg_exists (target_path : string) : string :=
  "資源已存在於'" +:+ target_path +:+ "'。使用overwrite=True來替換它。".
Definition msg_download_failed (url : string) : string :=
  "從URL下載資源失敗: " +:+ url.
Definition msg_file_missing (download_path : string) : string :=
  "下載似乎成功，但找不到文件: " +:+ download_path.
Definition msg_import_error (error url target_path : string) : string :=
  "導入資源時發生錯誤: " +:+ error +:+ " (URL: " +:+ url +:+ ", 目標: " +:+ target_path +:+ ")".
Definition msg_imported (url target_path : string) : string :=
  "資源成功從" +:+ url +:+ "導入到" +:+ target_path.
Definition msg_exception (e : exn) : string :=
  "導入遠程資源時發生錯誤: " +:+ str_exn e.

(** The clean-up of the temporary download; [temp_dir] is bound exactly
    when [temp_download] is true. *)
Definition cleanup (temp_dir : option string) (download_path : string) : M unit :=
  match temp_dir with
  | Some d => try_except (os_remove download_path ;; os_rmdir d) (fun _ => ret tt)
  | None => ret tt
  end.

(** From [download_file] to the end of the [try] block. *)
Definition fetch_and_import (url target_path : string) (overwrite : bool)
    (temp_dir : option string) (download_path : string) : M pyval :=
  download_success <- download_file url download_path ;;
  if negb download_success then ret (PStr (msg_download_failed url))
  else
    present <- os_path_exists download_path ;;
    if negb present then ret (PStr (msg_file_missing download_path))
    else
      response <- send_command "IMPORT_ASSET" (import_params download_path target_path overwrite) ;;
      cleanup temp_dir download_path ;;
      success <- lift (py_get response "success" (PBool false)) ;;
      if negb (truthy success) then
        error <- lift (py_get response "error" (PStr "未知錯誤")) ;;
        error <- lift (py_str error) ;;
        ret (PStr (msg_import_error error url target_path))
      else lift (py_get response "message" (PStr (msg_imported url target_path))).

Definition download_dir : string := os_path_join expanduser_home ".unity_mcp_downloads".

(** The [try] block of [import_remote_asset], lines 319-389. *)
Definition import_remote_asset_try (url target_path : pyval)
    (overwrite temp_download : bool) : M pyval :=
  get_unity_connection ;;
  match valid_string url with
  | None => ret (PStr msg_bad_url)
  | Some url =>
      match valid_string target_path with
      | None => ret (PStr msg_bad_target)
      | Some target_path =>
          let target_path := normalize_target target_path in
          listing <- send_command "GET_ASSET_LIST" (asset_list_params target_path) ;;
          existing_assets <- lift (py_get listing "assets" (PList [])) ;;
          asset_exists <- lift (any_field_eq "path" target_path existing_assets) ;;
          if asset_exists && negb overwrite then ret (PStr (msg_exists target_path))
          else if temp_download then
            temp_dir <- tempfile_mkdtemp ;;
            let filename := url_filename url in
            let download_path := os_path_join temp_dir filename in
            fetch_and_import url target_path overwrite (Some temp_dir) download_path
          else
            os_makedirs download_dir ;;
            let filename := url_filename url in
            let download_path := os_path_join download_dir filename in
            fetch_and_import url target_path overwrite None download_path
      end
  end.

(** [import_remote_asset(ctx, url, target_path, overwrite, temp_download)],
    lines 299-391. *)
Definition import_remote_asset (url target_path : pyval)
    (overwrite temp_download : bool) : M pyval :=
  try_except (import_remote_asset_try url target_path overwrite temp_download)
    (fun e => ret (PStr (msg_exception e))).

Definition msg_no_urls : string := "URL列表為空，沒有資源需要導入".

Definition label (i n : nat) : string :=
  "[" +:+ str_nat (i + 1) +:+ "/" +:+ str_nat n +:+ "] ".

(** One turn of the loop of [batch_import_remote_assets]: the line it
    appends to [results]. [n] is [len(urls)]. The handler formats [url]
    itself, outside any [try]. *)
Definition batch_item (n i : nat) (url : pyval) (target_folder : string)
    (overwrite : bool) : M string :=
  try_except
    (match url with
     | PStr u =>
         let filename := url_filename u in
         let target_path := target_folder +:+ "/" +:+ filename in
         result <- import_remote_asset (PStr u) (PStr target_path) overwrite true ;;
         result <- lift (py_str result) ;;
         ret (label i n +:+ filename +:+ ": " +:+ result)
     | _ => raise (AttributeError url "split")
     end)
    (fun e =>
       url <- lift (py_str url) ;;
       ret (label i n +:+ url +:+ ": 錯誤 - " +:+ str_exn e)).

Fixpoint batch_loop (n i : nat) (urls : list pyval) (target_folder : string)
    (overwrite : bool) : M (list string) :=
  match urls with
  | [] => ret []
  | url :: rest =>
      line <- batch_item n i url target_folder overwrite ;;
      lines <- batch_loop n (S i) rest target_folder overwrite ;;
      ret (line :: lines)
  end.

(** [batch_import_remote_assets(ctx, urls, target_folder, overwrite)],
    lines 394-433. [urls] may be anything: [if not urls] takes its truth
    value, and the [for] loop, which is outside any [try], draws its
    items. *)
Definition batch_import_remote_assets (urls : pyval) (target_folder : string)
    (overwrite : bool) : M pyval :=
  if negb (truthy urls) then ret (PStr msg_no_urls)
  else
    items <- lift (py_iter urls) ;;
    results <- batch_loop (List.length items) 0 items target_folder overwrite ;;
    ret (PStr (py_join newline results)).

(** ** [material_tools.py] *)

(** [value < 0.0] *)
Definition lt_zero (value : pyval) : bool :=
  match value with
  | PInt z => (z <? 0)%Z
  | PFloat f => PrimFloat.ltb f 0%float
  | _ => false
  end.

(** [value > 1.0]; [True] is [1]. *)
Definition gt_one (value : pyval) : bool :=
  match value with
  | PInt z => (1 <? z)%Z
  | PFloat f => PrimFloat.ltb 1%float f
  | _ => false
  end.

(** ["RGBA"[i] if i < 4 else f"component {i}"] *)
Definition channel (i : nat) : string :=
  match i with
  | 0 => "R"
  | 1 => "G"
  | 2 => "B"
  | 3 => "A"
  | _ => "component " +:+ str_nat i
  end.

Definition msg_color_count (n : nat) : string :=
  "Error: Color must have 3 (RGB) or 4 (RGBA) components, but got " +:+ str_nat n +:+ ".".
Definition msg_color_not_number (i : nat) : string :=
  "Error: Color component at index " +:+ str_nat i +:+ " is not a number.".
Definition msg_color_range (i : nat) (value : string) : string :=
  "Error: Color " +:+ channel i +:+ " value must be in the range 0.0-1.0, but got " +:+ value +:+ ".".

(** [for i, value in enumerate(color)]: the message of the first component
    that is refused, if any; the range message formats the value, which may
    raise. *)
Fixpoint check_components (i : nat) (values : list pyval) : result (option string) :=
  match values with
  | [] => Ok None
  | value :: rest =>
      if negb (isinstance_number value) then Ok (Some (msg_color_not_number i))
      else if lt_zero value || gt_one value then
        match py_str value with
        | Ok shown => Ok (Some (msg_color_range i shown))
        | Raise e => Raise e
        end
      else check_components (S i) rest
  end.

(** The block under [if color:]; [None] and the empty list skip it. *)
Definition validate_color (color : option (list pyval)) : result (option string) :=
  match color with
  | None | Some [] => Ok None
  | Some values =>
      if negb (Nat.eqb (List.length values) 3 || Nat.eqb (List.length values) 4)
      then Ok (Some (msg_color_count (List.length values)))
      else check_components 0 values
  end.

(** [if material_name:] *)
Definition given (material_name : option string) : option string :=
  match material_name with
  | Some s => if String.eqb s "" then None else Some s
  | None => None
  end.

Definition material_list_params (material_name : string) : pyval :=
  PDict [("type", PStr "Material");
         ("search_pattern", PStr material_name);
         ("folder", PStr "Assets/Materials")].

Definition set_material_params (object_name : string) (material_name : option string)
    (color : option (list pyval)) (create_if_missing : bool) : pyval :=
  PDict ([("object_name", PStr object_name); ("create_if_missing", PBool create_if_missing)]
         ++ match given material_name with
            | Some m => [("material_name", PStr m)]
            | None => []
            end
         ++ match color with
            | None | Some [] => []
            | Some values => [("color", PList values)]
            end).

Definition msg_object_not_found (object_name : string) : string :=
  "GameObject '" +:+ object_name +:+ "' not found in the scene.".
Definition msg_material_not_found (material_name : string) : string :=
  "Material '" +:+ material_name +:+ "' not found. Use create_if_missing=True to create it.".
Definition msg_applied_shared (material_name object_name material_path : string) : string :=
  "Applied shared material '" +:+ material_name +:+ "' to " +:+ object_name
  +:+ " (saved at " +:+ material_path +:+ ")".
Definition msg_applied_instance (material_name object_name : string) : string :=
  "Applied instance material '" +:+ material_name +:+ "' to " +:+ object_name.
Definition msg_material_exception (e : exn) : string :=
  "Error setting material: " +:+ str_exn e.

(** The look-up of the material: [Some message] when the tool returns
    there, [None] when it goes on. *)
Definition check_material (material_name : option string) (create_if_missing : bool)
    : M (option string) :=
  match given material_name with
  | None => ret None
  | Some m =>
      listing <- send_command "GET_ASSET_LIST" (material_list_params m) ;;
      material_assets <- lift (py_get listing "assets" (PList [])) ;;
      material_exists <- lift (any_field_eq "name" m material_assets) ;;
      if negb material_exists && negb create_if_missing
      then ret (Some (msg_material_not_found m))
      else ret None
  end.

(** The [try] block of [set_material], lines 30-86. *)
Definition set_material_try (object_name : string) (material_name : option string)
    (color : option (list pyval)) (create_if_missing : bool) : M pyval :=
  get_unity_connection ;;
  object_response <- send_command "FIND_OBJECTS_BY_NAME" (PDict [("name", PStr object_name)]) ;;
  objects <- lift (py_get object_response "objects" (PList [])) ;;
  if negb (truthy objects) then ret (PStr (msg_object_not_found object_name))
  else
    missing <- check_material material_name create_if_missing ;;
    match missing with
    | Some msg => ret (PStr msg)
    | None =>
        refused <- lift (validate_color color) ;;
        match refused with
        | Some msg => ret (PStr msg)
        | None =>
            result <- send_command "SET_MATERIAL"
                        (set_material_params object_name material_name color create_if_missing) ;;
            material_name <- lift (py_get result "material_name" (PStr "unknown")) ;;
            material_path <- lift (py_get result "path" PNone) ;;
            if truthy material_path then
              material_name <- lift (py_str material_name) ;;
              material_path <- lift (py_str material_path) ;;
              ret (PStr (msg_applied_shared material_name object_name material_path))
            else
              material_name <- lift (py_str material_name) ;;
              ret (PStr (msg_applied_instance material_name object_name))
        end
    end.

(** [set_material(ctx, object_name, material_name, color, create_if_missing)],
    lines 9-89. *)
Definition set_material (object_name : string) (material_name : option string)
    (color : option (list pyval)) (create_if_missing : bool) : M pyval :=
  try_except (set_material_try object_name material_name color create_if_missing)
    (fun e => ret (PStr (msg_material_exception e))).

End Tools.

(** * Properties *)

(** ** Reasoning about runs *)

Lemma bind_ok {A B : Type} (m : M A) (k : A -> M B) (w w' : world) (a : A) :
  m w = (Ok a, w') -> bind m k w = k a w'.
Proof. intros H. unfold bind. now rewrite H. Qed.

Lemma bind_raise {A B : Type} (m : M A) (k : A -> M B) (w w' : world) (e : exn) :
  m w = (Raise e, w') -> bind m k w = (Raise e, w').
Proof. intros H. unfold bind. now rewrite H. Qed.

Lemma try_except_ok {A : Type} (m : M A) (h : exn -> M A) (w w' : world) (a : A) :
  m w = (Ok a, w') -> try_except m h w = (Ok a, w').
Proof. intros H. unfold try_except. now rewrite H. Qed.

Lemma try_except_raise {A : Type} (m : M A) (h : exn -> M A) (w w' : world) (e : exn) :
  m w = (Raise e, w') -> try_except m h w = h e w'.
Proof. intros H. unfold try_except. now rewrite H. Qed.

(** A [try] whose handler returns a value returns a value. *)
Lemma try_except_returns {A : Type} (m : M A) (f : exn -> A) (w : world) :
  exists a w', try_except m (fun e => ret (f e)) w = (Ok a, w').
Proof.
  unfold try_except, ret. destruct (m w) as [[a|e] w']; eauto.
Qed.

(** A relation between the world before and the world after that every
    step of a program respects, and that composes. *)
Section Stable.

Variable R : world -> world -> Prop.
Hypothesis R_refl : forall w, R w w.
Hypothesis R_trans : forall a b c, R a b -> R b c -> R a c.

Definition stable {A : Type} (m : M A) : Prop := forall w, R w (snd (m w)).

Lemma stable_ret {A : Type} (a : A) : stable (ret a).
Proof. intros w. apply R_refl. Qed.

Lemma stable_raise {A : Type} (e : exn) : stable (@raise A e).
Proof. intros w. apply R_refl. Qed.

Lemma stable_lift {A : Type} (r : result A) : stable (lift r).
Proof. intros w. apply R_refl. Qed.

Lemma stable_bind {A B : Type} (m : M A) (k : A -> M B) :
  stable m -> (forall a, stable (k a)) -> stable (bind m k).
Proof.
  intros Hm Hk w. unfold bind. specialize (Hm w).
  destruct (m w) as [[a|e] w1]; simpl in *; [|assumption].
  eapply R_trans; [exact Hm | apply Hk].
Qed.

Lemma stable_try_except {A : Type} (m : M A) (h : exn -> M A) :
  stable m -> (forall e, stable (h e)) -> stable (try_except m h).
Proof.
  intros Hm Hh w. unfold try_except. specialize (Hm w).
  destruct (m w) as [[a|e] w1]; simpl in *; [assumption|].
  eapply R_trans; [exact Hm | apply Hh].
Qed.

End Stable.

(** *** What a run adds to the history *)

(** [emits P w w']: the history of [w'] is the history of [w] with new
    events in front, all of them in [P]. *)
Definition emits (P : event -> Prop) (w w' : world) : Prop :=
  exists new, w_trace w' = (new ++ w_trace w)%list /\ Forall P new.

Lemma emits_refl (P : event -> Prop) (w : world) : emits P w w.
Proof. exists []. split; [reflexivity | constructor]. Qed.

Lemma emits_trans (P : event -> Prop) (a b c : world) :
  emits P a b -> emits P b c -> emits P a c.
Proof.
  intros (n1 & E1 & F1) (n2 & E2 & F2). exists (n2 ++ n1)%list. split.
  - rewrite E2, E1. apply app_assoc.
  - apply Forall_app. split; assumption.
Qed.

Lemma emits_cons (P : event -> Prop) (ev : event) (w w' : world) :
  P ev -> w_trace w' = ev :: w_trace w -> emits P w w'.
Proof. intros HP E. exists [ev]. split; [exact E | repeat constructor; exact HP]. Qed.

Lemma emits_weaken (P Q : event -> Prop) (w w' : world) :
  (forall ev, P ev -> Q ev) -> emits P w w' -> emits Q w w'.
Proof.
  intros HPQ (new & E & F). exists new. split; [exact E|].
  eapply Forall_impl; [exact F | exact HPQ].
Qed.

(** *** What a run does to the directories *)

(** [keeps_dirs w w']: every directory of [w] is still a directory in [w']. *)
Definition keeps_dirs (w w' : world) : Prop :=
  forall d, w_fs w !! d = Some Dir -> w_fs w' !! d = Some Dir.

Lemma keeps_dirs_refl (w : world) : keeps_dirs w w.
Proof. intros d H. exact H. Qed.

Lemma keeps_dirs_trans (a b c : world) :
  keeps_dirs a b -> keeps_dirs b c -> keeps_dirs a c.
Proof. intros H1 H2 d H. apply H2, H1, H. Qed.

Lemma mkdir_chain_keeps (ps : list string) (fs : gmap string node) (d : string) :
  fs !! d = Some Dir -> snd (mkdir_chain ps fs) !! d = Some Dir.
Proof.
  revert fs. induction ps as [|p ps IH]; intros fs H; simpl; [exact H|].
  destruct (fs !! p) as [[|c]|] eqn:E; simpl; try exact H.
  - apply IH. destruct (decide (p = d)) as [->|Hne].
    + apply lookup_insert_eq.
    + rewrite lookup_insert_ne by exact Hne. exact H.
  - apply IH. destruct (decide (p = d)) as [->|Hne].
    + apply lookup_insert_eq.
    + rewrite lookup_insert_ne by exact Hne. exact H.
Qed.

Section Steps.

Variable env : environment.

Lemma emits_get_unity_connection (P : event -> Prop) :
  P EvConnect -> stable (emits P) (get_unity_connection env).
Proof.
  intros HP w. unfold get_unity_connection.
  destruct (connect env (w_trace w)); apply (emits_cons P EvConnect); auto.
Qed.

Lemma emits_send_command (P : event -> Prop) (cmd : string) (params : pyval) :
  P (EvSend cmd params) -> stable (emits P) (send_command env cmd params).
Proof. intros HP w. apply (emits_cons P (EvSend cmd params)); auto. Qed.

Lemma emits_print (P : event -> Prop) (msg : string) :
  P (EvPrint msg) -> stable (emits P) (print env msg).
Proof.
  intros HP w. unfold print. destruct (print_fault env (w_trace w) msg).
  - apply emits_refl.
  - apply (emits_cons P (EvPrint msg)); auto.
Qed.

Lemma emits_fs_call {A : Type} (P : event -> Prop) (op : fs_op)
    (act : gmap string node -> result A * gmap string node) :
  P (EvFs op) -> stable (emits P) (fs_call env op act).
Proof.
  intros HP w. unfold fs_call.
  destruct (fs_fault env (w_trace w) op).
  - apply (emits_cons P (EvFs op)); auto.
  - destruct (act (w_fs w)) as [r fs']. apply (emits_cons P (EvFs op)); auto.
Qed.

Lemma emits_tempfile_mkdtemp (P : event -> Prop) :
  P (EvFs OpMkdtemp) -> stable (emits P) (tempfile_mkdtemp env).
Proof. intros HP w. unfold tempfile_mkdtemp. apply (emits_fs_call P); exact HP. Qed.

Lemma emits_os_path_exists (P : event -> Prop) (p : string) :
  P (EvFs (OpExists p)) -> stable (emits P) (os_path_exists env p).
Proof.
  intros HP w. unfold os_path_exists.
  destruct (fs_fault env (w_trace w) (OpExists p)); apply (emits_cons P (EvFs (OpExists p))); auto.
Qed.

Lemma emits_http_stream (P : event -> Prop) (url : string) :
  P (EvHttpGet url) -> stable (emits P) (http_stream env url).
Proof.
  intros HP w. unfold http_stream.
  destruct (fetch env (w_trace w) url) as [e|[e|] chunks broken];
    apply (emits_cons P (EvHttpGet url)); auto.
Qed.

Lemma keeps_dirs_same_fs {A : Type} (m : M A) :
  (forall w, w_fs (snd (m w)) = w_fs w) -> stable keeps_dirs m.
Proof. intros H w d Hd. rewrite H. exact Hd. Qed.

Lemma keeps_dirs_get_unity_connection : stable keeps_dirs (get_unity_connection env).
Proof.
  apply keeps_dirs_same_fs. intros w. unfold get_unity_connection.
  destruct (connect env (w_trace w)); reflexivity.
Qed.

Lemma keeps_dirs_send_command (cmd : string) (params : pyval) :
  stable keeps_dirs (send_command env cmd params).
Proof. apply keeps_dirs_same_fs. reflexivity. Qed.

Lemma keeps_dirs_print (msg : string) : stable keeps_dirs (print env msg).
Proof.
  apply keeps_dirs_same_fs. intros w. unfold print.
  destruct (print_fault env (w_trace w) msg); reflexivity.
Qed.

Lemma keeps_dirs_http_stream (url : string) : stable keeps_dirs (http_stream env url).
Proof.
  apply keeps_dirs_same_fs. intros w. unfold http_stream.
  destruct (fetch env (w_trace w) url) as [e|[e|] chunks broken]; reflexivity.
Qed.

Lemma keeps_dirs_os_path_exists (p : string) : stable keeps_dirs (os_path_exists env p).
Proof.
  apply keeps_dirs_same_fs. intros w. unfold os_path_exists.
  destruct (fs_fault env (w_trace w) (OpExists p)); reflexivity.
Qed.

Lemma keeps_dirs_fs_call {A : Type} (op : fs_op)
    (act : gmap string node -> result A * gmap string node) :
  (forall fs d, fs !! d = Some Dir -> snd (act fs) !! d = Some Dir) ->
  stable keeps_dirs (fs_call env op act).
Proof.
  intros Hact w d Hd. unfold fs_call.
  destruct (fs_fault env (w_trace w) op); [exact Hd|].
  specialize (Hact (w_fs w) d Hd). destruct (act (w_fs w)) as [r fs']. exact Hact.
Qed.

Lemma keeps_dirs_os_makedirs (p : string) : stable keeps_dirs (os_makedirs env p).
Proof.
  apply keeps_dirs_fs_call. intros fs d Hd.
  destruct (String.eqb p ""); [exact Hd|].
  destruct (fs !! p) as [[|c]|]; try exact Hd; apply mkdir_chain_keeps, Hd.
Qed.

Lemma keeps_dirs_open_wb (p : string) : stable keeps_dirs (open_wb env p).
Proof.
  apply keeps_dirs_fs_call. intros fs d Hd.
  destruct (names_a_directory (os_path_basename p)); [exact Hd|].
  destruct (fs !! p) as [[|c]|] eqn:Ep; try exact Hd.
  - destruct (String.eqb (os_path_dirname p) "").
    + simpl. rewrite lookup_insert_ne; [exact Hd | congruence].
    + destruct (fs !! os_path_dirname p) as [[|c']|]; simpl; try exact Hd.
      rewrite lookup_insert_ne; [exact Hd | congruence].
  - destruct (String.eqb (os_path_dirname p) "").
    + simpl. rewrite lookup_insert_ne; [exact Hd | congruence].
    + destruct (fs !! os_path_dirname p) as [[|c']|]; simpl; try exact Hd.
      rewrite lookup_insert_ne; [exact Hd | congruence].
Qed.

Lemma keeps_dirs_file_write (p chunk : string) : stable keeps_dirs (file_write env p chunk).
Proof.
  apply keeps_dirs_fs_call. intros fs d Hd. simpl.
  rewrite lookup_alter. destruct (decide (p = d)) as [->|Hne].
  - rewrite Hd. reflexivity.
  - exact Hd.
Qed.

End Steps.

(** ** Facts about strings *)

Lemma py_split_not_nil (c : ascii) (s : string) : py_split c s <> [].
Proof.
  destruct s as [|a s]; simpl; [discriminate|].
  destruct (Ascii.eqb a c); [discriminate|].
  destruct (py_split c s); discriminate.
Qed.

Lemma concat_cons (sep x : string) (l : list string) :
  l <> [] -> String.concat sep (x :: l) = x +:+ sep +:+ String.concat sep l.
Proof. destruct l; [contradiction | reflexivity]. Qed.

(** [c.join(s.split(c)) == s] *)
Lemma py_join_split (c : ascii) (s : string) :
  py_join (String c EmptyString) (py_split c s) = s.
Proof.
  unfold py_join. induction s as [|a s IH]; simpl; [reflexivity|].
  destruct (Ascii.eqb_spec a c) as [->|Hne].
  - rewrite concat_cons by apply py_split_not_nil. simpl. now rewrite IH.
  - pose proof (py_split_not_nil c s) as Hnil.
    destruct (py_split c s) as [|h t]; [contradiction|].
    destruct t as [|h' t'].
    + simpl in *. now rewrite IH.
    + rewrite concat_cons by discriminate. rewrite concat_cons in IH by discriminate.
      rewrite <- IH. reflexivity.
Qed.

Lemma append_assoc (a b c : string) : (a +:+ b) +:+ c = a +:+ (b +:+ c).
Proof.
  induction a as [|x a IH]; [reflexivity|].
  change (String x ((a +:+ b) +:+ c) = String x (a +:+ (b +:+ c))). now rewrite IH.
Qed.

(** [sep.join(l[:-1]) + sep + l[-1] == sep.join(l)] for two items or more. *)
Lemma join_but_last (sep : string) (l : list string) (x y : string) :
  py_join sep (but_last (x :: y :: l)) +:+ sep +:+ last_item (x :: y :: l)
  = py_join sep (x :: y :: l).
Proof.
  unfold py_join, but_last, last_item. revert x y.
  induction l as [|z l IH]; intros x y; [reflexivity|].
  change (removelast (x :: y :: z :: l)) with (x :: removelast (y :: z :: l)).
  change (List.last (x :: y :: z :: l) EmptyString) with (List.last (y :: z :: l) EmptyString).
  rewrite (concat_cons sep x (removelast (y :: z :: l))).
  - rewrite !append_assoc. rewrite IH. symmetry. apply concat_cons. discriminate.
  - destruct l; discriminate.
Qed.

Lemma prefix_split (p s : string) :
  String.prefix p s = true -> exists r, s = p +:+ r.
Proof.
  revert s. induction p as [|a p IH]; intros s H.
  - now exists s.
  - destruct s as [|b s]; [discriminate|].
    cbn [String.prefix] in H.
    destruct (ascii_dec a b) as [->|]; [|discriminate].
    destruct (IH s H) as [r ->]. now exists r.
Qed.

(** ** Scenarios: concrete collaborators to run the tools against *)

Module Scenario.

(** A project without the asset, and an import that succeeds. *)
Definition reply_fresh (t : list event) (cmd : string) (params : pyval) : result pyval :=
  if String.eqb cmd "GET_ASSET_LIST" then Ok (PDict [("assets", PList [])])
  else if String.eqb cmd "FIND_OBJECTS_BY_NAME" then Ok (PDict [("objects", PList [PStr "Cube"])])
  else Ok (PDict [("success", PBool true); ("message", PStr "imported")]).

(** A project that already holds [Assets/Imported/model.fbx]. *)
Definition reply_listed (t : list event) (cmd : string) (params : pyval) : result pyval :=
  if String.eqb cmd "GET_ASSET_LIST"
  then Ok (PDict [("assets", PList [PDict [("name", PStr "model.fbx");
                                          ("path", PStr "Assets/Imported/model.fbx")]])])
  else Ok (PDict [("success", PBool true); ("message", PStr "imported")]).

Definition no_fault (t : list event) (op : fs_op) : option exn := None.

Definition body_ok (t : list event) (url : string) : http_outcome :=
  HttpResponse None ["abc"; "def"] None.

(** The server answers 404: [raise_for_status] raises. *)
Definition body_404 (t : list event) (url : string) : http_outcome :=
  HttpResponse (Some (Exception "HTTPStatusError" "Client error '404 Not Found'")) [] None.

(** The connection drops after the first chunk. *)
Definition body_cut (t : list event) (url : string) : http_outcome :=
  HttpResponse None ["abc"] (Some (Exception "ReadError" "peer closed connection")).

(** Every URL is served, but [https://host/bad.png] answers 404. *)
Definition body_by_url (t : list event) (url : string) : http_outcome :=
  if String.eqb url "https://host/bad.png" then body_404 t url else body_ok t url.

(** The first temporary directory is [/tmp/tmpab12]; later ones are
    numbered by the length of the history. *)
Definition temp_names (t : list event) : string :=
  match t with
  | [_; _] => "/tmp/tmpab12"
  | _ => "/tmp/tmp" +:+ str_nat (List.length t)
  end.

Definition make_env (reply : list event -> string -> pyval -> result pyval)
    (fetch : list event -> string -> http_outcome) : environment :=
  {| home := "/home/u";
     connect := fun _ => None;
     reply := reply;
     fetch := fetch;
     temp_name := temp_names;
     fs_fault := no_fault;
     print_fault := fun _ _ => None;
     int_max_str_digits := 4300 |}.

Definition env_ok : environment := make_env reply_fresh body_ok.
Definition env_404 : environment := make_env reply_fresh body_404.
Definition env_cut : environment := make_env reply_fresh body_cut.
Definition env_listed : environment := make_env reply_listed body_ok.
Definition env_by_url : environment := make_env reply_fresh body_by_url.

Definition str_other (v : pyval) : string := "<value>".

(** A machine with [/tmp] and the home directory, and no history. *)
Definition w0 : world :=
  {| w_fs := <["/tmp" := Dir]> (<["/home" := Dir]> (<["/home/u" := Dir]> ∅)); w_trace := [] |}.

Definition url : string := "https://host/dir/model.fbx?v=2".

End Scenario.

(** The example of the specification: a reachable URL, no asset there yet,
    temporary storage. The file is downloaded to a temporary path that ends
    in [model.fbx], imported from it, and the temporary directory is gone. *)
Example import_model_fbx :
  let r := import_remote_asset Scenario.env_ok Scenario.str_other
             (PStr Scenario.url) (PStr "Assets/Imported/model.fbx") false true Scenario.w0 in
  fst r = Ok (PStr "imported")
  /\ In (EvSend "IMPORT_ASSET"
           (import_params "/tmp/tmpab12/model.fbx" "Assets/Imported/model.fbx" false))
        (w_trace (snd r))
  /\ w_fs (snd r) !! "/tmp/tmpab12" = None
  /\ w_fs (snd r) !! "/tmp/tmpab12/model.fbx" = None.
Proof. vm_compute. repeat split; auto 10. Qed.

(** ** The file name taken from a URL *)

(** The file name as the specification words it: the last path segment of
    the URL, the URL being taken before any [?]. *)
Definition spec_filename (url : string) : string :=
  last_item (py_split slash (first_item (py_split qmark url))).

(** C3. The download file name should be the last path segment of the URL
    taken before any [?]. On a URL whose query holds a slash the code, which
    cuts at the last slash first and at the [?] second, returns a piece of
    the query instead: [model.fbx] is expected, [b] is computed. *)
Theorem url_filename_slash_in_query :
  spec_filename "https://host/dir/model.fbx?sig=a/b" = "model.fbx"
  /\ url_filename "https://host/dir/model.fbx?sig=a/b" = "b".
Proof. split; reflexivity. Qed.

(** *** Where the code and the specification agree on the file name *)

Fixpoint has_char (c : ascii) (s : string) : bool :=
  match s with
  | EmptyString => false
  | String a s' => Ascii.eqb a c || has_char c s'
  end.

Lemma py_split_no_sep (c : ascii) (s : string) :
  has_char c s = false -> py_split c s = [s].
Proof.
  induction s as [|a s IH]; [reflexivity|].
  cbn [has_char py_split]. destruct (Ascii.eqb a c); [discriminate|].
  intros H. rewrite (IH H). reflexivity.
Qed.

(** Splitting [p + q] when the separator does not occur in [q]: the pieces
    of [p], the last one with [q] added. *)
Lemma py_split_append (c : ascii) (p q : string) :
  has_char c q = false ->
  py_split c (p +:+ q)
  = (but_last (py_split c p) ++ [last_item (py_split c p) +:+ q])%list.
Proof.
  intros Hq. unfold but_last, last_item. induction p as [|a p IH].
  - cbn. apply py_split_no_sep, Hq.
  - change (String a p +:+ q) with (String a (p +:+ q)). cbn [py_split].
    pose proof (py_split_not_nil c p) as Hnil. rewrite IH.
    destruct (py_split c p) as [|h t]; [contradiction|].
    destruct (Ascii.eqb a c).
    + destruct t; reflexivity.
    + destruct t; reflexivity.
Qed.

Lemma last_item_app (l : list string) (x : string) : last_item (l ++ [x])%list = x.
Proof. unfold last_item. apply last_last. Qed.

Lemma has_char_last_item (c d : ascii) (p : string) :
  has_char d p = false -> has_char d (last_item (py_split c p)) = false.
Proof.
  unfold last_item. induction p as [|a p IH]; [reflexivity|].
  cbn [has_char py_split]. pose proof (py_split_not_nil c p) as Hnil.
  destruct (Ascii.eqb a d) eqn:Ead; [discriminate|]. cbn [orb]. intros H.
  specialize (IH H).
  destruct (py_split c p) as [|h t]; [contradiction|].
  destruct (Ascii.eqb a c).
  - exact IH.
  - destruct t as [|h' t'].
    + cbn in *. now rewrite Ead.
    + exact IH.
Qed.

Lemma first_item_split_append (c : ascii) (x q : string) :
  has_char c x = false -> first_item (py_split c (x +:+ String c q)) = x.
Proof.
  induction x as [|a x IH]; intros H.
  - change ("" +:+ String c q) with (String c q). cbn [py_split].
    rewrite Ascii.eqb_refl. reflexivity.
  - change (String a x +:+ String c q) with (String a (x +:+ String c q)).
    cbn [has_char] in H. cbn [py_split].
    destruct (Ascii.eqb a c); [discriminate|]. specialize (IH H).
    pose proof (py_split_not_nil c (x +:+ String c q)) as Hnil.
    destruct (py_split c (x +:+ String c q)) as [|h t]; [contradiction|].
    cbn in *. now rewrite IH.
Qed.

(** On a URL without a query, and on a URL whose query holds no slash, the
    code computes the file name of the specification. *)
Lemma url_filename_agrees (path query : string) :
  has_char qmark path = false ->
  has_char slash query = false ->
  url_filename path = spec_filename path
  /\ url_filename (path +:+ "?" +:+ query) = spec_filename (path +:+ "?" +:+ query).
Proof.
  intros Hp Hq. unfold url_filename, spec_filename. split.
  - rewrite (py_split_no_sep qmark path Hp).
    rewrite (py_split_no_sep qmark _ (has_char_last_item slash qmark path Hp)).
    reflexivity.
  - change ("?" +:+ query) with (String qmark query).
    rewrite (first_item_split_append qmark path query Hp).
    rewrite (py_split_append slash path (String qmark query)) by exact Hq.
    rewrite last_item_app.
    apply first_item_split_append, has_char_last_item, Hp.
Qed.

(** ** The empty batch *)

(** C7. [batch_import_remote_assets] on an empty list returns the fixed
    message and leaves the world as it was: no collaborator is called, the
    file system is untouched. *)
Theorem batch_empty_no_effect (env : environment) (str_other : pyval -> string)
    (target_folder : string) (overwrite : bool) (w : world) :
  batch_import_remote_assets env str_other (PList []) target_folder overwrite w
  = (Ok (PStr msg_no_urls), w).
Proof. reflexivity. Qed.

(** ** The existence check comes before the download *)

Definition is_dict (v : pyval) : bool :=
  match v with PDict _ => true | _ => false end.

(** The entry of an asset listing whose [path] is [p]. *)
Definition has_path (p : string) (asset : pyval) : Prop :=
  match asset with
  | PDict d => assoc "path" d = Some (PStr p)
  | _ => False
  end.

Lemma valid_string_PStr (s : string) : s <> "" -> valid_string (PStr s) = Some s.
Proof.
  intros H. unfold valid_string. simpl.
  destruct (String.eqb_spec s ""); [contradiction | reflexivity].
Qed.

Lemma valid_string_inv (v : pyval) (s : string) :
  valid_string v = Some s -> v = PStr s /\ s <> "".
Proof.
  unfold valid_string. destruct v; simpl; try discriminate;
    try (destruct (negb _); discriminate).
  destruct (String.eqb_spec s0 ""); simpl; [discriminate|].
  intros [= ->]. split; [reflexivity | assumption].
Qed.

Lemma any_get_eq_found (field s : string) (pre post : list pyval) (a : pyval) :
  Forall (fun x => is_dict x = true) pre ->
  (exists d, a = PDict d /\ assoc field d = Some (PStr s)) ->
  any_get_eq field s (pre ++ a :: post)%list = Ok true.
Proof.
  intros Hpre (d & -> & Hd). induction Hpre as [|x pre Hx _ IH]; simpl.
  - rewrite Hd. simpl. now rewrite String.eqb_refl.
  - destruct x; try discriminate. simpl.
    destruct (py_eq_str _ s); [reflexivity | exact IH].
Qed.

(** C4. When the listing holds an entry whose path is the normalized target
    path and [overwrite] is false, [import_remote_asset] returns the
    "already exists" message, and the only things it has done are the
    connection and the [GET_ASSET_LIST] query: no HTTP request, no file
    system call. This holds in every world, so also for a repeated call. *)
Theorem existing_asset_is_not_downloaded (env : environment) (str_other : pyval -> string)
    (url target_path : string) (temp_download : bool) (w : world)
    (listing : pyval) (pre post : list pyval) (entry : pyval) :
  url <> "" -> target_path <> "" ->
  connect env (w_trace w) = None ->
  reply env (EvConnect :: w_trace w) "GET_ASSET_LIST"
    (asset_list_params (normalize_target target_path)) = Ok listing ->
  py_get listing "assets" (PList []) = Ok (PList (pre ++ entry :: post)) ->
  Forall (fun a => is_dict a = true) pre ->
  has_path (normalize_target target_path) entry ->
  import_remote_asset env str_other (PStr url) (PStr target_path) false temp_download w
  = (Ok (PStr (msg_exists (normalize_target target_path))),
     {| w_fs := w_fs w;
        w_trace := EvSend "GET_ASSET_LIST" (asset_list_params (normalize_target target_path))
                   :: EvConnect :: w_trace w |}).
Proof.
  intros Hu Ht Hc Hr Hg Hpre Hentry.
  unfold import_remote_asset. apply try_except_ok.
  unfold import_remote_asset_try.
  rewrite (bind_ok _ _ w (log EvConnect w) tt)
    by (unfold get_unity_connection; now rewrite Hc).
  rewrite (valid_string_PStr url Hu), (valid_string_PStr target_path Ht).
  erewrite bind_ok by (unfold send_command; simpl; rewrite Hr; reflexivity).
  erewrite bind_ok by (unfold lift; rewrite Hg; reflexivity).
  erewrite bind_ok.
  2:{ unfold lift, any_field_eq. simpl.
      rewrite (any_get_eq_found "path" (normalize_target target_path) pre post entry Hpre);
        [reflexivity|].
      destruct entry; try contradiction. eauto. }
  reflexivity.
Qed.

Lemma existing_asset_is_not_downloaded_witness :
  import_remote_asset Scenario.env_listed Scenario.str_other
    (PStr Scenario.url) (PStr "Imported/model.fbx") false true Scenario.w0
  = (Ok (PStr (msg_exists "Assets/Imported/model.fbx")),
     {| w_fs := w_fs Scenario.w0;
        w_trace := [EvSend "GET_ASSET_LIST" (asset_list_params "Assets/Imported/model.fbx");
                    EvConnect] |}).
Proof.
  apply (existing_asset_is_not_downloaded Scenario.env_listed Scenario.str_other
           Scenario.url "Imported/model.fbx" true Scenario.w0
           (PDict [("assets", PList [PDict [("name", PStr "model.fbx");
                                           ("path", PStr "Assets/Imported/model.fbx")]])])
           [] []
           (PDict [("name", PStr "model.fbx"); ("path", PStr "Assets/Imported/model.fbx")])).
  - discriminate.
  - discriminate.
  - reflexivity.
  - reflexivity.
  - reflexivity.
  - constructor.
  - reflexivity.
Defined.

(** ** Failures end as messages *)

(** [yields Q m]: whenever [m] returns a value, the value is in [Q]. *)
Definition yields {A : Type} (Q : A -> Prop) (m : M A) : Prop :=
  forall w a w', m w = (Ok a, w') -> Q a.

Lemma yields_ret {A : Type} (Q : A -> Prop) (a : A) : Q a -> yields Q (ret a).
Proof. intros H w a' w' [= <- _]. exact H. Qed.

Lemma yields_raise {A : Type} (Q : A -> Prop) (e : exn) : yields Q (raise e).
Proof. intros w a w' [=]. Qed.

Lemma yields_lift {A : Type} (Q : A -> Prop) (r : result A) :
  (forall a, r = Ok a -> Q a) -> yields Q (lift r).
Proof. intros H w a w' [= -> _]. now apply H. Qed.

Lemma yields_bind {A B : Type} (P : A -> Prop) (Q : B -> Prop) (m : M A) (k : A -> M B) :
  yields P m -> (forall a, P a -> yields Q (k a)) -> yields Q (bind m k).
Proof.
  intros Hm Hk w b w'. unfold bind.
  destruct (m w) as [[a|e] w1] eqn:E; [|discriminate].
  intros Hb. exact (Hk a (Hm _ _ _ E) _ _ _ Hb).
Qed.

Lemma yields_any {A : Type} (m : M A) : yields (fun _ => True) m.
Proof. intros w a w' _. exact I. Qed.

Lemma yields_try_except {A : Type} (Q : A -> Prop) (m : M A) (h : exn -> M A) :
  yields Q m -> (forall e, yields Q (h e)) -> yields Q (try_except m h).
Proof.
  intros Hm Hh w a w'. unfold try_except.
  destruct (m w) as [[a'|e] w1] eqn:E.
  - intros [= <- _]. exact (Hm _ _ _ E).
  - apply Hh.
Qed.

Definition is_str (v : pyval) : Prop := exists s, v = PStr s.

(** The collaborator keeps to its interface: in an answer that is a [dict],
    a [message] is a [str]. *)
Definition str_messages (env : environment) : Prop :=
  forall t cmd params d m,
    reply env t cmd params = Ok (PDict d) -> assoc "message" d = Some m -> is_str m.

Definition message_is_str (response : pyval) : Prop :=
  forall d m, response = PDict d -> assoc "message" d = Some m -> is_str m.

Lemma yields_send_command (env : environment) (cmd : string) (params : pyval) :
  str_messages env -> yields message_is_str (send_command env cmd params).
Proof.
  intros H w a w' [= Hr _] d m -> Hm. exact (H _ _ _ _ _ Hr Hm).
Qed.

Lemma is_str_PStr (s : string) : is_str (PStr s).
Proof. now exists s. Qed.

Lemma yields_fetch_and_import (env : environment) (str_other : pyval -> string)
    (url target_path : string) (overwrite : bool) (temp_dir : option string)
    (download_path : string) :
  str_messages env ->
  yields is_str (fetch_and_import env str_other url target_path overwrite temp_dir download_path).
Proof.
  intros Henv. unfold fetch_and_import.
  apply (yields_bind (fun _ => True)); [apply yields_any|]. intros ok _.
  destruct (negb ok); [apply yields_ret, is_str_PStr|].
  apply (yields_bind (fun _ => True)); [apply yields_any|]. intros present _.
  destruct (negb present); [apply yields_ret, is_str_PStr|].
  apply (yields_bind message_is_str); [apply yields_send_command, Henv|].
  intros response Hresp.
  apply (yields_bind (fun _ => True)); [apply yields_any|]. intros _ _.
  apply (yields_bind (fun _ => True)); [apply yields_any|]. intros success _.
  destruct (negb (truthy success)).
  - apply (yields_bind (fun _ => True)); [apply yields_any|]. intros error _.
    apply (yields_bind (fun _ => True)); [apply yields_any|]. intros shown _.
    apply yields_ret, is_str_PStr.
  - apply yields_lift. intros a Ha. destruct response; try discriminate.
    simpl in Ha. injection Ha as <-.
    destruct (assoc "message" d) as [m|] eqn:Em.
    + exact (Hresp d m eq_refl Em).
    + apply is_str_PStr.
Qed.

Lemma yields_import_remote_asset (env : environment) (str_other : pyval -> string)
    (url target_path : pyval) (overwrite temp_download : bool) :
  str_messages env ->
  yields is_str (import_remote_asset env str_other url target_path overwrite temp_download).
Proof.
  intros Henv. unfold import_remote_asset.
  apply yields_try_except; [|intros e; apply yields_ret, is_str_PStr].
  unfold import_remote_asset_try.
  apply (yields_bind (fun _ => True)); [apply yields_any|]. intros _ _.
  destruct (valid_string url) as [u|]; [|apply yields_ret, is_str_PStr].
  destruct (valid_string target_path) as [t|]; [|apply yields_ret, is_str_PStr].
  apply (yields_bind (fun _ => True)); [apply yields_any|]. intros listing _.
  apply (yields_bind (fun _ => True)); [apply yields_any|]. intros existing _.
  apply (yields_bind (fun _ => True)); [apply yields_any|]. intros asset_exists _.
  destruct (asset_exists && negb overwrite); [apply yields_ret, is_str_PStr|].
  destruct temp_download.
  - apply (yields_bind (fun _ => True)); [apply yields_any|]. intros temp_dir _.
    apply yields_fetch_and_import, Henv.
  - apply (yields_bind (fun _ => True)); [apply yields_any|]. intros _ _.
    apply yields_fetch_and_import, Henv.
Qed.

Lemma import_remote_asset_returns (env : environment) (str_other : pyval -> string)
    (url target_path : pyval) (overwrite temp_download : bool) (w : world) :
  exists v w',
    import_remote_asset env str_other url target_path overwrite temp_download w = (Ok v, w').
Proof. unfold import_remote_asset. apply try_except_returns. Qed.

Lemma import_remote_asset_returns_str (env : environment) (str_other : pyval -> string)
    (url target_path : pyval) (overwrite temp_download : bool) (w : world) :
  str_messages env ->
  exists s w',
    import_remote_asset env str_other url target_path overwrite temp_download w
    = (Ok (PStr s), w').
Proof.
  intros Henv.
  destruct (import_remote_asset_returns env str_other url target_path overwrite
              temp_download w) as (v & w' & E).
  destruct (yields_import_remote_asset env str_other url target_path overwrite
              temp_download Henv w v w' E) as [s ->].
  exists s, w'. exact E.
Qed.

(** [str(v)] returns: [v] holds no [int] beyond the limit on digits. Every
    [str] is such a value, and so is every value when there is no limit. *)
Definition formats (env : environment) (v : pyval) : Prop :=
  str_refused (int_max_str_digits env) v = false.

Lemma py_str_formats (env : environment) (str_other : pyval -> string) (v : pyval) :
  formats env v -> py_str env str_other v = Ok (str_text str_other v).
Proof. unfold formats, py_str. now intros ->. Qed.

Lemma py_str_refused (env : environment) (str_other : pyval -> string) (v : pyval) :
  str_refused (int_max_str_digits env) v = true ->
  py_str env str_other v = Raise (ValueError_digits (int_max_str_digits env)).
Proof. unfold py_str. now intros ->. Qed.

Lemma py_str_PStr (env : environment) (str_other : pyval -> string) (s : string) :
  py_str env str_other (PStr s) = Ok s.
Proof. reflexivity. Qed.

Lemma batch_item_returns (env : environment) (str_other : pyval -> string)
    (n i : nat) (url : pyval) (target_folder : string) (overwrite : bool) (w : world) :
  formats env url ->
  exists line w', batch_item env str_other n i url target_folder overwrite w = (Ok line, w').
Proof.
  intros Hf. unfold batch_item, try_except.
  match goal with |- context [match ?body w with _ => _ end] =>
    destruct (body w) as [[line|e] w1] end; [eauto|].
  unfold bind, lift. rewrite (py_str_formats env str_other url Hf). unfold ret. eauto.
Qed.

Lemma batch_loop_returns (env : environment) (str_other : pyval -> string)
    (n : nat) (target_folder : string) (overwrite : bool) (urls : list pyval) :
  Forall (formats env) urls ->
  forall i w, exists lines w',
    batch_loop env str_other n i urls target_folder overwrite w = (Ok lines, w')
    /\ List.length lines = List.length urls.
Proof.
  induction 1 as [|url rest Hurl _ IH]; intros i w; simpl.
  - exists [], w. split; reflexivity.
  - destruct (batch_item_returns env str_other n i url target_folder overwrite w Hurl)
      as (line & w1 & E1).
    destruct (IH (S i) w1) as (lines & w2 & E2 & Hlen).
    exists (line :: lines), w2. split.
    + rewrite (bind_ok _ _ _ _ _ E1), (bind_ok _ _ _ _ _ E2). reflexivity.
    + simpl. now rewrite Hlen.
Qed.

Lemma py_iter_falsy (urls : pyval) (items : list pyval) :
  truthy urls = false -> py_iter urls = Ok items -> items = [].
Proof.
  destruct urls as [| | | |s|l|d]; try discriminate; simpl.
  - destruct s; [|discriminate]. now intros _ [= <-].
  - destruct l; [|discriminate]. now intros _ [= <-].
  - destruct d; [|discriminate]. now intros _ [= <-].
Qed.

(** C5, as the code has it. [import_remote_asset] lets no exception out:
    whatever the arguments, the collaborators, the file system and the
    standard output do, it returns a value, and a [str] when the collaborator
    keeps to its interface, where a [message] is a [str] (on success the tool
    hands the collaborator's [message] on as it is).
    [batch_import_remote_assets] returns the fixed message for a [urls] that
    is false, and a [str] for a [urls] that can be iterated and whose items
    [str] can format, as it can every [str]. Its [for] loop and the f-string
    of its handler are outside any [try]. *)
Theorem tools_return_messages (env : environment) (str_other : pyval -> string) :
  (forall url target_path overwrite temp_download w,
     exists v w',
       import_remote_asset env str_other url target_path overwrite temp_download w = (Ok v, w'))
  /\ (forall urls items target_folder overwrite w,
        py_iter urls = Ok items -> Forall (formats env) items ->
        exists s w',
          batch_import_remote_assets env str_other urls target_folder overwrite w
          = (Ok (PStr s), w'))
  /\ (forall urls target_folder overwrite w,
        truthy urls = false ->
        batch_import_remote_assets env str_other urls target_folder overwrite w
        = (Ok (PStr msg_no_urls), w))
  /\ (str_messages env ->
      forall url target_path overwrite temp_download w,
      exists s w',
        import_remote_asset env str_other url target_path overwrite temp_download w
        = (Ok (PStr s), w')).
Proof.
  split; [|split; [|split]].
  - intros. apply import_remote_asset_returns.
  - intros urls items target_folder overwrite w Hiter Hitems.
    unfold batch_import_remote_assets. destruct (truthy urls); cbn [negb].
    + destruct (batch_loop_returns env str_other (List.length items) target_folder
                  overwrite items Hitems 0 w) as (lines & w' & E & _).
      exists (py_join newline lines), w'.
      unfold bind at 1. unfold lift at 1. rewrite Hiter.
      rewrite (bind_ok _ _ _ _ _ E). reflexivity.
    + exists msg_no_urls, w. reflexivity.
  - intros urls target_folder overwrite w Hfalse.
    unfold batch_import_remote_assets. rewrite Hfalse. reflexivity.
  - intros Henv url target_path overwrite temp_download w.
    apply import_remote_asset_returns_str, Henv.
Qed.

Lemma reply_fresh_str_messages (fetch : list event -> string -> http_outcome) :
  str_messages (Scenario.make_env Scenario.reply_fresh fetch).
Proof.
  intros t cmd params d m Hr Hm. simpl in Hr. unfold Scenario.reply_fresh in Hr.
  destruct (String.eqb cmd "GET_ASSET_LIST");
    [|destruct (String.eqb cmd "FIND_OBJECTS_BY_NAME")];
    injection Hr as <-; simpl in Hm; try discriminate.
  injection Hm as <-. apply is_str_PStr.
Qed.

Lemma env_ok_str_messages : str_messages Scenario.env_ok.
Proof. apply reply_fresh_str_messages. Qed.

Lemma tools_return_messages_witness :
  (exists s w',
     import_remote_asset Scenario.env_ok Scenario.str_other
       (PStr Scenario.url) (PStr "Imported/model.fbx") false true Scenario.w0
     = (Ok (PStr s), w'))
  /\ (exists s w',
        batch_import_remote_assets Scenario.env_ok Scenario.str_other
          (PList [PStr Scenario.url; PInt 7; PNone]) "Assets/ImportedAssets" false Scenario.w0
        = (Ok (PStr s), w'))
  /\ batch_import_remote_assets Scenario.env_ok Scenario.str_other PNone
       "Assets/ImportedAssets" false Scenario.w0
     = (Ok (PStr msg_no_urls), Scenario.w0).
Proof.
  destruct (tools_return_messages Scenario.env_ok Scenario.str_other)
    as (_ & Hbatch & Hfalse & Hstr).
  split; [|split].
  - apply Hstr. exact env_ok_str_messages.
  - apply (Hbatch _ [PStr Scenario.url; PInt 7; PNone]); [reflexivity|].
    repeat constructor.
  - apply Hfalse. reflexivity.
Defined.

(** The smallest [int] of 4301 digits, one more than the default limit. *)
Definition int_4301_digits : Z := (10 ^ 4300)%Z.

(** C5, as stated, fails for the batch. A [urls] that cannot be iterated
    makes the [for] loop raise [TypeError]; an item that is not a [str] and
    that [str] cannot format, here an [int] of 4301 digits, is reported by
    the handler of its turn, whose f-string then raises [ValueError]. Both
    exceptions leave [batch_import_remote_assets]. *)
Lemma batch_lets_exceptions_out :
  fst (batch_import_remote_assets Scenario.env_ok Scenario.str_other (PInt 5)
         "Assets/ImportedAssets" false Scenario.w0)
  = Raise (Exception "TypeError" "'int' object is not iterable")
  /\ fst (batch_import_remote_assets Scenario.env_ok Scenario.str_other
            (PList [PInt int_4301_digits]) "Assets/ImportedAssets" false Scenario.w0)
     = Raise (ValueError_digits 4300).
Proof. split; vm_compute; reflexivity. Qed.

(** ** The lines of a batch *)

(** The decimal digits of [n]. *)
Definition decimal (n : nat) : string := NilZero.string_of_uint (Nat.to_uint n).

(** The line of the item at position [k], counted from 0, of [n] items:
    the label [[k+1/n]], the file name of the URL, and the status. *)
Definition numbered_line (n k : nat) (url status : string) : string :=
  "[" +:+ decimal (k + 1) +:+ "/" +:+ decimal n +:+ "] "
  +:+ url_filename url +:+ ": " +:+ status.

Fixpoint numbered_lines (n k : nat) (urls statuses : list string) : list string :=
  match urls, statuses with
  | url :: urls', status :: statuses' =>
      numbered_line n k url status :: numbered_lines n (S k) urls' statuses'
  | _, _ => []
  end.

(** [in_turn urls w statuses w']: from the world [w], [import_remote_asset]
    is run on each URL in turn, with temporary storage and the target path
    made of the target folder and the file name of the URL; each run starts
    in the world the run before it left, whatever that run returned;
    [statuses] are the statuses the runs returned and [w'] is the world
    after the last one. *)
Inductive in_turn (env : environment) (str_other : pyval -> string)
    (target_folder : string) (overwrite : bool)
    : list string -> world -> list string -> world -> Prop :=
| in_turn_nil (w : world) : in_turn env str_other target_folder overwrite [] w [] w
| in_turn_cons (url : string) (urls : list string) (w w1 w2 : world)
    (status : string) (statuses : list string) :
    import_remote_asset env str_other (PStr url)
      (PStr (target_folder +:+ "/" +:+ url_filename url)) overwrite true w
    = (Ok (PStr status), w1) ->
    in_turn env str_other target_folder overwrite urls w1 statuses w2 ->
    in_turn env str_other target_folder overwrite (url :: urls) w (status :: statuses) w2.

Definition newline_char : ascii := ascii_of_nat 10.

Lemma numbered_line_label (n k : nat) (url status : string) :
  label k n +:+ url_filename url +:+ ": " +:+ status = numbered_line n k url status.
Proof.
  unfold label, numbered_line, decimal, str_nat.
  rewrite !append_assoc. reflexivity.
Qed.

Lemma batch_item_line (env : environment) (str_other : pyval -> string)
    (n k : nat) (url : string) (target_folder : string) (overwrite : bool)
    (w w1 : world) (status : string) :
  import_remote_asset env str_other (PStr url)
    (PStr (target_folder +:+ "/" +:+ url_filename url)) overwrite true w
  = (Ok (PStr status), w1) ->
  batch_item env str_other n k (PStr url) target_folder overwrite w
  = (Ok (numbered_line n k url status), w1).
Proof.
  intros E. unfold batch_item. apply try_except_ok.
  rewrite (bind_ok _ _ _ _ _ E).
  unfold bind, lift. rewrite py_str_PStr. unfold ret.
  rewrite numbered_line_label. reflexivity.
Qed.

Lemma batch_loop_lines (env : environment) (str_other : pyval -> string)
    (n : nat) (target_folder : string) (overwrite : bool) (urls : list string) :
  str_messages env ->
  forall k w, exists statuses w',
    in_turn env str_other target_folder overwrite urls w statuses w'
    /\ List.length statuses = List.length urls
    /\ batch_loop env str_other n k (map PStr urls) target_folder overwrite w
       = (Ok (numbered_lines n k urls statuses), w').
Proof.
  intros Henv. induction urls as [|url rest IH]; intros k w.
  - exists [], w. split; [constructor|]. split; reflexivity.
  - destruct (import_remote_asset_returns_str env str_other (PStr url)
                (PStr (target_folder +:+ "/" +:+ url_filename url)) overwrite true w Henv)
      as (status & w1 & E).
    destruct (IH (S k) w1) as (statuses & w2 & Hturn & Hlen & Eloop).
    exists (status :: statuses), w2. split; [|split].
    + exact (in_turn_cons _ _ _ _ _ _ _ _ _ _ _ E Hturn).
    + simpl. now rewrite Hlen.
    + cbn [map batch_loop].
      rewrite (bind_ok _ _ _ _ _ (batch_item_line env str_other n k url target_folder
                                   overwrite w w1 status E)).
      rewrite (bind_ok _ _ _ _ _ Eloop). reflexivity.
Qed.

Lemma py_split_cons (c : ascii) (x r : string) :
  has_char c x = false -> py_split c (x +:+ String c r) = x :: py_split c r.
Proof.
  induction x as [|a x IH]; intros H.
  - change ("" +:+ String c r) with (String c r). cbn [py_split].
    rewrite Ascii.eqb_refl. reflexivity.
  - change (String a x +:+ String c r) with (String a (x +:+ String c r)).
    cbn [has_char] in H. cbn [py_split].
    destruct (Ascii.eqb a c); [discriminate|]. rewrite (IH H). reflexivity.
Qed.

(** [c.join(l).split(c) == l] when no item of [l] holds a [c]. *)
Lemma py_split_join (c : ascii) (l : list string) :
  l <> [] -> Forall (fun x => has_char c x = false) l ->
  py_split c (py_join (String c EmptyString) l) = l.
Proof.
  intros Hne H. unfold py_join. induction H as [|x l Hx Hl IH]; [contradiction|].
  destruct l as [|y l'].
  - cbn. apply py_split_no_sep, Hx.
  - rewrite concat_cons by discriminate.
    change (String c "" +:+ String.concat (String c "") (y :: l'))
      with (String c (String.concat (String c "") (y :: l'))).
    rewrite (py_split_cons c x _ Hx). rewrite IH by discriminate. reflexivity.
Qed.

Lemma numbered_lines_length (n : nat) (urls : list string) :
  forall k statuses,
    List.length statuses = List.length urls ->
    List.length (numbered_lines n k urls statuses) = List.length urls.
Proof.
  induction urls as [|u us IH]; intros k statuses Hlen; [reflexivity|].
  destruct statuses as [|s ss]; [discriminate|]. cbn [numbered_lines List.length].
  f_equal. apply IH. now injection Hlen.
Qed.

Lemma numbered_lines_not_nil (n k : nat) (urls statuses : list string) :
  urls <> [] -> List.length statuses = List.length urls ->
  numbered_lines n k urls statuses <> [].
Proof.
  destruct urls as [|u us]; [contradiction|]. destruct statuses as [|s ss]; [discriminate|].
  discriminate.
Qed.

(** C6, as the code has it. For a non-empty list of [N] URLs, each a [str],
    and a collaborator whose messages are [str]s, the batch returns the join
    by newlines of exactly [N] strings, in the order of the input. The one at
    position [k] (from 0) is the label [[k+1/N]], the file name of the URL, a
    colon and the status [import_remote_asset] returned for that URL; every
    URL is run, in the world the runs before it left behind, whatever they
    returned. These are exactly [N] lines when none of them holds a newline
    of its own. *)
Theorem batch_lines (env : environment) (str_other : pyval -> string)
    (urls : list string) (target_folder : string) (overwrite : bool) (w : world) :
  urls <> [] -> str_messages env ->
  exists statuses w',
    in_turn env str_other target_folder overwrite urls w statuses w'
    /\ List.length statuses = List.length urls
    /\ batch_import_remote_assets env str_other (PList (map PStr urls)) target_folder
         overwrite w
       = (Ok (PStr (py_join newline (numbered_lines (List.length urls) 0 urls statuses))), w')
    /\ (Forall (fun line => has_char newline_char line = false)
          (numbered_lines (List.length urls) 0 urls statuses) ->
        py_split newline_char
          (py_join newline (numbered_lines (List.length urls) 0 urls statuses))
        = numbered_lines (List.length urls) 0 urls statuses
        /\ List.length (numbered_lines (List.length urls) 0 urls statuses)
           = List.length urls).
Proof.
  intros Hne Henv.
  destruct (batch_loop_lines env str_other (List.length urls) target_folder overwrite urls
              Henv 0 w) as (statuses & w' & Hturn & Hlen & Eloop).
  exists statuses, w'. split; [exact Hturn|]. split; [exact Hlen|]. split.
  - unfold batch_import_remote_assets.
    assert (Ht : truthy (PList (map PStr urls)) = true)
      by (destruct urls; [contradiction | reflexivity]).
    rewrite Ht. cbn [negb]. unfold bind at 1. unfold lift at 1. cbn [py_iter].
    rewrite length_map. rewrite (bind_ok _ _ _ _ _ Eloop). reflexivity.
  - intros Hlines. split.
    + apply py_split_join; [|exact Hlines].
      apply numbered_lines_not_nil; assumption.
    + apply numbered_lines_length, Hlen.
Qed.

Definition three_urls : list string :=
  ["https://host/a.png"; "https://host/bad.png"; "https://host/c.png"].

(** Three URLs, the second of which answers 404: three lines, the second
    one a failure, the third one processed all the same. *)
Lemma batch_lines_witness :
  exists w',
    batch_import_remote_assets Scenario.env_by_url Scenario.str_other
      (PList (map PStr three_urls)) "Assets/ImportedAssets" false Scenario.w0
    = (Ok (PStr (py_join newline
                   ["[1/3] a.png: imported";
                    "[2/3] bad.png: 從URL下載資源失敗: https://host/bad.png";
                    "[3/3] c.png: imported"])), w')
    /\ py_split newline_char
         (py_join newline
            ["[1/3] a.png: imported";
             "[2/3] bad.png: 從URL下載資源失敗: https://host/bad.png";
             "[3/3] c.png: imported"])
       = ["[1/3] a.png: imported";
          "[2/3] bad.png: 從URL下載資源失敗: https://host/bad.png";
          "[3/3] c.png: imported"].
Proof.
  destruct (batch_lines Scenario.env_by_url Scenario.str_other three_urls
              "Assets/ImportedAssets" false Scenario.w0)
    as (statuses & w' & Hturn & _ & E & Hsplit).
  - discriminate.
  - apply reply_fresh_str_messages.
  - assert (Hs : statuses = ["imported"; "從URL下載資源失敗: https://host/bad.png"; "imported"]).
    { unfold three_urls in Hturn.
      inversion Hturn as [|? ? ? ? ? ? ? E1 H1]; subst.
      inversion H1 as [|? ? ? ? ? ? ? E2 H2]; subst.
      inversion H2 as [|? ? ? ? ? ? ? E3 H3]; subst.
      inversion H3; subst.
      vm_compute in E1. injection E1 as <- <-.
      vm_compute in E2. injection E2 as <- <-.
      vm_compute in E3. injection E3 as <- _.
      reflexivity. }
    subst statuses. exists w'. split; [exact E|].
    apply Hsplit. repeat constructor.
Defined.

Definition reply_two_lines (t : list event) (cmd : string) (params : pyval) : result pyval :=
  if String.eqb cmd "GET_ASSET_LIST" then Ok (PDict [("assets", PList [])])
  else Ok (PDict [("success", PBool true);
                  ("message", PStr ("imported" +:+ newline +:+ "1 warning"))]).

(** C6, as stated, fails: one URL, an import whose message has two lines,
    and the result of the batch has two lines, not one. *)
Lemma batch_status_with_newline :
  let r := batch_import_remote_assets
             (Scenario.make_env reply_two_lines Scenario.body_ok) Scenario.str_other
             (PList [PStr "https://host/a.png"]) "Assets/ImportedAssets" false Scenario.w0 in
  fst r = Ok (PStr ("[1/1] a.png: imported" +:+ newline +:+ "1 warning"))
  /\ py_split newline_char ("[1/1] a.png: imported" +:+ newline +:+ "1 warning")
     = ["[1/1] a.png: imported"; "1 warning"].
Proof. split; vm_compute; reflexivity. Qed.

Example batch_with_a_failure :
  fst (batch_import_remote_assets Scenario.env_by_url Scenario.str_other
         (PList [PStr "https://host/a.png"; PStr "https://host/bad.png";
                 PStr "https://host/c.png"])
         "Assets/ImportedAssets" false Scenario.w0)
  = Ok (PStr (py_join newline
                ["[1/3] a.png: imported";
                 "[2/3] bad.png: 從URL下載資源失敗: https://host/bad.png";
                 "[3/3] c.png: imported"])).
Proof. vm_compute. reflexivity. Qed.

(** ** The events of the tools *)

Ltac emits_auto P :=
  repeat first
    [ apply (stable_ret _ (emits_refl P))
    | apply (stable_raise _ (emits_refl P))
    | apply (stable_lift _ (emits_refl P))
    | apply (stable_bind _ (emits_trans P))
    | apply (stable_try_except _ (emits_trans P))
    | apply emits_get_unity_connection
    | apply emits_send_command
    | apply emits_print
    | apply emits_tempfile_mkdtemp
    | apply emits_os_path_exists
    | apply emits_http_stream
    | apply emits_fs_call
    | match goal with |- forall _, _ => intro end
    | match goal with |- stable _ (match ?x with _ => _ end) => destruct x end ].

(** The events of [download_file url p]: it makes the directory of [p],
    sends the request, opens [p] itself and writes to it, and prints. *)
Definition download_event (url p : string) (ev : event) : Prop :=
  match ev with
  | EvFs (OpMakedirs d) => d = os_path_dirname p
  | EvHttpGet u => u = url
  | EvFs (OpOpenWb q) => q = p
  | EvFs (OpWrite q _) => q = p
  | EvPrint _ => True
  | _ => False
  end.

Lemma emits_write_chunks (env : environment) (P : event -> Prop) (p : string)
    (chunks : list string) :
  (forall c, P (EvFs (OpWrite p c))) -> stable (emits P) (write_chunks env p chunks).
Proof.
  intros HP. induction chunks as [|c rest IH]; simpl.
  - apply (stable_ret _ (emits_refl P)).
  - apply (stable_bind _ (emits_trans P)); [|intros _; exact IH].
    apply emits_fs_call, HP.
Qed.

Lemma emits_download_file (env : environment) (url p : string) :
  stable (emits (download_event url p)) (download_file env url p).
Proof.
  unfold download_file, end_of_body.
  apply (stable_try_except _ (emits_trans _)).
  - apply (stable_bind _ (emits_trans _)); [apply emits_fs_call; reflexivity|]. intros _.
    apply (stable_bind _ (emits_trans _)); [apply emits_http_stream; reflexivity|].
    intros response.
    apply (stable_bind _ (emits_trans _)); [apply emits_fs_call; reflexivity|]. intros _.
    apply (stable_bind _ (emits_trans _)); [apply emits_write_chunks; reflexivity|]. intros _.
    emits_auto (download_event url p).
  - intros e. emits_auto (download_event url p). exact I.
Qed.

Lemma emits_cleanup (env : environment) (P : event -> Prop) (temp_dir : option string)
    (download_path : string) :
  (forall op, P (EvFs op)) -> stable (emits P) (cleanup env temp_dir download_path).
Proof.
  intros HP. unfold cleanup, os_remove, os_rmdir. emits_auto P; apply HP.
Qed.

(** ** The target path is normalized *)

Lemma normalize_target_prefix (t : string) :
  startswith "Assets/" (normalize_target t) = true.
Proof.
  unfold normalize_target. destruct (startswith "Assets/" t) eqn:E; [exact E|].
  unfold startswith. cbn. destruct t; reflexivity.
Qed.

(** The folder and the search pattern of the existence query are the two
    halves of the path, split at its last slash. *)
Lemma asset_list_params_recombine (p : string) :
  startswith "Assets/" p = true ->
  exists folder pattern,
    asset_list_params p = PDict [("search_pattern", PStr pattern); ("folder", PStr folder)]
    /\ folder +:+ "/" +:+ pattern = p.
Proof.
  intros H. destruct (prefix_split _ _ H) as [r ->].
  unfold asset_list_params.
  pose proof (py_join_split slash ("Assets/" +:+ r)) as Hjoin.
  assert (Hs : py_split slash ("Assets/" +:+ r) = "Assets" :: py_split slash r).
  { cbn. pose proof (py_split_not_nil slash r). reflexivity. }
  pose proof (py_split_not_nil slash r) as Hnil.
  destruct (py_split slash r) as [|y l] eqn:Er; [contradiction|].
  rewrite Hs in *.
  assert (Hdir : exists rest, py_join "/" (but_last ("Assets" :: y :: l)) = String "A" rest).
  { unfold py_join, but_last.
    change (removelast ("Assets" :: y :: l)) with ("Assets" :: removelast (y :: l)).
    destruct (removelast (y :: l)); cbn; eauto. }
  destruct Hdir as [rest Hdir].
  eexists _, _. split.
  - rewrite Hdir. cbn. reflexivity.
  - rewrite <- Hdir. rewrite <- Hjoin. apply (join_but_last "/").
Qed.

Lemma stable_emits_weaken {A : Type} (P Q : event -> Prop) (m : M A) :
  (forall ev, P ev -> Q ev) -> stable (emits P) m -> stable (emits Q) m.
Proof. intros HPQ Hm w. exact (emits_weaken P Q _ _ HPQ (Hm w)). Qed.

(** A command that names a target path names [target_path]: the existence
    query asks for its folder and file name, the import command carries it. *)
Definition uses_target (target_path : string) (overwrite : bool) (ev : event) : Prop :=
  match ev with
  | EvSend cmd params =>
      (cmd = "GET_ASSET_LIST" /\ params = asset_list_params target_path)
      \/ (cmd = "IMPORT_ASSET"
          /\ exists download_path, params = import_params download_path target_path overwrite)
  | _ => True
  end.

Lemma download_event_no_send (url p target_path : string) (overwrite : bool) (ev : event) :
  download_event url p ev -> uses_target target_path overwrite ev.
Proof. destruct ev; simpl; intros H; try exact I; contradiction. Qed.

Lemma emits_fetch_and_import (env : environment) (str_other : pyval -> string)
    (url target_path : string) (overwrite : bool) (temp_dir : option string)
    (download_path : string) :
  stable (emits (uses_target target_path overwrite))
    (fetch_and_import env str_other url target_path overwrite temp_dir download_path).
Proof.
  unfold fetch_and_import.
  apply (stable_bind _ (emits_trans _)).
  { eapply stable_emits_weaken; [|apply emits_download_file].
    apply download_event_no_send. }
  intros ok. destruct (negb ok); [apply (stable_ret _ (emits_refl _))|].
  apply (stable_bind _ (emits_trans _)); [apply emits_os_path_exists; exact I|].
  intros present. destruct (negb present); [apply (stable_ret _ (emits_refl _))|].
  apply (stable_bind _ (emits_trans _)).
  { apply emits_send_command. right. split; [reflexivity | now exists download_path]. }
  intros response.
  apply (stable_bind _ (emits_trans _)); [apply emits_cleanup; intros op; exact I|].
  intros _. emits_auto (uses_target target_path overwrite).
Qed.

(** C8. A non-empty target path is normalized to begin with [Assets/]; the
    existence query is built from the normalized path (its folder and its
    search pattern are the two halves of that path), and every
    [GET_ASSET_LIST] and [IMPORT_ASSET] command the call sends names the
    normalized path, never the path as given. *)
Theorem target_path_is_normalized (env : environment) (str_other : pyval -> string)
    (url : pyval) (target_path : string) (overwrite temp_download : bool) (w : world) :
  target_path <> "" ->
  startswith "Assets/" (normalize_target target_path) = true
  /\ (exists folder pattern,
        asset_list_params (normalize_target target_path)
        = PDict [("search_pattern", PStr pattern); ("folder", PStr folder)]
        /\ folder +:+ "/" +:+ pattern = normalize_target target_path)
  /\ emits (uses_target (normalize_target target_path) overwrite) w
       (snd (import_remote_asset env str_other url (PStr target_path)
               overwrite temp_download w)).
Proof.
  intros Ht. split; [apply normalize_target_prefix|].
  split; [apply asset_list_params_recombine, normalize_target_prefix|].
  revert w. change (stable (emits (uses_target (normalize_target target_path) overwrite))
    (import_remote_asset env str_other url (PStr target_path) overwrite temp_download)).
  unfold import_remote_asset, import_remote_asset_try.
  rewrite (valid_string_PStr target_path Ht).
  apply (stable_try_except _ (emits_trans _)); [|intros e; apply (stable_ret _ (emits_refl _))].
  apply (stable_bind _ (emits_trans _)); [apply emits_get_unity_connection; exact I|].
  intros _. destruct (valid_string url) as [u|]; [|apply (stable_ret _ (emits_refl _))].
  apply (stable_bind _ (emits_trans _)).
  { apply emits_send_command. left. split; reflexivity. }
  intros listing.
  apply (stable_bind _ (emits_trans _)); [apply (stable_lift _ (emits_refl _))|].
  intros existing.
  apply (stable_bind _ (emits_trans _)); [apply (stable_lift _ (emits_refl _))|].
  intros asset_exists.
  destruct (asset_exists && negb overwrite); [apply (stable_ret _ (emits_refl _))|].
  destruct temp_download.
  - apply (stable_bind _ (emits_trans _)); [apply emits_tempfile_mkdtemp; exact I|].
    intros temp_dir. apply emits_fetch_and_import.
  - apply (stable_bind _ (emits_trans _)); [apply emits_fs_call; exact I|].
    intros _. apply emits_fetch_and_import.
Qed.

Lemma target_path_is_normalized_witness :
  startswith "Assets/" (normalize_target "Imported/model.fbx") = true
  /\ (exists folder pattern,
        asset_list_params (normalize_target "Imported/model.fbx")
        = PDict [("search_pattern", PStr pattern); ("folder", PStr folder)]
        /\ folder +:+ "/" +:+ pattern = normalize_target "Imported/model.fbx")
  /\ emits (uses_target (normalize_target "Imported/model.fbx") false) Scenario.w0
       (snd (import_remote_asset Scenario.env_ok Scenario.str_other (PStr Scenario.url)
               (PStr "Imported/model.fbx") false true Scenario.w0)).
Proof.
  apply (target_path_is_normalized Scenario.env_ok Scenario.str_other (PStr Scenario.url)
           "Imported/model.fbx" false true Scenario.w0).
  discriminate.
Defined.

(** ** A download that fails *)

(** The answers of the HTTP client on which [download_file] cannot
    complete: no response, a status that [raise_for_status] refuses, or a
    body that breaks off after some chunks. *)
Definition http_fails (o : http_outcome) : Prop :=
  match o with
  | HttpNoResponse _ => True
  | HttpResponse (Some _) _ _ => True
  | HttpResponse None _ (Some _) => True
  | HttpResponse None _ None => False
  end.

Lemma fs_call_trace {A : Type} (env : environment) (op : fs_op)
    (act : gmap string node -> result A * gmap string node) (w : world) :
  w_trace (snd (fs_call env op act w)) = EvFs op :: w_trace w.
Proof.
  unfold fs_call. destruct (fs_fault env (w_trace w) op); [reflexivity|].
  destruct (act (w_fs w)); reflexivity.
Qed.

(** What the handler of [download_file] does with the exception [e] in the
    world [w1]: it prints the error and returns [False], or the [print]
    fails and its exception goes on. *)
Definition handled (env : environment) (e : exn) (w1 : world) : result bool * world :=
  match print_fault env (w_trace w1) ("下載文件時出錯: " +:+ str_exn e) with
  | Some e' => (Raise e', w1)
  | None => (Ok false, log (EvPrint ("下載文件時出錯: " +:+ str_exn e)) w1)
  end.

Lemma download_file_fails (env : environment) (url p : string) (w : world) :
  http_fails (fetch env (EvFs (OpMakedirs (os_path_dirname p)) :: w_trace w) url) ->
  exists e w1, download_file env url p w = handled env e w1.
Proof.
  intros Hf. unfold download_file.
  match goal with |- context [try_except ?body ?h] =>
    assert (Hbody : exists e w1, body w = (Raise e, w1)) end.
  { unfold bind at 1.
    pose proof (fs_call_trace env (OpMakedirs (os_path_dirname p))
                  (fun fs => if String.eqb (os_path_dirname p) ""
                             then (Raise (OSError "FileNotFoundError" (os_path_dirname p)), fs)
                             else match fs !! os_path_dirname p with
                                  | Some Dir => (Ok tt, fs)
                                  | _ => mkdir_chain (path_prefixes (os_path_dirname p)) fs
                                  end) w) as Ht.
    fold (os_makedirs env (os_path_dirname p)) in Ht.
    destruct (os_makedirs env (os_path_dirname p) w) as [[[]|e1] w1]; [|eauto].
    simpl in Ht. unfold bind at 1. unfold http_stream at 1. rewrite Ht.
    destruct (fetch env _ url) as [e0|[e0|] chunks [e4|]]; try contradiction; eauto.
    simpl. unfold bind at 1.
    destruct (open_wb env p _) as [[[]|e2] w2]; [|eauto].
    unfold bind at 1.
    destruct (write_chunks env p chunks w2) as [[[]|e3] w3]; [|eauto].
    unfold bind, end_of_body, raise. eauto. }
  destruct Hbody as (e & w1 & E).
  rewrite (try_except_raise _ _ _ _ _ E). exists e, w1.
  unfold bind, print, handled, ret.
  destruct (print_fault env (w_trace w1) _); reflexivity.
Qed.

(** The standard output takes every message. *)
Definition prints (env : environment) : Prop :=
  forall t msg, print_fault env t msg = None.

(** An event by which a download would be taken for valid: a look at a file,
    or a command to Unity. *)
Definition accepts_download (ev : event) : Prop :=
  match ev with
  | EvSend _ _ => True
  | EvFs (OpExists _) => True
  | _ => False
  end.

(** C2, as the code has it. A download that fails (no response, a refused
    status, or a body that breaks off after some bytes) never makes
    [download_file] return [True]. It returns [False] when the [print] of
    the error succeeds; when that [print] itself fails, its exception leaves
    [download_file]. The rest of [import_remote_asset] follows suit: it
    returns the download-failure message at once in the first case and its
    exception goes to the handler of the tool in the second; in both cases
    it neither looks at the file nor sends a command, so the partial file is
    never taken for a valid download. But [download_file] writes in place:
    its only file system calls are [makedirs] on the directory, [open] and
    [write] on the download path itself; it renames and removes nothing. *)
Theorem failed_download_is_reported (env : environment) (str_other : pyval -> string)
    (url p : string) (w : world) :
  http_fails (fetch env (EvFs (OpMakedirs (os_path_dirname p)) :: w_trace w) url) ->
  (fst (download_file env url p w) = Ok false
   \/ exists e t msg,
        print_fault env t msg = Some e /\ fst (download_file env url p w) = Raise e)
  /\ (prints env -> fst (download_file env url p w) = Ok false)
  /\ (forall target_path overwrite temp_dir,
        (fst (download_file env url p w) = Ok false ->
         fst (fetch_and_import env str_other url target_path overwrite temp_dir p w)
         = Ok (PStr (msg_download_failed url)))
        /\ (forall e,
              fst (download_file env url p w) = Raise e ->
              fst (fetch_and_import env str_other url target_path overwrite temp_dir p w)
              = Raise e)
        /\ emits (fun ev => ~ accepts_download ev) w
             (snd (fetch_and_import env str_other url target_path overwrite temp_dir p w)))
  /\ emits (download_event url p) w (snd (download_file env url p w)).
Proof.
  intros Hf. destruct (download_file_fails env url p w Hf) as (e & w1 & E).
  pose proof (emits_download_file env url p w) as Hev.
  assert (Hcases : (exists w2, download_file env url p w = (Ok false, w2))
                   \/ exists e' t msg w2,
                        print_fault env t msg = Some e'
                        /\ download_file env url p w = (Raise e', w2)).
  { rewrite E. unfold handled.
    destruct (print_fault env (w_trace w1) _) as [e'|] eqn:Ep; [right | left; eauto].
    exists e', (w_trace w1), ("下載文件時出錯: " +:+ str_exn e), w1.
    split; [exact Ep | reflexivity]. }
  split; [|split; [|split]].
  - destruct Hcases as [[w2 ->]|(e' & t & msg & w2 & Hp & ->)]; [left; reflexivity|].
    right. exists e', t, msg. split; [exact Hp | reflexivity].
  - intros Hprints. rewrite E. unfold handled. rewrite Hprints. reflexivity.
  - intros target_path overwrite temp_dir. unfold fetch_and_import.
    assert (Hno : forall ev, download_event url p ev -> ~ accepts_download ev)
      by (intros ev Hd Ha; destruct ev as [| | |[]|]; cbn in Hd, Ha; contradiction).
    destruct Hcases as [[w2 E2]|(e' & t & msg & w2 & _ & E2)].
    + rewrite (bind_ok _ _ _ _ _ E2). rewrite E2 in *. cbn [negb fst snd ret].
      split; [reflexivity|]. split; [discriminate|].
      exact (emits_weaken _ _ _ _ Hno Hev).
    + rewrite (bind_raise _ _ _ _ _ E2). rewrite E2 in *. cbn [fst snd].
      split; [discriminate|]. split; [now intros e0 [= <-]|].
      exact (emits_weaken _ _ _ _ Hno Hev).
  - exact Hev.
Qed.

Lemma failed_download_is_reported_witness :
  fst (download_file Scenario.env_cut Scenario.url "/home/u/.unity_mcp_downloads/model.fbx"
         Scenario.w0) = Ok false
  /\ (forall target_path overwrite temp_dir,
        fst (fetch_and_import Scenario.env_cut Scenario.str_other Scenario.url target_path
               overwrite temp_dir "/home/u/.unity_mcp_downloads/model.fbx" Scenario.w0)
        = Ok (PStr (msg_download_failed Scenario.url)))
  /\ emits (download_event Scenario.url "/home/u/.unity_mcp_downloads/model.fbx")
       Scenario.w0
       (snd (download_file Scenario.env_cut Scenario.url
               "/home/u/.unity_mcp_downloads/model.fbx" Scenario.w0)).
Proof.
  destruct (failed_download_is_reported Scenario.env_cut Scenario.str_other Scenario.url
              "/home/u/.unity_mcp_downloads/model.fbx" Scenario.w0 I)
    as (_ & Hfalse & Hrest & Hev).
  assert (Hp : prints Scenario.env_cut) by (intros t msg; reflexivity).
  split; [exact (Hfalse Hp)|]. split; [|exact Hev].
  intros target_path overwrite temp_dir.
  apply (proj1 (Hrest target_path overwrite temp_dir)). exact (Hfalse Hp).
Defined.

(** A standard output that cannot encode the message of [download_file],
    as a pipe in a Western code page cannot. *)
Definition stdout_cp1252 (t : list event) (msg : string) : option exn :=
  Some (Exception "UnicodeEncodeError"
          "'charmap' codec can't encode characters in position 0-6: character maps to <undefined>").

Definition env_404_cp1252 : environment :=
  {| home := "/home/u";
     connect := fun _ => None;
     reply := Scenario.reply_fresh;
     fetch := Scenario.body_404;
     temp_name := Scenario.temp_names;
     fs_fault := Scenario.no_fault;
     print_fault := stdout_cp1252;
     int_max_str_digits := 4300 |}.

(** There the server answers 404, the [print] of the error fails, and the
    tool returns its generic message with the text of the encoding error:
    the user is not told that the download failed. *)
Example failed_print_hides_the_failure :
  fst (import_remote_asset env_404_cp1252 Scenario.str_other
         (PStr "https://host/dir/model.fbx") (PStr "Imported/model.fbx") false false
         Scenario.w0)
  = Ok (PStr (msg_exception
                (Exception "UnicodeEncodeError"
                   "'charmap' codec can't encode characters in position 0-6: character maps to <undefined>"))).
Proof. vm_compute. reflexivity. Qed.

(** C2, as stated, fails: the connection drops after the first chunk,
    [download_file] returns [False], and the file that was not there before
    is now at the download path with the bytes received so far. *)
Lemma partial_file_is_left :
  let p := "/home/u/.unity_mcp_downloads/model.fbx" in
  let r := download_file Scenario.env_cut Scenario.url p Scenario.w0 in
  w_fs Scenario.w0 !! p = None
  /\ fst r = Ok false
  /\ w_fs (snd r) !! p = Some (File "abc").
Proof. vm_compute. repeat split. Qed.

(** ** The persistent download directory *)

Ltac keeps_auto :=
  repeat first
    [ apply (stable_ret _ keeps_dirs_refl)
    | apply (stable_raise _ keeps_dirs_refl)
    | apply (stable_lift _ keeps_dirs_refl)
    | apply (stable_bind _ keeps_dirs_trans)
    | apply (stable_try_except _ keeps_dirs_trans)
    | apply keeps_dirs_get_unity_connection
    | apply keeps_dirs_send_command
    | apply keeps_dirs_print
    | apply keeps_dirs_os_path_exists
    | apply keeps_dirs_http_stream
    | apply keeps_dirs_os_makedirs
    | apply keeps_dirs_open_wb
    | apply keeps_dirs_file_write
    | match goal with |- forall _, _ => intro end
    | match goal with |- stable _ (match ?x with _ => _ end) => destruct x end ].

Lemma keeps_dirs_write_chunks (env : environment) (p : string) (chunks : list string) :
  stable keeps_dirs (write_chunks env p chunks).
Proof. induction chunks as [|c rest IH]; simpl; keeps_auto. exact IH. Qed.

Lemma keeps_dirs_download_file (env : environment) (url p : string) :
  stable keeps_dirs (download_file env url p).
Proof.
  unfold download_file, end_of_body.
  apply (stable_try_except _ keeps_dirs_trans); [|keeps_auto].
  apply (stable_bind _ keeps_dirs_trans); [apply keeps_dirs_os_makedirs|]. intros _.
  apply (stable_bind _ keeps_dirs_trans); [apply keeps_dirs_http_stream|]. intros response.
  apply (stable_bind _ keeps_dirs_trans); [apply keeps_dirs_open_wb|]. intros _.
  apply (stable_bind _ keeps_dirs_trans); [apply keeps_dirs_write_chunks|]. intros _.
  keeps_auto.
Qed.

(** Without temporary storage nothing is removed. *)
Lemma keeps_dirs_fetch_and_import (env : environment) (str_other : pyval -> string)
    (url target_path : string) (overwrite : bool) (download_path : string) :
  stable keeps_dirs
    (fetch_and_import env str_other url target_path overwrite None download_path).
Proof.
  unfold fetch_and_import, cleanup.
  apply (stable_bind _ keeps_dirs_trans); [apply keeps_dirs_download_file|].
  keeps_auto.
Qed.

Lemma keeps_dirs_import_remote_asset (env : environment) (str_other : pyval -> string)
    (url target_path : pyval) (overwrite : bool) :
  stable keeps_dirs (import_remote_asset env str_other url target_path overwrite false).
Proof.
  unfold import_remote_asset, import_remote_asset_try.
  apply (stable_try_except _ keeps_dirs_trans); [|keeps_auto].
  apply (stable_bind _ keeps_dirs_trans); [apply keeps_dirs_get_unity_connection|]. intros _.
  destruct (valid_string url) as [u|]; [|keeps_auto].
  destruct (valid_string target_path) as [t|]; [|keeps_auto].
  apply (stable_bind _ keeps_dirs_trans); [apply keeps_dirs_send_command|]. intros listing.
  apply (stable_bind _ keeps_dirs_trans); [keeps_auto|]. intros existing.
  apply (stable_bind _ keeps_dirs_trans); [keeps_auto|]. intros asset_exists.
  destruct (asset_exists && negb overwrite); [keeps_auto|].
  apply (stable_bind _ keeps_dirs_trans); [apply keeps_dirs_os_makedirs|]. intros _.
  apply keeps_dirs_fetch_and_import.
Qed.

Lemma mkdir_chain_made (ps : list string) :
  forall fs fs', mkdir_chain ps fs = (Ok tt, fs') ->
  forall q, In q ps -> fs' !! q = Some Dir.
Proof.
  induction ps as [|p ps IH]; intros fs fs' H q Hq; [destruct Hq|].
  simpl in H. destruct Hq as [->|Hq].
  - assert (Hk : snd (mkdir_chain ps (<[q := Dir]> fs)) !! q = Some Dir)
      by (apply mkdir_chain_keeps, lookup_insert_eq).
    destruct (fs !! q) as [[|c]|]; try discriminate; rewrite H in Hk; exact Hk.
  - destruct (fs !! p) as [[|c]|]; try discriminate; exact (IH _ _ H q Hq).
Qed.

Lemma path_prefixes_self (p : string) : p <> "" -> In p (path_prefixes p).
Proof.
  intros Hp. unfold path_prefixes. apply filter_In. split.
  - apply in_map_iff. exists (List.length (py_split slash p)). split.
    + rewrite firstn_all. apply py_join_split.
    + apply in_seq. pose proof (py_split_not_nil slash p).
      destruct (py_split slash p); [contradiction | simpl; lia].
  - destruct (String.eqb_spec p ""); [contradiction | reflexivity].
Qed.

(** A [makedirs] that returns has made the directory, or found it there. *)
Lemma os_makedirs_made (env : environment) (p : string) (w w' : world) :
  os_makedirs env p w = (Ok tt, w') -> w_fs w' !! p = Some Dir.
Proof.
  unfold os_makedirs, fs_call.
  destruct (fs_fault env (w_trace w) (OpMakedirs p)); [discriminate|].
  destruct (String.eqb_spec p "") as [->|Hp]; [discriminate|].
  destruct (w_fs w !! p) as [[|c]|] eqn:E.
  - intros [= <-]. exact E.
  - destruct (mkdir_chain (path_prefixes p) (w_fs w)) as [[[]|e] fs'] eqn:Em; [|discriminate].
    intros [= <-]. simpl. exact (mkdir_chain_made _ _ _ Em p (path_prefixes_self p Hp)).
  - destruct (mkdir_chain (path_prefixes p) (w_fs w)) as [[[]|e] fs'] eqn:Em; [|discriminate].
    intros [= <-]. simpl. exact (mkdir_chain_made _ _ _ Em p (path_prefixes_self p Hp)).
Qed.

(** A directory that is already there is a success, and nothing changes
    but the history. *)
Lemma os_makedirs_existing (env : environment) (p : string) (w : world) :
  p <> "" ->
  w_fs w !! p = Some Dir ->
  fs_fault env (w_trace w) (OpMakedirs p) = None ->
  os_makedirs env p w = (Ok tt, log (EvFs (OpMakedirs p)) w).
Proof.
  intros Hp Hd Hf. unfold os_makedirs, fs_call. rewrite Hf.
  destruct (String.eqb_spec p ""); [contradiction|].
  rewrite Hd. reflexivity.
Qed.

Lemma append_not_empty (a : string) (c : ascii) (b : string) : a +:+ String c b <> "".
Proof. destruct a; discriminate. Qed.

Lemma download_dir_not_empty (env : environment) : download_dir env <> "".
Proof.
  unfold download_dir, os_path_join. cbn [startswith String.prefix].
  destruct (ascii_dec "/" "."); [discriminate|].
  destruct (String.eqb (expanduser_home env) "" || endswith_slash (expanduser_home env));
    apply append_not_empty.
Qed.

(** The call gets past the existence check: the arguments are valid, the
    connection and the listing are obtained, and the asset is absent or
    [overwrite] is set. *)
Definition passes_existence_check (env : environment) (url target_path : string)
    (overwrite : bool) (w : world) : Prop :=
  url <> "" /\ target_path <> "" /\ connect env (w_trace w) = None
  /\ exists listing assets found,
       reply env (EvConnect :: w_trace w) "GET_ASSET_LIST"
         (asset_list_params (normalize_target target_path)) = Ok listing
       /\ py_get listing "assets" (PList []) = Ok assets
       /\ any_field_eq "path" (normalize_target target_path) assets = Ok found
       /\ found && negb overwrite = false.

(** The world in which the download directory is then resolved. *)
Definition world_after_check (target_path : string) (w : world) : world :=
  log (EvSend "GET_ASSET_LIST" (asset_list_params (normalize_target target_path)))
    (log EvConnect w).

Lemma import_remote_asset_try_persistent (env : environment) (str_other : pyval -> string)
    (url target_path : string) (overwrite : bool) (w w3 : world) :
  passes_existence_check env url target_path overwrite w ->
  os_makedirs env (download_dir env) (world_after_check target_path w) = (Ok tt, w3) ->
  import_remote_asset_try env str_other (PStr url) (PStr target_path) overwrite false w
  = fetch_and_import env str_other url (normalize_target target_path) overwrite None
      (os_path_join (download_dir env) (url_filename url)) w3.
Proof.
  intros (Hu & Ht & Hc & listing & assets & found & Hr & Hg & Ha & Hb) Hmk.
  unfold import_remote_asset_try.
  rewrite (bind_ok _ _ w (log EvConnect w) tt)
    by (unfold get_unity_connection; now rewrite Hc).
  rewrite (valid_string_PStr url Hu), (valid_string_PStr target_path Ht).
  erewrite bind_ok by (unfold send_command; simpl; rewrite Hr; reflexivity).
  erewrite bind_ok by (unfold lift; rewrite Hg; reflexivity).
  erewrite bind_ok by (unfold lift; rewrite Ha; reflexivity).
  rewrite Hb.
  erewrite bind_ok by exact Hmk. reflexivity.
Qed.

(** C9, as the code has it. With [temp_download=false]:
    - no directory that exists before the call is missing after it, so the
      download directory is never deleted;
    - when the call gets past the existence check and [makedirs] returns,
      the download directory exists after the call, whatever the file
      system was before;
    - a download directory that is already there makes [makedirs] succeed
      and changes nothing. *)
Theorem persistent_download_dir (env : environment) (str_other : pyval -> string) :
  (forall url target_path overwrite w,
     keeps_dirs w
       (snd (import_remote_asset env str_other url target_path overwrite false w)))
  /\ (forall url target_path overwrite w,
        passes_existence_check env url target_path overwrite w ->
        fst (os_makedirs env (download_dir env) (world_after_check target_path w)) = Ok tt ->
        w_fs (snd (import_remote_asset env str_other (PStr url) (PStr target_path)
                     overwrite false w))
          !! download_dir env = Some Dir)
  /\ (forall w,
        w_fs w !! download_dir env = Some Dir ->
        fs_fault env (w_trace w) (OpMakedirs (download_dir env)) = None ->
        os_makedirs env (download_dir env) w
        = (Ok tt, log (EvFs (OpMakedirs (download_dir env))) w)).
Proof.
  split; [|split].
  - intros url target_path overwrite w. apply keeps_dirs_import_remote_asset.
  - intros url target_path overwrite w Hpass Hmk.
    destruct (os_makedirs env (download_dir env) (world_after_check target_path w))
      as [[[]|e] w3] eqn:E; [|discriminate].
    unfold import_remote_asset, try_except.
    rewrite (import_remote_asset_try_persistent env str_other url target_path overwrite
               w w3 Hpass E).
    pose proof (keeps_dirs_fetch_and_import env str_other url (normalize_target target_path)
                  overwrite (os_path_join (download_dir env) (url_filename url)) w3
                  (download_dir env) (os_makedirs_made env _ _ _ E)) as Hk.
    destruct (fetch_and_import env str_other url (normalize_target target_path) overwrite None
                (os_path_join (download_dir env) (url_filename url)) w3) as [[v|e] w4];
      exact Hk.
  - intros w Hd Hf. apply os_makedirs_existing; [apply download_dir_not_empty | exact Hd | exact Hf].
Qed.

Lemma persistent_download_dir_witness :
  w_fs Scenario.w0 !! download_dir Scenario.env_ok = None
  /\ w_fs (snd (import_remote_asset Scenario.env_ok Scenario.str_other (PStr Scenario.url)
                  (PStr "Imported/model.fbx") false false Scenario.w0))
       !! download_dir Scenario.env_ok = Some Dir.
Proof.
  split; [reflexivity|].
  apply (proj1 (proj2 (persistent_download_dir Scenario.env_ok Scenario.str_other))
           Scenario.url "Imported/model.fbx" false Scenario.w0).
  - split; [discriminate|]. split; [discriminate|]. split; [reflexivity|].
    exists (PDict [("assets", PList [])]), (PList []), false.
    repeat split; reflexivity.
  - reflexivity.
Defined.

(** C9, as stated, fails: the asset is already in the project and
    [overwrite] is false, so the call returns at the existence check, before
    the download directory is made; the directory was not there before and
    is not there after. *)
Lemma download_dir_not_made_when_asset_exists :
  let r := import_remote_asset Scenario.env_listed Scenario.str_other (PStr Scenario.url)
             (PStr "Imported/model.fbx") false false Scenario.w0 in
  fst r = Ok (PStr (msg_exists "Assets/Imported/model.fbx"))
  /\ w_fs Scenario.w0 !! download_dir Scenario.env_listed = None
  /\ w_fs (snd r) !! download_dir Scenario.env_listed = None.
Proof. vm_compute. repeat split. Qed.

(** ** The temporary directory *)

(** When the download fails the call returns at once; a directory that was
    there before the download, such as the temporary directory the call has
    just made, is still there. *)
Lemma temp_dir_kept_on_failed_download (env : environment) (str_other : pyval -> string)
    (url target_path : string) (overwrite : bool) (d p : string) (w w2 : world) :
  w_fs w !! d = Some Dir ->
  download_file env url p w = (Ok false, w2) ->
  fetch_and_import env str_other url target_path overwrite (Some d) p w
  = (Ok (PStr (msg_download_failed url)), w2)
  /\ w_fs w2 !! d = Some Dir.
Proof.
  intros Hd E. split.
  - unfold fetch_and_import. rewrite (bind_ok _ _ _ _ _ E). reflexivity.
  - pose proof (keeps_dirs_download_file env url p w d Hd) as H. rewrite E in H. exact H.
Qed.

(** C1. After a call with temporary storage the temporary directory should
    be gone, whatever the outcome. Here the server answers 404: the call
    makes [/tmp/tmpab12], the download fails, the call returns the
    download-failure message from inside the [try] block, before the
    clean-up that follows the import, and the directory it made is still
    there. *)
Theorem temp_dir_left_after_failed_download :
  let r := import_remote_asset Scenario.env_404 Scenario.str_other
             (PStr "https://host/dir/model.fbx") (PStr "Imported/model.fbx") false true
             Scenario.w0 in
  fst r = Ok (PStr (msg_download_failed "https://host/dir/model.fbx"))
  /\ w_fs Scenario.w0 !! "/tmp/tmpab12" = None
  /\ In (EvFs OpMkdtemp) (w_trace (snd r))
  /\ (forall p, ~ In (EvFs (OpRmdir p)) (w_trace (snd r)))
  /\ w_fs (snd r) !! "/tmp/tmpab12" = Some Dir.
Proof.
  vm_compute. repeat split; auto 10.
  intros p H. repeat (destruct H as [H|H]; [discriminate|]). exact H.
Qed.

(** The same when the import command raises after a successful download:
    the handler of the outer [try] returns the message, and both the
    downloaded file and its temporary directory are left behind. *)
Definition reply_import_raises (t : list event) (cmd : string) (params : pyval)
    : result pyval :=
  if String.eqb cmd "GET_ASSET_LIST" then Ok (PDict [("assets", PList [])])
  else Raise (Exception "ConnectionError" "Unity connection lost").

Example temp_dir_left_after_exception :
  let r := import_remote_asset (Scenario.make_env reply_import_raises Scenario.body_ok)
             Scenario.str_other (PStr "https://host/dir/model.fbx") (PStr "Imported/model.fbx")
             false true Scenario.w0 in
  fst r = Ok (PStr (msg_exception (Exception "ConnectionError" "Unity connection lost")))
  /\ w_fs (snd r) !! "/tmp/tmpab12" = Some Dir
  /\ w_fs (snd r) !! "/tmp/tmpab12/model.fbx" = Some (File "abcdef").
Proof. vm_compute. repeat split. Qed.

(** When the import command answers, with success or with a failure of its
    own, the clean-up runs: the file and the directory are removed. *)
Example temp_dir_removed_after_import :
  let r := import_remote_asset Scenario.env_ok Scenario.str_other
             (PStr "https://host/dir/model.fbx") (PStr "Imported/model.fbx") false true
             Scenario.w0 in
  fst r = Ok (PStr "imported")
  /\ w_fs (snd r) !! "/tmp/tmpab12" = None
  /\ w_fs (snd r) !! "/tmp/tmpab12/model.fbx" = None.
Proof. vm_compute. repeat split. Qed.

(** ** [set_material]: a colour that is refused *)

(** A component the loop refuses: not a number, below 0.0 or above 1.0. *)
Definition bad_component (value : pyval) : Prop :=
  isinstance_number value = false \/ lt_zero value = true \/ gt_one value = true.

(** A colour with a wrong number of components or with a bad component. *)
Definition bad_color (values : list pyval) : Prop :=
  (List.length values <> 3 /\ List.length values <> 4) \/ Exists bad_component values.

(** The colour check ends the call: with a message of its own, or with the
    [ValueError] of formatting the refused value. *)
Definition refuses (r : result (option string)) : Prop :=
  (exists msg, r = Ok (Some msg)) \/ (exists e, r = Raise e).

Lemma check_components_refuses (env : environment) (str_other : pyval -> string)
    (values : list pyval) :
  Exists bad_component values ->
  forall i, refuses (check_components env str_other i values).
Proof.
  induction 1 as [v l Hv|v l _ IH]; intros i; simpl.
  - unfold bad_component in Hv.
    destruct (isinstance_number v); simpl; [|left; eauto].
    assert (Hr : lt_zero v || gt_one v = true).
    { destruct Hv as [Hv|[Hv|Hv]]; [discriminate| |]; rewrite Hv;
        [reflexivity | apply orb_true_r]. }
    rewrite Hr. destruct (py_str env str_other v); [left | right]; eauto.
  - destruct (negb (isinstance_number v)); [left; eauto|].
    destruct (lt_zero v || gt_one v); [|apply IH].
    destruct (py_str env str_other v); [left | right]; eauto.
Qed.

Lemma validate_color_refuses (env : environment) (str_other : pyval -> string)
    (values : list pyval) :
  values <> [] -> bad_color values ->
  refuses (validate_color env str_other (Some values)).
Proof.
  intros Hne Hbad. destruct values as [|v l]; [contradiction|].
  change (validate_color env str_other (Some (v :: l)))
    with (if negb (Nat.eqb (List.length (v :: l)) 3 || Nat.eqb (List.length (v :: l)) 4)
          then Ok (Some (msg_color_count (List.length (v :: l))))
          else check_components env str_other 0 (v :: l)).
  unfold bad_color in Hbad.
  remember (List.length (v :: l)) as n eqn:En.
  destruct (Nat.eqb_spec n 3) as [E3|N3]; [|destruct (Nat.eqb_spec n 4) as [E4|N4]];
    cbn [orb negb]; try (left; eauto; fail).
  - destruct Hbad as [[H _]|H]; [contradiction|]. apply check_components_refuses, H.
  - destruct Hbad as [[_ H]|H]; [contradiction|]. apply check_components_refuses, H.
Qed.

(** The events of the look-ups that come before the colour is checked. *)
Definition lookup_event (object_name : string) (material_name : option string)
    (ev : event) : Prop :=
  ev = EvConnect
  \/ ev = EvSend "FIND_OBJECTS_BY_NAME" (PDict [("name", PStr object_name)])
  \/ exists m, given material_name = Some m
               /\ ev = EvSend "GET_ASSET_LIST" (material_list_params m).

Lemma lookup_event_not_set_material (object_name : string) (material_name : option string)
    (params : pyval) :
  ~ lookup_event object_name material_name (EvSend "SET_MATERIAL" params).
Proof. intros [H|[H|(m & _ & H)]]; discriminate. Qed.

Lemma emits_check_material (env : environment) (object_name : string)
    (material_name : option string) (create_if_missing : bool) :
  stable (emits (lookup_event object_name material_name))
    (check_material env material_name create_if_missing).
Proof.
  unfold check_material. destruct (given material_name) as [m|] eqn:E.
  - apply (stable_bind _ (emits_trans _)).
    { apply emits_send_command. right. right. exists m. split; [exact E | reflexivity]. }
    emits_auto (lookup_event object_name material_name).
  - apply (stable_ret _ (emits_refl _)).
Qed.

(** What [check_material] returns or raises, and the query it has sent when
    a material name is given. *)
Lemma check_material_outcome (env : environment) (material_name : option string)
    (create_if_missing : bool) (w : world) :
  match given material_name with
  | None => check_material env material_name create_if_missing w = (Ok None, w)
  | Some m =>
      exists r,
        check_material env material_name create_if_missing w
        = (r, log (EvSend "GET_ASSET_LIST" (material_list_params m)) w)
        /\ (r = Ok None \/ r = Ok (Some (msg_material_not_found m)) \/ exists e, r = Raise e)
  end.
Proof.
  unfold check_material. destruct (given material_name) as [m|]; [|reflexivity].
  unfold bind at 1. unfold send_command at 1.
  destruct (reply env (w_trace w) "GET_ASSET_LIST" (material_list_params m)) as [listing|e];
    [|eauto 6].
  unfold bind at 1. unfold lift at 1.
  destruct (py_get listing "assets" (PList [])) as [assets|e]; [|eauto 6].
  unfold bind, lift.
  destruct (any_field_eq "name" m assets) as [found|e]; [|eauto 6].
  destruct (negb found && negb create_if_missing); unfold ret; eauto 6.
Qed.

(** C10, as the code has it. The object is found and a non-empty colour is
    given that has a wrong number of components or a bad component. Then
    [set_material] returns an error message: the message of the colour
    check, or the message of the tool's handler when formatting the refused
    value raised, unless the look-up of a named material ended the call
    first (the material is missing and may not be created, or the look-up
    raised). It sends the object look-up, and the material listing when a
    material name is given, and nothing else: no [SET_MATERIAL]. *)
Theorem bad_color_is_refused (env : environment) (str_other : pyval -> string)
    (object_name : string) (material_name : option string) (values : list pyval)
    (create_if_missing : bool) (w : world) (response objects : pyval) :
  values <> [] -> bad_color values ->
  connect env (w_trace w) = None ->
  reply env (EvConnect :: w_trace w) "FIND_OBJECTS_BY_NAME"
    (PDict [("name", PStr object_name)]) = Ok response ->
  py_get response "objects" (PList []) = Ok objects ->
  truthy objects = true ->
  exists msg w' new,
    set_material env str_other object_name material_name (Some values) create_if_missing w
    = (Ok (PStr msg), w')
    /\ w_trace w' = (new ++ w_trace w)%list
    /\ (validate_color env str_other (Some values) = Ok (Some msg)
        \/ (exists e, validate_color env str_other (Some values) = Raise e
                      /\ msg = msg_material_exception e)
        \/ exists m, given material_name = Some m
                     /\ (msg = msg_material_not_found m
                         \/ exists e, msg = msg_material_exception e))
    /\ Forall (lookup_event object_name material_name) new
    /\ (forall params, ~ In (EvSend "SET_MATERIAL" params) new)
    /\ In (EvSend "FIND_OBJECTS_BY_NAME" (PDict [("name", PStr object_name)])) new
    /\ (forall m, given material_name = Some m ->
                  In (EvSend "GET_ASSET_LIST" (material_list_params m)) new).
Proof.
  intros Hne Hbad Hc Hr Hg Ht.
  assert (Hv : exists cmsg,
             (validate_color env str_other (Some values) = Ok (Some cmsg)
              \/ exists e, validate_color env str_other (Some values) = Raise e
                           /\ cmsg = msg_material_exception e)
             /\ forall w1 (k : M pyval),
                  match (refused <- lift (validate_color env str_other (Some values)) ;;
                         match refused with
                         | Some msg => ret (PStr msg)
                         | None => k
                         end) w1 with
                  | (Ok a, w') => (Ok a, w')
                  | (Raise e, w') => ret (PStr (msg_material_exception e)) w'
                  end = (Ok (PStr cmsg), w1)).
  { destruct (validate_color_refuses env str_other values Hne Hbad) as [[cmsg E]|[e E]].
    - exists cmsg. split; [left; exact E|]. intros w1 k. unfold bind, lift. now rewrite E.
    - exists (msg_material_exception e). split; [right; eauto|].
      intros w1 k. unfold bind, lift. now rewrite E. }
  destruct Hv as (cmsg & Hv & Hrun).
  assert (Hno : forall new, Forall (lookup_event object_name material_name) new ->
                forall params, ~ In (EvSend "SET_MATERIAL" params) new).
  { intros new HF params Hin. rewrite List.Forall_forall in HF.
    exact (lookup_event_not_set_material _ _ _ (HF _ Hin)). }
  set (find := EvSend "FIND_OBJECTS_BY_NAME" (PDict [("name", PStr object_name)])).
  assert (Hfind : lookup_event object_name material_name find) by (right; left; reflexivity).
  assert (Hconn : lookup_event object_name material_name EvConnect) by (left; reflexivity).
  unfold set_material, try_except, set_material_try.
  rewrite (bind_ok _ _ w (log EvConnect w) tt)
    by (unfold get_unity_connection; now rewrite Hc).
  erewrite bind_ok by (unfold send_command; simpl; rewrite Hr; reflexivity).
  erewrite bind_ok by (unfold lift; rewrite Hg; reflexivity).
  rewrite Ht. cbn [negb].
  pose proof (check_material_outcome env material_name create_if_missing
                (log find (log EvConnect w))) as Hcm.
  destruct (given material_name) as [m|] eqn:Egiven.
  - destruct Hcm as (r & Ecm & Hcases).
    set (list_ev := EvSend "GET_ASSET_LIST" (material_list_params m)) in *.
    assert (Hlist : lookup_event object_name material_name list_ev)
      by (right; right; exists m; split; [exact Egiven | reflexivity]).
    assert (HF : Forall (lookup_event object_name material_name) [list_ev; find; EvConnect])
      by (constructor; [assumption|]; constructor; [assumption|];
          constructor; [assumption|]; constructor).
    unfold bind at 1. fold find. rewrite Ecm.
    destruct Hcases as [->|[->|[e ->]]].
    + rewrite Hrun.
      exists cmsg, (log list_ev (log find (log EvConnect w))), [list_ev; find; EvConnect].
      split; [reflexivity|]. split; [reflexivity|].
      split; [destruct Hv as [Hv|Hv]; [left | right; left]; exact Hv|].
      split; [exact HF|]. split; [exact (Hno _ HF)|].
      split; [right; left; reflexivity|]. intros m' [= <-]. left. reflexivity.
    + exists (msg_material_not_found m), (log list_ev (log find (log EvConnect w))),
        [list_ev; find; EvConnect].
      split; [reflexivity|]. split; [reflexivity|].
      split; [right; right; exists m; split; [reflexivity | left; reflexivity]|].
      split; [exact HF|]. split; [exact (Hno _ HF)|].
      split; [right; left; reflexivity|]. intros m' [= <-]. left. reflexivity.
    + exists (msg_material_exception e), (log list_ev (log find (log EvConnect w))),
        [list_ev; find; EvConnect].
      split; [reflexivity|]. split; [reflexivity|].
      split; [right; right; exists m; split; [reflexivity | right; exists e; reflexivity]|].
      split; [exact HF|]. split; [exact (Hno _ HF)|].
      split; [right; left; reflexivity|]. intros m' [= <-]. left. reflexivity.
  - assert (HF : Forall (lookup_event object_name material_name) [find; EvConnect])
      by (constructor; [assumption|]; constructor; [assumption|]; constructor).
    unfold bind at 1. fold find. rewrite Hcm. rewrite Hrun.
    exists cmsg, (log find (log EvConnect w)), [find; EvConnect].
    split; [reflexivity|]. split; [reflexivity|].
    split; [destruct Hv as [Hv|Hv]; [left | right; left]; exact Hv|].
    split; [exact HF|]. split; [exact (Hno _ HF)|].
    split; [left; reflexivity|]. intros m' [=].
Qed.

Lemma bad_color_is_refused_witness :
  exists msg w' new,
    set_material Scenario.env_ok Scenario.str_other "Cube" None
      (Some [PInt 1; PFloat 0.5%float; PInt 2]) true Scenario.w0
    = (Ok (PStr msg), w')
    /\ w_trace w' = (new ++ w_trace Scenario.w0)%list
    /\ (validate_color Scenario.env_ok Scenario.str_other
          (Some [PInt 1; PFloat 0.5%float; PInt 2]) = Ok (Some msg)
        \/ (exists e, validate_color Scenario.env_ok Scenario.str_other
                        (Some [PInt 1; PFloat 0.5%float; PInt 2]) = Raise e
                      /\ msg = msg_material_exception e)
        \/ exists m, given None = Some m
                     /\ (msg = msg_material_not_found m
                         \/ exists e, msg = msg_material_exception e))
    /\ Forall (lookup_event "Cube" None) new
    /\ (forall params, ~ In (EvSend "SET_MATERIAL" params) new)
    /\ In (EvSend "FIND_OBJECTS_BY_NAME" (PDict [("name", PStr "Cube")])) new
    /\ (forall m, given None = Some m ->
                  In (EvSend "GET_ASSET_LIST" (material_list_params m)) new).
Proof.
  apply (bad_color_is_refused Scenario.env_ok Scenario.str_other "Cube" None
           [PInt 1; PFloat 0.5%float; PInt 2] true Scenario.w0
           (PDict [("objects", PList [PStr "Cube"])]) (PList [PStr "Cube"])).
  - discriminate.
  - right. apply Exists_cons_tl, Exists_cons_tl, Exists_cons_hd.
    right. right. reflexivity.
  - reflexivity.
  - reflexivity.
  - reflexivity.
  - reflexivity.
Defined.

(** The messages of the colour check on a few colours. *)
Example validate_color_examples :
  validate_color Scenario.env_ok Scenario.str_other (Some [PInt 1; PInt 0])
  = Ok (Some (msg_color_count 2))
  /\ validate_color Scenario.env_ok Scenario.str_other (Some [PInt 1; PStr "0"; PInt 0])
     = Ok (Some (msg_color_not_number 1))
  /\ validate_color Scenario.env_ok Scenario.str_other (Some [PInt 1; PInt 0; PInt (-1)])
     = Ok (Some (msg_color_range 2 "-1"))
  /\ validate_color Scenario.env_ok Scenario.str_other
       (Some [PBool true; PInt 0; PFloat 0.25%float; PInt 1])
     = Ok None
  /\ validate_color Scenario.env_ok Scenario.str_other (Some []) = Ok None
  /\ validate_color Scenario.env_ok Scenario.str_other None = Ok None.
Proof. repeat split. Qed.

(** A NaN is a [float] that is neither below 0.0 nor above 1.0: it passes
    the check. Infinities and the two zeros behave as expected. *)
Example validate_color_float_examples :
  validate_color Scenario.env_ok Scenario.str_other (Some [PFloat nan; PInt 0; PInt 0])
  = Ok None
  /\ validate_color Scenario.env_ok Scenario.str_other
       (Some [PFloat infinity; PInt 0; PInt 0])
     = Ok (Some (msg_color_range 0 "<value>"))
  /\ validate_color Scenario.env_ok Scenario.str_other
       (Some [PFloat 1.5%float; PInt 0; PInt 0])
     = Ok (Some (msg_color_range 0 "<value>"))
  /\ validate_color Scenario.env_ok Scenario.str_other
       (Some [PFloat (-0.0)%float; PFloat 1.0%float; PBool false])
     = Ok None.
Proof. repeat split. Qed.

(** An [int] of 4301 digits is above 1.0, and the message that would show it
    cannot be built: the f-string raises, and the tool returns the message
    of its handler. [SET_MATERIAL] is not sent. *)
Example validate_color_huge_int :
  validate_color Scenario.env_ok Scenario.str_other
    (Some [PInt int_4301_digits; PInt 0; PInt 0])
  = Raise (ValueError_digits 4300)
  /\ fst (set_material Scenario.env_ok Scenario.str_other "Cube" None
            (Some [PInt int_4301_digits; PInt 0; PInt 0]) true Scenario.w0)
     = Ok (PStr (msg_material_exception (ValueError_digits 4300))).
Proof. split; vm_compute; reflexivity. Qed.

(** C10, as stated, fails: an empty colour list has neither 3 nor 4
    components, but [if color:] takes it for no colour at all; the check is
    skipped and [SET_MATERIAL] is sent, without a colour. *)
Lemma empty_color_is_not_refused :
  let r := set_material Scenario.env_ok Scenario.str_other "Cube" None (Some []) true
             Scenario.w0 in
  List.length (@nil pyval) <> 3 /\ List.length (@nil pyval) <> 4
  /\ fst r = Ok (PStr (msg_applied_instance "unknown" "Cube"))
  /\ In (EvSend "SET_MATERIAL"
           (PDict [("object_name", PStr "Cube"); ("create_if_missing", PBool true)]))
        (w_trace (snd r)).
Proof. vm_compute. repeat split; auto; discriminate. Qed.

(** * The other tools *)

(** ** More of Python's [str] *)

(** [c.lower()] of an ASCII letter; the bytes of other characters stay. In
    Unicode no character outside ASCII lowers to one of the letters of
    [.prefab], so on the question the tools ask, whether the lowered string
    ends with [.prefab], lowering the ASCII letters decides as [str.lower]
    does. *)
Definition lower_ascii (a : ascii) : ascii :=
  if (65 <=? nat_of_ascii a)%nat && (nat_of_ascii a <=? 90)%nat
  then ascii_of_nat (nat_of_ascii a + 32)
  else a.

Fixpoint lower (s : string) : string :=
  match s with
  | EmptyString => EmptyString
  | String a s' => String (lower_ascii a) (lower s')
  end.

(** [s.endswith(suffix)] *)
Definition endswith (suffix s : string) : bool :=
  String.prefix (string_of_list_ascii (rev (list_ascii_of_string suffix)))
    (string_of_list_ascii (rev (list_ascii_of_string s))).

(** [not name.lower().endswith('.prefab')] *)
Definition lacks_prefab_extension (name : string) : bool :=
  negb (endswith ".prefab" (lower name)).

Example endswith_examples :
  endswith ".prefab" "a/b.prefab" = true
  /\ endswith ".prefab" ".prefab" = true
  /\ endswith ".prefab" "prefab" = false
  /\ endswith ".prefab" "b.prefab.bak" = false
  /\ lower "Tree.PreFab" = "tree.prefab"
  /\ lacks_prefab_extension "Tree.PREFAB" = false
  /\ lacks_prefab_extension "Tree" = true.
Proof. repeat split. Qed.

Section OtherTools.

Variable env : environment.
Variable str_other : pyval -> string.

(** ** [asset_tools.py]: the local tools *)

(** The [dir or "Assets"] and the file name of a project path, as every
    tool of the file takes them from [path.split('/')]. *)
Definition path_dir (path : string) : string :=
  let d := py_join "/" (but_last (py_split slash path)) in
  if String.eqb d "" then "Assets" else d.

Definition path_name (path : string) : string := last_item (py_split slash path).

Definition msg_source_not_string : string :=
  "Error importing asset: source_path must be a valid string".
Definition msg_target_not_string : string :=
  "Error importing asset: target_path must be a valid string".
Definition msg_source_missing (source_path : string) : string :=
  "Error importing asset: Source file '" +:+ source_path +:+ "' does not exist".
Definition msg_asset_exists (target_path : string) : string :=
  "Asset already exists at '" +:+ target_path +:+ "'. Use overwrite=True to replace it.".
Definition msg_import_asset_error (error source_path target_path : string) : string :=
  "Error importing asset: " +:+ error +:+ " (Source: " +:+ source_path
  +:+ ", Target: " +:+ target_path +:+ ")".

(** The [try] block of [import_asset], lines 34-72. *)
Definition import_asset_try (source_path target_path : pyval) (overwrite : bool) : M pyval :=
  get_unity_connection env ;;
  match valid_string source_path with
  | None => ret (PStr msg_source_not_string)
  | Some source_path =>
      match valid_string target_path with
      | None => ret (PStr msg_target_not_string)
      | Some target_path =>
          present <- os_path_exists env source_path ;;
          if negb present then ret (PStr (msg_source_missing source_path))
          else
            listing <- send_command env "GET_ASSET_LIST" (asset_list_params target_path) ;;
            existing_assets <- lift (py_get listing "assets" (PList [])) ;;
            asset_exists <- lift (any_field_eq "path" target_path existing_assets) ;;
            if asset_exists && negb overwrite then ret (PStr (msg_asset_exists target_path))
            else
              response <- send_command env "IMPORT_ASSET"
                            (import_params source_path target_path overwrite) ;;
              success <- lift (py_get response "success" (PBool false)) ;;
              if negb (truthy success) then
                error <- lift (py_get response "error" (PStr "Unknown error")) ;;
                error <- lift (py_str env str_other error) ;;
                ret (PStr (msg_import_asset_error error source_path target_path))
              else lift (py_get response "message" (PStr "Asset imported successfully"))
      end
  end.

(** [import_asset(ctx, source_path, target_path, overwrite)], lines 16-74.
    The handler formats the two arguments as they were given. *)
Definition import_asset (source_path target_path : pyval) (overwrite : bool) : M pyval :=
  try_except (import_asset_try source_path target_path overwrite)
    (fun e =>
       source_path <- lift (py_str env str_other source_path) ;;
       target_path <- lift (py_str env str_other target_path) ;;
       ret (PStr (msg_import_asset_error (str_exn e) source_path target_path))).

Definition msg_prefab_path_not_string : string :=
  "Error instantiating prefab: prefab_path must be a valid string".
Definition msg_not_a_number (param_name : string) : string :=
  "Error instantiating prefab: " +:+ param_name +:+ " must be a number".
Definition msg_prefab_not_found (prefab_path : string) : string :=
  "Prefab '" +:+ prefab_path +:+ "' not found in the project.".
Definition msg_instantiate_error (error prefab_path : string) : string :=
  "Error instantiating prefab: " +:+ error +:+ " (Path: " +:+ prefab_path +:+ ")".
Definition msg_instantiated (instance_name : string) : string :=
  "Prefab instantiated successfully as '" +:+ instance_name +:+ "'".

(** [for param_name, param_value in position_params.items()]: the name of
    the first value that is not a number, if any. *)
Fixpoint first_not_number (params : list (string * pyval)) : option string :=
  match params with
  | [] => None
  | (param_name, param_value) :: rest =>
      if negb (isinstance_number param_value) then Some param_name
      else first_not_number rest
  end.

(** The six coordinates, in the order of the [dict] literal. *)
Record placement : Type := mkPlacement {
  position_x : pyval; position_y : pyval; position_z : pyval;
  rotation_x : pyval; rotation_y : pyval; rotation_z : pyval
}.

Definition position_params (pl : placement) : list (string * pyval) :=
  [("position_x", position_x pl); ("position_y", position_y pl);
   ("position_z", position_z pl); ("rotation_x", rotation_x pl);
   ("rotation_y", rotation_y pl); ("rotation_z", rotation_z pl)].

Definition prefab_list_params (prefab_name prefab_dir : string) : pyval :=
  PDict [("type", PStr "Prefab");
         ("search_pattern", PStr prefab_name);
         ("folder", PStr prefab_dir)].

Definition instantiate_params (prefab_path : string) (pl : placement) : pyval :=
  PDict (("prefab_path", PStr prefab_path) :: position_params pl).

(** [instantiate_prefab] from the look-up on: [prefab_name] and
    [prefab_path] have their final values. *)
Definition instantiate_found (prefab_dir prefab_name prefab_path : string)
    (pl : placement) : M pyval :=
  listing <- send_command env "GET_ASSET_LIST" (prefab_list_params prefab_name prefab_dir) ;;
  prefab_assets <- lift (py_get listing "assets" (PList [])) ;;
  prefab_exists <- lift (any_field_eq "path" prefab_path prefab_assets) ;;
  if negb prefab_exists then ret (PStr (msg_prefab_not_found prefab_path))
  else
    response <- send_command env "INSTANTIATE_PREFAB" (instantiate_params prefab_path pl) ;;
    success <- lift (py_get response "success" (PBool false)) ;;
    if negb (truthy success) then
      error <- lift (py_get response "error" (PStr "Unknown error")) ;;
      error <- lift (py_str env str_other error) ;;
      ret (PStr (msg_instantiate_error error prefab_path))
    else
      instance_name <- lift (py_get response "instance_name" (PStr "unknown")) ;;
      instance_name <- lift (py_str env str_other instance_name) ;;
      ret (PStr (msg_instantiated instance_name)).

(** [instantiate_prefab(ctx, prefab_path, position_x, ..., rotation_z)],
    lines 77-157. The handler formats the value [prefab_path] has when the
    exception is raised: the argument as given while the connection is
    obtained, the path with its extension once the look-up has begun. The
    f-string of a handler is outside the [try]: what it raises leaves the
    tool. *)
Definition instantiate_prefab (prefab_path : pyval) (pl : placement) : M pyval :=
  try_except
    (get_unity_connection env ;;
     match valid_string prefab_path with
     | None => ret (PStr msg_prefab_path_not_string)
     | Some path =>
         match first_not_number (position_params pl) with
         | Some param_name => ret (PStr (msg_not_a_number param_name))
         | None =>
             let prefab_dir := path_dir path in
             let prefab_name := path_name path in
             let extend := lacks_prefab_extension prefab_name in
             let prefab_name := if extend then prefab_name +:+ ".prefab" else prefab_name in
             let path := if extend then path +:+ ".prefab" else path in
             try_except (instantiate_found prefab_dir prefab_name path pl)
               (fun e => ret (PStr (msg_instantiate_error (str_exn e) path)))
         end
     end)
    (fun e =>
       prefab_path <- lift (py_str env str_other prefab_path) ;;
       ret (PStr (msg_instantiate_error (str_exn e) prefab_path))).

Definition msg_object_name_not_string : string :=
  "Error creating prefab: object_name must be a valid string".
Definition msg_create_path_not_string : string :=
  "Error creating prefab: prefab_path must be a valid string".
Definition msg_game_object_not_found (object_name : string) : string :=
  "GameObject '" +:+ object_name +:+ "' not found in the scene.".
Definition msg_prefab_exists (prefab_path : string) : string :=
  "Prefab already exists at '" +:+ prefab_path +:+ "'. Use overwrite=True to replace it.".
Definition msg_create_error (error object_name prefab_path : string) : string :=
  "Error creating prefab: " +:+ error +:+ " (Object: " +:+ object_name
  +:+ ", Path: " +:+ prefab_path +:+ ")".
Definition msg_created (path : string) : string :=
  "Prefab created successfully at " +:+ path.

Definition create_prefab_params (object_name prefab_path : string) (overwrite : bool) : pyval :=
  PDict [("object_name", PStr object_name);
         ("prefab_path", PStr prefab_path);
         ("overwrite", PBool overwrite)].

Definition find_params (object_name : pyval) : pyval := PDict [("name", object_name)].

(** [create_prefab] once the object is found, with [prefab_path] in its
    final form. *)
Definition create_found (object_name prefab_path : string) (overwrite : bool) : M pyval :=
  listing <- send_command env "GET_ASSET_LIST"
               (prefab_list_params (path_name prefab_path) (path_dir prefab_path)) ;;
  prefab_assets <- lift (py_get listing "assets" (PList [])) ;;
  prefab_exists <- lift (any_field_eq "path" prefab_path prefab_assets) ;;
  if prefab_exists && negb overwrite then ret (PStr (msg_prefab_exists prefab_path))
  else
    response <- send_command env "CREATE_PREFAB"
                  (create_prefab_params object_name prefab_path overwrite) ;;
    success <- lift (py_get response "success" (PBool false)) ;;
    if negb (truthy success) then
      error <- lift (py_get response "error" (PStr "Unknown error")) ;;
      error <- lift (py_str env str_other error) ;;
      ret (PStr (msg_create_error error object_name prefab_path))
    else
      path <- lift (py_get response "path" (PStr prefab_path)) ;;
      path <- lift (py_str env str_other path) ;;
      ret (PStr (msg_created path)).

(** [create_prefab(ctx, object_name, prefab_path, overwrite)], lines
    160-224; the handler formats [prefab_path] as for [instantiate_prefab]. *)
Definition create_prefab (object_name prefab_path : pyval) (overwrite : bool) : M pyval :=
  try_except
    (get_unity_connection env ;;
     match valid_string object_name with
     | None => ret (PStr msg_object_name_not_string)
     | Some name =>
         match valid_string prefab_path with
         | None => ret (PStr msg_create_path_not_string)
         | Some path =>
             found <- send_command env "FIND_OBJECTS_BY_NAME" (find_params (PStr name)) ;;
             found_objects <- lift (py_get found "objects" (PList [])) ;;
             if negb (truthy found_objects) then ret (PStr (msg_game_object_not_found name))
             else
               let path := if lacks_prefab_extension path then path +:+ ".prefab" else path in
               try_except (create_found name path overwrite)
                 (fun e => ret (PStr (msg_create_error (str_exn e) name path)))
         end
     end)
    (fun e =>
       object_name <- lift (py_str env str_other object_name) ;;
       prefab_path <- lift (py_str env str_other prefab_path) ;;
       ret (PStr (msg_create_error (str_exn e) object_name prefab_path))).

Definition msg_not_prefab_instance (object_name : string) : string :=
  "GameObject '" +:+ object_name +:+ "' is not a prefab instance.".
Definition msg_apply_exception (e : exn) : string :=
  "Error applying prefab changes: " +:+ str_exn e.

(** [apply_prefab(ctx, object_name)], lines 227-266; [object_name] is not
    checked, it goes into the commands as it is. *)
Definition apply_prefab (object_name : pyval) : M pyval :=
  try_except
    (get_unity_connection env ;;
     found <- send_command env "FIND_OBJECTS_BY_NAME" (find_params object_name) ;;
     found_objects <- lift (py_get found "objects" (PList [])) ;;
     if negb (truthy found_objects) then
       shown <- lift (py_str env str_other object_name) ;;
       ret (PStr (msg_game_object_not_found shown))
     else
       object_props <- send_command env "GET_OBJECT_PROPERTIES" (find_params object_name) ;;
       is_prefab_instance <- lift (py_get object_props "isPrefabInstance" (PBool false)) ;;
       if negb (truthy is_prefab_instance) then
         shown <- lift (py_str env str_other object_name) ;;
         ret (PStr (msg_not_prefab_instance shown))
       else
         response <- send_command env "APPLY_PREFAB" (PDict [("object_name", object_name)]) ;;
         lift (py_get response "message" (PStr "Prefab changes applied successfully")))
    (fun e => ret (PStr (msg_apply_exception e))).

(** ** [material_tools.py]: the tools that send one command *)

(** [get_unity_connection().send_command(cmd, params)], then
    [response.get("message", default)]; an exception becomes
    [prefix + str(e)]. *)
Definition one_command (cmd : string) (params : pyval) (default prefix : string) : M pyval :=
  try_except
    (get_unity_connection env ;;
     response <- send_command env cmd params ;;
     lift (py_get response "message" (PStr default)))
    (fun e => ret (PStr (prefix +:+ str_exn e))).

(** [create_advanced_material], lines 92-123. *)
Definition create_advanced_material
    (material_name shader_type render_mode save_path create_if_missing : pyval) : M pyval :=
  one_command "CREATE_ADVANCED_MATERIAL"
    (PDict [("material_name", material_name);
            ("shader_type", shader_type);
            ("render_mode", render_mode);
            ("save_path", save_path);
            ("create_if_missing", create_if_missing)])
    "Material created successfully" "Error creating material: ".

(** [if value is not None: params[key] = value] *)
Definition unless_none (key : string) (value : pyval) : list (string * pyval) :=
  match value with
  | PNone => []
  | _ => [(key, value)]
  end.

Definition material_properties_params
    (material_path color metallic smoothness normal_scale occlusion_strength
       height_scale emission_color emission_intensity : pyval) : list (string * pyval) :=
  (("material_path", material_path)
   :: unless_none "color" color
   ++ unless_none "metallic" metallic
   ++ unless_none "smoothness" smoothness
   ++ unless_none "normal_scale" normal_scale
   ++ unless_none "occlusion_strength" occlusion_strength
   ++ unless_none "height_scale" height_scale
   ++ unless_none "emission_color" emission_color
   ++ unless_none "emission_intensity" emission_intensity)%list.

(** [set_material_properties], lines 126-169. *)
Definition set_material_properties
    (material_path color metallic smoothness normal_scale occlusion_strength
       height_scale emission_color emission_intensity : pyval) : M pyval :=
  one_command "SET_MATERIAL_PROPERTIES"
    (PDict (material_properties_params material_path color metallic smoothness normal_scale
              occlusion_strength height_scale emission_color emission_intensity))
    "Material properties updated successfully" "Error setting material properties: ".

Definition material_texture_params
    (material_path texture_type texture_path tiling offset : pyval) : list (string * pyval) :=
  ([("material_path", material_path);
    ("texture_type", texture_type);
    ("texture_path", texture_path)]
   ++ unless_none "tiling" tiling
   ++ unless_none "offset" offset)%list.

(** [set_material_texture], lines 172-206. *)
Definition set_material_texture
    (material_path texture_type texture_path tiling offset : pyval) : M pyval :=
  one_command "SET_MATERIAL_TEXTURE"
    (PDict (material_texture_params material_path texture_type texture_path tiling offset))
    "Material texture set successfully" "Error setting material texture: ".

(** [create_material_from_template], lines 209-234. *)
Definition create_material_from_template
    (material_name template save_path : pyval) : M pyval :=
  one_command "CREATE_MATERIAL_FROM_TEMPLATE"
    (PDict [("material_name", material_name);
            ("template", template);
            ("save_path", save_path)])
    "Material created successfully" "Error creating material from template: ".

End OtherTools.

(** * More properties *)

(** ** File names and paths *)

Lemma has_char_first_item (c d : ascii) (s : string) :
  has_char d s = false -> has_char d (first_item (py_split c s)) = false.
Proof.
  unfold first_item. induction s as [|a s IH]; [reflexivity|].
  cbn [has_char py_split]. destruct (Ascii.eqb a d) eqn:Ead; [discriminate|].
  cbn [orb]. intros H. specialize (IH H).
  pose proof (py_split_not_nil c s) as Hnil.
  destruct (Ascii.eqb a c); [reflexivity|].
  destruct (py_split c s) as [|h t]; [contradiction|].
  cbn in *. now rewrite Ead.
Qed.

(** No piece of [s.split(c)] holds a [c]. *)
Lemma py_split_pieces (c : ascii) (s : string) :
  Forall (fun x => has_char c x = false) (py_split c s).
Proof.
  induction s as [|a s IH]; cbn [py_split].
  - constructor; [reflexivity | constructor].
  - pose proof (py_split_not_nil c s) as Hnil.
    destruct (Ascii.eqb a c) eqn:Eac.
    + constructor; [reflexivity | exact IH].
    + destruct (py_split c s) as [|h t]; [contradiction|].
      inversion IH as [|? ? Hh Ht]; subst.
      constructor; [|exact Ht]. cbn [has_char]. now rewrite Eac.
Qed.

Lemma last_item_no_sep (c : ascii) (s : string) :
  has_char c (last_item (py_split c s)) = false.
Proof.
  pose proof (py_split_pieces c s) as H. pose proof (py_split_not_nil c s) as Hnil.
  unfold last_item. induction H as [|x l Hx Hl IH]; [contradiction|].
  destruct l as [|y l']; [exact Hx|]. apply IH. discriminate.
Qed.

Lemma first_item_no_sep (c : ascii) (s : string) :
  has_char c (first_item (py_split c s)) = false.
Proof.
  pose proof (py_split_pieces c s) as H. pose proof (py_split_not_nil c s) as Hnil.
  destruct H; [contradiction | assumption].
Qed.

Lemma url_filename_is_one_segment_aux (url : string) :
  has_char slash (url_filename url) = false
  /\ has_char qmark (url_filename url) = false.
Proof.
  unfold url_filename. split.
  - apply has_char_first_item, last_item_no_sep.
  - apply first_item_no_sep.
Qed.

(** The file name taken from a URL holds neither a slash nor a question
    mark, whatever the URL. *)
Theorem url_filename_is_one_segment (url : string) :
  has_char slash (url_filename url) = false
  /\ has_char qmark (url_filename url) = false.
Proof. apply url_filename_is_one_segment_aux. Qed.

Lemma list_ascii_append (a b : string) :
  list_ascii_of_string (a +:+ b) = (list_ascii_of_string a ++ list_ascii_of_string b)%list.
Proof.
  induction a as [|x a IH]; [reflexivity|].
  change (String x a +:+ b) with (String x (a +:+ b)). cbn [list_ascii_of_string].
  now rewrite IH.
Qed.

Lemma has_char_list (c : ascii) (s : string) :
  has_char c s = false -> Forall (fun a => Ascii.eqb a c = false) (list_ascii_of_string s).
Proof.
  induction s as [|a s IH]; cbn [has_char list_ascii_of_string]; [constructor|].
  destruct (Ascii.eqb a c) eqn:E; [discriminate|]. intros H. constructor; [exact E | exact (IH H)].
Qed.

Lemma drop_while_all (f : ascii -> bool) (l rest : list ascii) :
  Forall (fun a => f a = true) l -> drop_while f (l ++ rest)%list = drop_while f rest.
Proof. induction 1 as [|a l Ha _ IH]; [reflexivity|]. cbn. now rewrite Ha. Qed.

Lemma split_trailing_sep (c : ascii) (p : string) :
  exists l, py_split c (p +:+ String c "") = (l ++ [""])%list /\ l <> [].
Proof.
  induction p as [|a p (l & E & Hl)].
  - exists [""]. change ("" +:+ String c "") with (String c ""). cbn [py_split].
    rewrite Ascii.eqb_refl. split; [reflexivity | discriminate].
  - change (String a p +:+ String c "") with (String a (p +:+ String c "")).
    cbn [py_split]. rewrite E. destruct (Ascii.eqb a c).
    + exists ("" :: l). split; [reflexivity | discriminate].
    + destruct l as [|h t]; [contradiction|].
      exists (String a h :: t). split; [reflexivity | discriminate].
Qed.

(** Joining a directory and a name without a slash, then taking the
    directory and the base name again, gives both back. The directory is
    not empty and does not end with a slash, as a name that [mkdtemp] or
    [expanduser] returns. *)
Lemma dirname_basename_join (d f : string) :
  d <> "" -> endswith_slash d = false -> has_char slash f = false ->
  os_path_join d f = d +:+ "/" +:+ f
  /\ os_path_dirname (os_path_join d f) = d
  /\ os_path_basename (os_path_join d f) = f.
Proof.
  intros Hd Hend Hf.
  assert (Hjoin : os_path_join d f = d +:+ "/" +:+ f).
  { unfold os_path_join. rewrite Hend.
    destruct (String.eqb_spec d ""); [contradiction|]. cbn [orb].
    destruct f as [|a f]; [reflexivity|].
    cbn [has_char] in Hf. unfold startswith. cbn [String.prefix].
    destruct (ascii_dec "/" a) as [<-|]; [|reflexivity].
    rewrite Ascii.eqb_refl in Hf. discriminate. }
  split; [exact Hjoin|]. rewrite Hjoin. split.
  - unfold os_path_dirname.
    change (d +:+ "/" +:+ f) with (d +:+ String slash f).
    rewrite list_ascii_append. cbn [list_ascii_of_string].
    rewrite rev_app_distr. cbn [rev]. rewrite <- app_assoc. cbn [app].
    rewrite drop_while_all.
    2:{ apply Forall_rev. eapply Forall_impl; [apply has_char_list, Hf|].
        intros a Ha. unfold is_slash. cbn beta. now rewrite Ha. }
    cbn [drop_while]. change (is_slash slash) with true. cbn [negb drop_while].
    change (is_slash slash) with true. cbn iota.
    unfold endswith_slash in Hend.
    assert (Hrev : list_ascii_of_string d = rev (rev (list_ascii_of_string d)))
      by (symmetry; apply rev_involutive).
    destruct (rev (list_ascii_of_string d)) as [|a l] eqn:Er.
    + exfalso. apply Hd. rewrite <- (string_of_list_ascii_of_string d), Hrev. reflexivity.
    + cbn [drop_while]. rewrite Hend.
      rewrite <- (string_of_list_ascii_of_string d). rewrite Hrev. reflexivity.
  - unfold os_path_basename.
    change (d +:+ "/" +:+ f) with (d +:+ (String slash "" +:+ f)).
    rewrite <- append_assoc.
    rewrite (py_split_append slash (d +:+ String slash "") f Hf), last_item_app.
    destruct (split_trailing_sep slash d) as (l & -> & _). now rewrite last_item_app.
Qed.

(** On a POSIX host, where [os.path] is [posixpath], the download path is
    directly inside the directory the call chose: its directory, as
    [posixpath.dirname] gives it, is that directory, and its base name is the
    file name of the URL. The file name holds no slash, so the URL adds no
    directory of its own to the path. This says nothing of [ntpath], where a
    drive letter or a backslash in the file name has a meaning. *)
Theorem download_path_in_directory (d url : string) :
  d <> "" -> endswith_slash d = false ->
  os_path_dirname (os_path_join d (url_filename url)) = d
  /\ os_path_basename (os_path_join d (url_filename url)) = url_filename url.
Proof.
  intros Hd Hend.
  destruct (dirname_basename_join d (url_filename url) Hd Hend) as (_ & H1 & H2).
  - apply url_filename_is_one_segment_aux.
  - split; assumption.
Qed.

Lemma download_path_in_directory_witness :
  os_path_dirname (os_path_join "/tmp/tmpab12" (url_filename "https://host/a/../b.png?x=/etc"))
  = "/tmp/tmpab12"
  /\ os_path_basename (os_path_join "/tmp/tmpab12" (url_filename "https://host/a/../b.png?x=/etc"))
     = url_filename "https://host/a/../b.png?x=/etc".
Proof.
  apply (download_path_in_directory "/tmp/tmpab12" "https://host/a/../b.png?x=/etc").
  - discriminate.
  - reflexivity.
Defined.

(** ** A download that succeeds *)

Lemma append_empty_r (s : string) : s +:+ "" = s.
Proof.
  induction s as [|a s IH]; [reflexivity|].
  change (String a s +:+ "") with (String a (s +:+ "")). now rewrite IH.
Qed.

(** [b"".join(chunks)] *)
Definition body_of (chunks : list string) : string := String.concat "" chunks.

Lemma body_of_cons (chunk : string) (rest : list string) :
  body_of (chunk :: rest) = chunk +:+ body_of rest.
Proof.
  unfold body_of. destruct rest as [|c l].
  - cbn. symmetry. apply append_empty_r.
  - reflexivity.
Qed.

Lemma fs_call_ok {A : Type} (env : environment) (op : fs_op)
    (act : gmap string node -> result A * gmap string node) (w w' : world) (a : A) :
  fs_call env op act w = (Ok a, w') ->
  act (w_fs w) = (Ok a, w_fs w') /\ w_trace w' = EvFs op :: w_trace w.
Proof.
  unfold fs_call. destruct (fs_fault env (w_trace w) op); [discriminate|].
  destruct (act (w_fs w)) as [r fs']. intros [= -> <-]. split; reflexivity.
Qed.

Lemma write_chunks_content (env : environment) (p : string) (chunks : list string) :
  forall w w' c,
    write_chunks env p chunks w = (Ok tt, w') ->
    w_fs w !! p = Some (File c) ->
    w_fs w' !! p = Some (File (c +:+ body_of chunks)).
Proof.
  induction chunks as [|chunk rest IH]; intros w w' c H Hc.
  - injection H as <-. cbn. now rewrite append_empty_r.
  - cbn [write_chunks] in H. unfold bind in H.
    destruct (file_write env p chunk w) as [[[]|e] w1] eqn:E; [|discriminate].
    apply fs_call_ok in E. destruct E as [E _]. injection E as E.
    rewrite body_of_cons, <- append_assoc. apply (IH w1 w' _ H).
    rewrite <- E, lookup_alter_eq, Hc. reflexivity.
Qed.

Lemma open_wb_ok (env : environment) (p : string) (w w' : world) :
  open_wb env p w = (Ok tt, w') ->
  w_fs w' = <[p := File ""]> (w_fs w) /\ names_a_directory (os_path_basename p) = false.
Proof.
  intros H. apply fs_call_ok in H. destruct H as [H _].
  destruct (names_a_directory (os_path_basename p)); [discriminate|].
  split; [|reflexivity].
  destruct (w_fs w !! p) as [[|c]|];
    try discriminate;
    (destruct (String.eqb (os_path_dirname p) "");
     [|destruct (w_fs w !! os_path_dirname p) as [[|c']|]; try discriminate]);
    injection H as H; now rewrite H.
Qed.

Lemma download_file_body (env : environment) (url p : string) (w w' : world) :
  download_file env url p w = (Ok true, w') ->
  exists chunks,
    fetch env (EvFs (OpMakedirs (os_path_dirname p)) :: w_trace w) url
    = HttpResponse None chunks None
    /\ w_fs w' !! p = Some (File (body_of chunks)).
Proof.
  unfold download_file, try_except.
  match goal with |- context [match ?body w with _ => _ end] =>
    destruct (body w) as [[b|e] w1] eqn:E end.
  2:{ unfold bind, print, ret. destruct (print_fault env (w_trace w1) _); intros [=]. }
  intros [= -> ->]. unfold bind at 1 in E.
  destruct (os_makedirs env (os_path_dirname p) w) as [[[]|e1] w2] eqn:E1; [|discriminate].
  apply fs_call_ok in E1. destruct E1 as [_ Ht].
  unfold bind at 1 in E. unfold http_stream at 1 in E. rewrite Ht in E.
  destruct (fetch env _ url) as [e0|[e0|] chunks broken]; try discriminate.
  cbn [fst snd] in E. unfold bind at 1 in E.
  destruct (open_wb env p _) as [[[]|e2] w3] eqn:E2; [|discriminate].
  apply open_wb_ok in E2. destruct E2 as [E2 _].
  unfold bind at 1 in E.
  destruct (write_chunks env p chunks w3) as [[[]|e3] w4] eqn:E3; [|discriminate].
  destruct broken as [e4|]; [discriminate|].
  unfold bind, end_of_body, ret in E. injection E as <-.
  exists chunks. split; [reflexivity|].
  apply (write_chunks_content env p chunks w3 w4 "" E3).
  rewrite E2. apply lookup_insert_eq.
Qed.

(** When [download_file] returns [True], the server sent a complete
    response and the file at the target path holds exactly the bytes of its
    body, in order, whatever was at that path before. *)
Theorem download_file_complete (env : environment) (url p : string) (w w' : world) :
  download_file env url p w = (Ok true, w') ->
  exists chunks,
    fetch env (EvFs (OpMakedirs (os_path_dirname p)) :: w_trace w) url
    = HttpResponse None chunks None
    /\ w_fs w' !! p = Some (File (body_of chunks)).
Proof. apply download_file_body. Qed.

Lemma download_file_complete_witness :
  exists chunks,
    fetch Scenario.env_ok
      (EvFs (OpMakedirs (os_path_dirname "/home/u/model.fbx")) :: w_trace Scenario.w0)
      Scenario.url = HttpResponse None chunks None
    /\ w_fs (snd (download_file Scenario.env_ok Scenario.url "/home/u/model.fbx" Scenario.w0))
         !! "/home/u/model.fbx" = Some (File (body_of chunks)).
Proof.
  apply (download_file_complete Scenario.env_ok Scenario.url "/home/u/model.fbx" Scenario.w0).
  vm_compute. reflexivity.
Defined.

(** *** What a download leaves alone *)

(** [only_touches p w w']: apart from the path [p], the file system of [w']
    is that of [w]. *)
Definition only_touches (p : string) (w w' : world) : Prop :=
  forall q, q <> p -> w_fs w' !! q = w_fs w !! q.

Lemma only_touches_refl (p : string) (w : world) : only_touches p w w.
Proof. intros q _. reflexivity. Qed.

Lemma only_touches_trans (p : string) (a b c : world) :
  only_touches p a b -> only_touches p b c -> only_touches p a c.
Proof. intros H1 H2 q Hq. rewrite (H2 q Hq). apply H1, Hq. Qed.

Lemma only_touches_same_fs {A : Type} (p : string) (m : M A) :
  (forall w, w_fs (snd (m w)) = w_fs w) -> stable (only_touches p) m.
Proof. intros H w q _. now rewrite H. Qed.

Lemma only_touches_fs_call {A : Type} (env : environment) (p : string) (op : fs_op)
    (act : gmap string node -> result A * gmap string node) :
  (forall fs q, q <> p -> snd (act fs) !! q = fs !! q) ->
  stable (only_touches p) (fs_call env op act).
Proof.
  intros Hact w q Hq. unfold fs_call.
  destruct (fs_fault env (w_trace w) op); [reflexivity|].
  specialize (Hact (w_fs w) q Hq). destruct (act (w_fs w)) as [r fs']. exact Hact.
Qed.

Lemma only_touches_open_wb (env : environment) (p : string) :
  stable (only_touches p) (open_wb env p).
Proof.
  apply only_touches_fs_call. intros fs q Hq.
  destruct (names_a_directory (os_path_basename p)); [reflexivity|].
  destruct (fs !! p) as [[|c]|]; try reflexivity;
    (destruct (String.eqb (os_path_dirname p) "");
     [|destruct (fs !! os_path_dirname p) as [[|c']|]; try reflexivity]);
    cbn [snd]; apply lookup_insert_ne; congruence.
Qed.

Lemma only_touches_file_write (env : environment) (p chunk : string) :
  stable (only_touches p) (file_write env p chunk).
Proof.
  apply only_touches_fs_call. intros fs q Hq. cbn [snd].
  apply lookup_alter_ne. congruence.
Qed.

Lemma only_touches_write_chunks (env : environment) (p : string) (chunks : list string) :
  stable (only_touches p) (write_chunks env p chunks).
Proof.
  induction chunks as [|c rest IH]; cbn [write_chunks].
  - apply (stable_ret _ (only_touches_refl p)).
  - apply (stable_bind _ (only_touches_trans p)); [apply only_touches_file_write|].
    intros _. exact IH.
Qed.

Lemma os_makedirs_existing_fs (env : environment) (d : string) (w : world) :
  w_fs w !! d = Some Dir -> w_fs (snd (os_makedirs env d w)) = w_fs w.
Proof.
  intros Hd. unfold os_makedirs, fs_call.
  destruct (fs_fault env (w_trace w) (OpMakedirs d)); [reflexivity|].
  destruct (String.eqb d ""); [reflexivity|]. rewrite Hd. reflexivity.
Qed.

Lemma download_file_frame (env : environment) (url p : string) (w : world) :
  w_fs w !! os_path_dirname p = Some Dir ->
  only_touches p w (snd (download_file env url p w)).
Proof.
  intros Hd. unfold download_file.
  assert (Hrest : forall u : unit, stable (only_touches p)
            (response <- http_stream env url ;;
             open_wb env p ;;
             write_chunks env p (fst response) ;;
             end_of_body (snd response) ;;
             ret true)).
  { intros _.
    apply (stable_bind _ (only_touches_trans p)).
    { apply only_touches_same_fs. intros w0. unfold http_stream.
      destruct (fetch env (w_trace w0) url) as [e|[e|] chunks broken]; reflexivity. }
    intros response.
    apply (stable_bind _ (only_touches_trans p)); [apply only_touches_open_wb|]. intros _.
    apply (stable_bind _ (only_touches_trans p)); [apply only_touches_write_chunks|]. intros _.
    apply (stable_bind _ (only_touches_trans p)).
    { unfold end_of_body. destruct (snd response).
      - apply (stable_raise _ (only_touches_refl p)).
      - apply (stable_ret _ (only_touches_refl p)). }
    intros _. apply (stable_ret _ (only_touches_refl p)). }
  assert (Hh : forall e, stable (only_touches p)
            (print env ("下載文件時出錯: " +:+ str_exn e) ;; ret false)).
  { intros e. apply (stable_bind _ (only_touches_trans p)).
    - apply only_touches_same_fs. intros w0. unfold print.
      destruct (print_fault env (w_trace w0) _); reflexivity.
    - intros _. apply (stable_ret _ (only_touches_refl p)). }
  pose proof (os_makedirs_existing_fs env (os_path_dirname p) w Hd) as Hmk.
  unfold try_except. unfold bind at 1.
  destruct (os_makedirs env (os_path_dirname p) w) as [[[]|e1] w1]; cbn [snd] in Hmk.
  - specialize (Hrest tt w1).
    match goal with |- context [match ?m w1 with _ => _ end] =>
      change (only_touches p w1 (snd (m w1))) in Hrest;
      destruct (m w1) as [[b|e] w2] end; cbn [snd] in *.
    + intros q Hq. rewrite (Hrest q Hq). now rewrite Hmk.
    + intros q Hq. rewrite (Hh e w2 q Hq), (Hrest q Hq). now rewrite Hmk.
  - intros q Hq. rewrite (Hh e1 w1 q Hq). now rewrite Hmk.
Qed.

(** When the directory of the target path is there, [download_file]
    changes nothing in the file system but the target path itself, whether
    it succeeds or fails. *)
Theorem download_file_only_touches_target (env : environment) (url p : string) (w : world) :
  w_fs w !! os_path_dirname p = Some Dir ->
  only_touches p w (snd (download_file env url p w)).
Proof. apply download_file_frame. Qed.

Lemma download_file_only_touches_target_witness :
  only_touches "/home/u/model.fbx" Scenario.w0
    (snd (download_file Scenario.env_cut Scenario.url "/home/u/model.fbx" Scenario.w0)).
Proof.
  apply (download_file_only_touches_target Scenario.env_cut Scenario.url
           "/home/u/model.fbx" Scenario.w0).
  reflexivity.
Defined.

(** ** After the existence check *)

(** Past the existence check the call resolves its download directory. *)
Lemma import_remote_asset_try_after_check (env : environment) (str_other : pyval -> string)
    (url target_path : string) (overwrite temp_download : bool) (w : world) :
  passes_existence_check env url target_path overwrite w ->
  import_remote_asset_try env str_other (PStr url) (PStr target_path) overwrite temp_download w
  = (if temp_download
     then (temp_dir <- tempfile_mkdtemp env ;;
           fetch_and_import env str_other url (normalize_target target_path) overwrite
             (Some temp_dir) (os_path_join temp_dir (url_filename url)))
     else (os_makedirs env (download_dir env) ;;
           fetch_and_import env str_other url (normalize_target target_path) overwrite
             None (os_path_join (download_dir env) (url_filename url))))
      (world_after_check target_path w).
Proof.
  intros (Hu & Ht & Hc & listing & assets & found & Hr & Hg & Ha & Hb).
  unfold import_remote_asset_try.
  rewrite (bind_ok _ _ w (log EvConnect w) tt)
    by (unfold get_unity_connection; now rewrite Hc).
  rewrite (valid_string_PStr url Hu), (valid_string_PStr target_path Ht).
  erewrite bind_ok by (unfold send_command; simpl; rewrite Hr; reflexivity).
  erewrite bind_ok by (unfold lift; rewrite Hg; reflexivity).
  erewrite bind_ok by (unfold lift; rewrite Ha; reflexivity).
  rewrite Hb. destruct temp_download; reflexivity.
Qed.

(** The part of [fetch_and_import] after a download that succeeded, when
    there is no temporary directory: the file system stays as the download
    left it. *)
Lemma fetch_and_import_keeps_download (env : environment) (str_other : pyval -> string)
    (url target_path : string) (overwrite : bool) (p : string) (w3 w4 : world) :
  download_file env url p w3 = (Ok true, w4) ->
  w_fs (snd (fetch_and_import env str_other url target_path overwrite None p w3)) = w_fs w4.
Proof.
  intros Hdl. unfold fetch_and_import. rewrite (bind_ok _ _ _ _ _ Hdl). cbn [negb].
  unfold bind at 1. unfold os_path_exists at 1.
  destruct (fs_fault env (w_trace w4) (OpExists p)); [reflexivity|].
  destruct (bool_decide (is_Some (w_fs w4 !! p))); [|reflexivity]. cbn [negb].
  unfold bind at 1. unfold send_command at 1.
  destruct (reply env _ "IMPORT_ASSET" _) as [response|e]; [|reflexivity].
  unfold cleanup. unfold bind at 1. unfold ret at 1.
  unfold bind at 1. unfold lift at 1.
  destruct (py_get response "success" (PBool false)) as [success|e]; [|reflexivity].
  destruct (negb (truthy success)).
  - unfold bind, lift, ret. destruct (py_get response "error" _) as [error|e]; [|reflexivity].
    destruct (py_str env str_other error); reflexivity.
  - unfold lift. reflexivity.
Qed.

(** Without temporary storage, a download that succeeded stays in the
    download directory: after the call, whatever the import answered, the
    file at the download path holds the bytes of the body. *)
Theorem persistent_download_is_kept (env : environment) (str_other : pyval -> string)
    (url target_path : string) (overwrite : bool) (w w3 w4 : world) :
  passes_existence_check env url target_path overwrite w ->
  os_makedirs env (download_dir env) (world_after_check target_path w) = (Ok tt, w3) ->
  download_file env url (os_path_join (download_dir env) (url_filename url)) w3
  = (Ok true, w4) ->
  exists chunks,
    fetch env (EvFs (OpMakedirs
                       (os_path_dirname (os_path_join (download_dir env) (url_filename url))))
               :: w_trace w3) url
    = HttpResponse None chunks None
    /\ w_fs (snd (import_remote_asset env str_other (PStr url) (PStr target_path)
                    overwrite false w))
         !! os_path_join (download_dir env) (url_filename url)
       = Some (File (body_of chunks)).
Proof.
  intros Hpass Hmk Hdl.
  destruct (download_file_body env url _ w3 w4 Hdl) as (chunks & Hfetch & Hfile).
  exists chunks. split; [exact Hfetch|].
  unfold import_remote_asset, try_except.
  rewrite (import_remote_asset_try_after_check env str_other url target_path overwrite false
             w Hpass).
  rewrite (bind_ok _ _ _ _ _ Hmk).
  pose proof (fetch_and_import_keeps_download env str_other url (normalize_target target_path)
                overwrite _ w3 w4 Hdl) as Hk.
  destruct (fetch_and_import env str_other url (normalize_target target_path) overwrite None
              (os_path_join (download_dir env) (url_filename url)) w3) as [[v|e] w5];
    unfold ret; cbn [snd] in *; rewrite Hk; exact Hfile.
Qed.

Lemma env_ok_passes_check :
  passes_existence_check Scenario.env_ok Scenario.url "Imported/model.fbx" false Scenario.w0.
Proof.
  split; [discriminate|]. split; [discriminate|]. split; [reflexivity|].
  exists (PDict [("assets", PList [])]), (PList []), false. repeat split; reflexivity.
Qed.

Lemma persistent_download_is_kept_witness :
  exists chunks,
    w_fs (snd (import_remote_asset Scenario.env_ok Scenario.str_other (PStr Scenario.url)
                 (PStr "Imported/model.fbx") false false Scenario.w0))
      !! "/home/u/.unity_mcp_downloads/model.fbx"
    = Some (File (body_of chunks)).
Proof.
  destruct (persistent_download_is_kept Scenario.env_ok Scenario.str_other Scenario.url
              "Imported/model.fbx" false Scenario.w0
              (snd (os_makedirs Scenario.env_ok (download_dir Scenario.env_ok)
                      (world_after_check "Imported/model.fbx" Scenario.w0)))
              (snd (download_file Scenario.env_ok Scenario.url
                      "/home/u/.unity_mcp_downloads/model.fbx"
                      (snd (os_makedirs Scenario.env_ok (download_dir Scenario.env_ok)
                              (world_after_check "Imported/model.fbx" Scenario.w0))))))
    as (chunks & _ & H).
  - exact env_ok_passes_check.
  - vm_compute. reflexivity.
  - vm_compute. reflexivity.
  - exists chunks. exact H.
Defined.

(** ** Temporary storage, when the import command answers *)

Definition no_faults (env : environment) : Prop :=
  forall t op, fs_fault env t op = None.

Lemma fs_call_no_fault {A : Type} (env : environment) (op : fs_op)
    (act : gmap string node -> result A * gmap string node) (w : world) :
  no_faults env ->
  fs_call env op act w
  = (fst (act (w_fs w)), {| w_fs := snd (act (w_fs w)); w_trace := EvFs op :: w_trace w |}).
Proof.
  intros H. unfold fs_call. rewrite H. destruct (act (w_fs w)); reflexivity.
Qed.

Lemma append_sep_neq (d : string) (c : ascii) (s : string) : d +:+ String c s <> d.
Proof.
  intros H. assert (Hlen : String.length (d +:+ String c s) = String.length d) by now rewrite H.
  clear H. induction d as [|a d IH].
  - discriminate.
  - change (String a d +:+ String c s) with (String a (d +:+ String c s)) in Hlen.
    cbn [String.length] in Hlen. apply IH. lia.
Qed.

(** The clean-up after a download into the fresh directory [d]: the file
    and the directory go, and the file system is what it was before
    [mkdtemp]. *)
Lemma cleanup_restores (env : environment) (d p : string) (fs0 : gmap string node)
    (w : world) (content : string) :
  no_faults env ->
  p <> d -> os_path_dirname p = d ->
  fs0 !! d = None ->
  (forall q, os_path_dirname q = d -> fs0 !! q = None) ->
  w_fs w !! p = Some (File content) ->
  (forall q, q <> p -> w_fs w !! q = (<[d := Dir]> fs0) !! q) ->
  exists w', cleanup env (Some d) p w = (Ok tt, w') /\ w_fs w' = fs0.
Proof.
  intros Hnf Hpd Hdir Hfresh Hstale Hp Hframe.
  unfold cleanup, try_except. unfold bind. unfold os_remove at 1.
  rewrite (fs_call_no_fault env _ _ w Hnf), Hp. cbn [fst snd].
  unfold os_rmdir. rewrite fs_call_no_fault by exact Hnf. cbn [w_fs].
  assert (Hd : delete p (w_fs w) !! d = Some Dir).
  { rewrite lookup_delete_ne by exact Hpd.
    rewrite (Hframe d) by congruence. apply lookup_insert_eq. }
  rewrite Hd.
  assert (Hempty : has_entries d (delete p (w_fs w)) = false).
  { unfold has_entries. rewrite bool_decide_eq_true_2; [reflexivity|].
    apply map_Forall_lookup_2. intros q x Hq.
    destruct (decide (q = d)) as [->|Hqd]; [right; reflexivity|]. left.
    destruct (decide (q = p)) as [->|Hqp]; [rewrite lookup_delete_eq in Hq; discriminate|].
    rewrite lookup_delete_ne in Hq by congruence.
    rewrite (Hframe q Hqp), lookup_insert_ne in Hq by congruence.
    intros Hqdir. rewrite (Hstale q Hqdir) in Hq. discriminate. }
  rewrite Hempty. cbn [fst snd]. eexists. split; [reflexivity|]. cbn [w_fs].
  apply map_eq. intros q.
  destruct (decide (q = d)) as [->|Hqd]; [rewrite lookup_delete_eq; now rewrite Hfresh|].
  rewrite lookup_delete_ne by congruence.
  destruct (decide (q = p)) as [->|Hqp].
  - rewrite lookup_delete_eq. symmetry. apply Hstale, Hdir.
  - rewrite lookup_delete_ne by congruence.
    rewrite (Hframe q Hqp). apply lookup_insert_ne. congruence.
Qed.

(** The world right after [mkdtemp] made [d]. *)
Definition world_after_mkdtemp (d target_path : string) (w : world) : world :=
  {| w_fs := <[d := Dir]> (w_fs w);
     w_trace := EvFs OpMkdtemp :: w_trace (world_after_check target_path w) |}.

(** With temporary storage, when the download succeeds and the import
    command answers (with success or with a failure of its own) and no file
    system call fails, the call leaves the file system exactly as it found
    it: the downloaded file and the temporary directory are gone. The
    temporary directory is a fresh name, not empty, without a trailing
    slash, with nothing recorded under it. *)
Theorem temp_storage_is_restored (env : environment) (str_other : pyval -> string)
    (url target_path : string) (overwrite : bool) (w : world) (d : string) :
  passes_existence_check env url target_path overwrite w ->
  no_faults env ->
  temp_name env (w_trace (world_after_check target_path w)) = d ->
  d <> "" -> endswith_slash d = false ->
  w_fs w !! d = None ->
  (forall q, os_path_dirname q = d -> w_fs w !! q = None) ->
  fst (download_file env url (os_path_join d (url_filename url))
         (world_after_mkdtemp d target_path w)) = Ok true ->
  (forall t params, exists response, reply env t "IMPORT_ASSET" params = Ok response) ->
  w_fs (snd (import_remote_asset env str_other (PStr url) (PStr target_path)
               overwrite true w)) = w_fs w.
Proof.
  intros Hpass Hnf Hname Hd Hend Hfresh Hstale Hdl Hreply.
  destruct (dirname_basename_join d (url_filename url) Hd Hend
              (proj1 (url_filename_is_one_segment_aux url))) as (Hjoin & Hdir & _).
  set (p := os_path_join d (url_filename url)) in *.
  assert (Hpd : p <> d) by (rewrite Hjoin; apply append_sep_neq).
  unfold import_remote_asset, try_except.
  rewrite (import_remote_asset_try_after_check env str_other url target_path overwrite true
             w Hpass).
  assert (Hmk : tempfile_mkdtemp env (world_after_check target_path w)
                = (Ok d, world_after_mkdtemp d target_path w)).
  { unfold tempfile_mkdtemp. rewrite fs_call_no_fault by exact Hnf.
    rewrite Hname. change (w_fs (world_after_check target_path w)) with (w_fs w).
    rewrite Hfresh. reflexivity. }
  rewrite (bind_ok _ _ _ _ _ Hmk). fold p.
  destruct (download_file env url p (world_after_mkdtemp d target_path w))
    as [r w4] eqn:Edl. cbn [fst] in Hdl. subst r.
  destruct (download_file_body env url p _ w4 Edl) as (chunks & _ & Hfile).
  assert (Hframe : forall q, q <> p -> w_fs w4 !! q = (<[d := Dir]> (w_fs w)) !! q).
  { intros q Hq.
    pose proof (download_file_frame env url p (world_after_mkdtemp d target_path w)) as Hf.
    rewrite Edl in Hf. apply Hf; [|exact Hq].
    rewrite Hdir. apply lookup_insert_eq. }
  unfold fetch_and_import. rewrite (bind_ok _ _ _ _ _ Edl). cbn [negb].
  unfold bind at 1. unfold os_path_exists at 1. rewrite Hnf, Hfile.
  rewrite bool_decide_eq_true_2 by eauto. cbn [negb].
  unfold bind at 1. unfold send_command at 1.
  destruct (Hreply (w_trace (log (EvFs (OpExists p)) w4))
              (import_params p (normalize_target target_path) overwrite))
    as [response Hr].
  rewrite Hr.
  destruct (cleanup_restores env d p (w_fs w)
              (log (EvSend "IMPORT_ASSET"
                      (import_params p (normalize_target target_path) overwrite))
                 (log (EvFs (OpExists p)) w4))
              (body_of chunks) Hnf Hpd Hdir Hfresh Hstale Hfile Hframe)
    as (w7 & Hclean & Hfs).
  rewrite (bind_ok _ _ _ _ _ Hclean).
  unfold bind at 1. unfold lift at 1.
  destruct (py_get response "success" (PBool false)) as [success|e]; [|exact Hfs].
  destruct (negb (truthy success)).
  - unfold bind, lift, ret. destruct (py_get response "error" _) as [error|e]; [|exact Hfs].
    destruct (py_str env str_other error); exact Hfs.
  - unfold lift. destruct (py_get response "message" _); exact Hfs.
Qed.

Lemma w0_nothing_under_temp (q : string) :
  os_path_dirname q = "/tmp/tmpab12" -> w_fs Scenario.w0 !! q = None.
Proof.
  intros Hq. unfold Scenario.w0. cbn [w_fs].
  destruct (decide (q = "/tmp")) as [->|H1]; [vm_compute in Hq; discriminate|].
  destruct (decide (q = "/home")) as [->|H2]; [vm_compute in Hq; discriminate|].
  destruct (decide (q = "/home/u")) as [->|H3]; [vm_compute in Hq; discriminate|].
  rewrite !lookup_insert_ne by congruence. apply lookup_empty.
Qed.

Lemma temp_storage_is_restored_witness :
  w_fs (snd (import_remote_asset Scenario.env_ok Scenario.str_other (PStr Scenario.url)
               (PStr "Imported/model.fbx") false true Scenario.w0))
  = w_fs Scenario.w0.
Proof.
  apply (temp_storage_is_restored Scenario.env_ok Scenario.str_other Scenario.url
           "Imported/model.fbx" false Scenario.w0 "/tmp/tmpab12").
  - exact env_ok_passes_check.
  - intros t op. reflexivity.
  - reflexivity.
  - discriminate.
  - reflexivity.
  - reflexivity.
  - exact w0_nothing_under_temp.
  - vm_compute. reflexivity.
  - intros t params. eexists. reflexivity.
Defined.

(** ** [set_material]: which colours pass *)

(** A component the loop accepts: a number that is neither below 0.0 nor
    above 1.0. *)
Definition good_component (value : pyval) : Prop :=
  isinstance_number value = true /\ lt_zero value = false /\ gt_one value = false.

(** A number from 0.0 to 1.0, both included; [True] is 1 and [False] is 0. *)
Definition in_unit_range (value : pyval) : Prop :=
  match value with
  | PBool _ => True
  | PInt z => (0 <= z <= 1)%Z
  | PFloat f => PrimFloat.leb 0%float f = true /\ PrimFloat.leb f 1%float = true
  | _ => False
  end.

(** A [float] that is not a number: the one value not equal to itself. *)
Definition is_nan (value : pyval) : Prop :=
  match value with
  | PFloat f => PrimFloat.eqb f f = false
  | _ => False
  end.

(** What the two comparisons of the loop let through: the numbers of the
    range, and NaN, which is neither below nor above anything. *)
Definition passes (value : pyval) : Prop := in_unit_range value \/ is_nan value.

Lemma SFcompare_refl (x : SpecFloat.spec_float) :
  x <> SpecFloat.S754_nan -> SpecFloat.SFcompare x x = Some Eq.
Proof.
  destruct x as [s|s| |s m e]; intros H; try reflexivity; try contradiction.
  - destruct s; reflexivity.
  - cbn. rewrite Z.compare_refl.
    change (PosDef.Pos.compare_cont Eq m m) with (Pos.compare m m).
    rewrite Pos.compare_refl. destruct s; reflexivity.
Qed.

Lemma SFcompare_antisym (x y : SpecFloat.spec_float) :
  SpecFloat.SFcompare y x = option_map CompOpp (SpecFloat.SFcompare x y).
Proof.
  destruct x as [s|s| |s m e], y as [s'|s'| |s' m' e']; cbn;
    try reflexivity; try (destruct s; reflexivity); try (destruct s'; reflexivity);
    try (destruct s, s'; reflexivity).
  change (PosDef.Pos.compare_cont Eq m' m) with (Pos.compare m' m).
  change (PosDef.Pos.compare_cont Eq m m') with (Pos.compare m m').
  rewrite (Z.compare_antisym e e'), (Pos.compare_antisym m m').
  destruct s, s'; try reflexivity; destruct (e ?= e')%Z; cbn; try reflexivity;
    destruct (m ?= m')%positive; reflexivity.
Qed.

(** The comparison of a finite positive number with 1.0. *)
Lemma SFcompare_one (m : positive) (e : Z) :
  SpecFloat.SFcompare (SpecFloat.S754_finite false m e)
    (SpecFloat.S754_finite false 4503599627370496 (-52))
  = Some match (e ?= -52)%Z with
         | Eq => PosDef.Pos.compare_cont Eq m 4503599627370496
         | Lt => Lt
         | Gt => Gt
         end.
Proof. reflexivity. Qed.

(** For a [float], neither below 0.0 nor above 1.0 means from 0.0 to 1.0, or
    NaN. *)
Lemma float_unit_range (f : float) :
  (PrimFloat.ltb f 0%float = false /\ PrimFloat.ltb 1%float f = false)
  <-> ((PrimFloat.leb 0%float f = true /\ PrimFloat.leb f 1%float = true)
       \/ PrimFloat.eqb f f = false).
Proof.
  rewrite !FloatAxioms.ltb_spec, !FloatAxioms.leb_spec, FloatAxioms.eqb_spec.
  unfold SpecFloat.SFltb, SpecFloat.SFleb, SpecFloat.SFeqb.
  rewrite (SFcompare_antisym (Prim2SF f) (Prim2SF 0)).
  rewrite (SFcompare_antisym (Prim2SF f) (Prim2SF 1)).
  replace (Prim2SF 0) with (SpecFloat.S754_zero false) by (vm_compute; reflexivity).
  replace (Prim2SF 1) with (SpecFloat.S754_finite false 4503599627370496 (-52))
    by (vm_compute; reflexivity).
  destruct (Prim2SF f) as [s|s| |s m e] eqn:E.
  - cbv [SpecFloat.SFcompare option_map CompOpp]. intuition congruence.
  - destruct s; cbv [SpecFloat.SFcompare option_map CompOpp]; intuition congruence.
  - cbv [SpecFloat.SFcompare option_map CompOpp]. intuition congruence.
  - rewrite SFcompare_refl by discriminate.
    destruct s.
    + cbv [SpecFloat.SFcompare option_map CompOpp]. intuition congruence.
    + rewrite SFcompare_one.
      change (SpecFloat.SFcompare (SpecFloat.S754_finite false m e)
                (SpecFloat.S754_zero false))
        with (Some Gt).
      generalize (PosDef.Pos.compare_cont Eq m 4503599627370496). intros c.
      destruct (e ?= -52)%Z; [destruct c| |]; cbv [option_map CompOpp];
        intuition congruence.
Qed.

Lemma good_component_passes (value : pyval) : good_component value <-> passes value.
Proof.
  unfold good_component, passes. destruct value as [|b|z|f|s|l|d]; cbn.
  - split; [intros (H & _); discriminate | intros [[]|[]]].
  - split; [auto | intros _; repeat split].
  - split.
    + intros (_ & Hl & Hg). left.
      apply Z.ltb_ge in Hl. apply Z.ltb_ge in Hg. lia.
    + intros [H|[]]. repeat split; apply Z.ltb_ge; lia.
  - rewrite <- float_unit_range. split; [intros (_ & H); exact H | intros H; split; [reflexivity | exact H]].
  - split; [intros (H & _); discriminate | intros [[]|[]]].
  - split; [intros (H & _); discriminate | intros [[]|[]]].
  - split; [intros (H & _); discriminate | intros [[]|[]]].
Qed.

Lemma check_components_none (env : environment) (str_other : pyval -> string)
    (values : list pyval) (i : nat) :
  check_components env str_other i values = Ok None <-> Forall good_component values.
Proof.
  revert i. induction values as [|v l IH]; intros i; cbn [check_components].
  - split; [constructor | reflexivity].
  - destruct (isinstance_number v) eqn:En; cbn [negb].
    + destruct (lt_zero v) eqn:El; cbn [orb].
      * split; [destruct (py_str env str_other v); discriminate|].
        intros H. inversion H as [|? ? (_ & Hl & _) _]; subst.
        rewrite El in Hl. discriminate.
      * destruct (gt_one v) eqn:Eg.
        -- split; [destruct (py_str env str_other v); discriminate|].
           intros H. inversion H as [|? ? (_ & _ & Hg) _]; subst.
           rewrite Eg in Hg. discriminate.
        -- rewrite IH. split.
           ++ intros H. constructor; [repeat split; assumption | exact H].
           ++ intros H. inversion H; assumption.
    + split; [discriminate|]. intros H. inversion H as [|? ? (Hn & _) _]; subst.
      rewrite En in Hn. discriminate.
Qed.

Lemma Forall_good_passes (values : list pyval) :
  Forall good_component values <-> Forall passes values.
Proof.
  split; intros H; (eapply List.Forall_impl; [|exact H]); intros v Hv;
    apply good_component_passes; exact Hv.
Qed.

(** The colour check lets a colour through exactly when it is absent or
    empty, or has 3 or 4 components each of which is a number from 0.0 to
    1.0 or a NaN. *)
Theorem validate_color_accepts (env : environment) (str_other : pyval -> string)
    (color : option (list pyval)) :
  validate_color env str_other color = Ok None
  <-> color = None \/ color = Some []
      \/ exists values, color = Some values
           /\ (List.length values = 3 \/ List.length values = 4)
           /\ Forall passes values.
Proof.
  destruct color as [[|v l]|].
  - split; [auto | reflexivity].
  - change (validate_color env str_other (Some (v :: l)))
      with (if negb (Nat.eqb (List.length (v :: l)) 3 || Nat.eqb (List.length (v :: l)) 4)
            then Ok (Some (msg_color_count (List.length (v :: l))))
            else check_components env str_other 0 (v :: l)).
    remember (List.length (v :: l)) as n eqn:En.
    destruct (Nat.eqb_spec n 3) as [E3|N3]; [|destruct (Nat.eqb_spec n 4) as [E4|N4]];
      cbn [orb negb].
    + rewrite check_components_none, Forall_good_passes. split.
      * intros H. right. right. exists (v :: l). rewrite <- En. auto.
      * intros [H|[H|(values & [= <-] & _ & H)]]; [discriminate | discriminate | exact H].
    + rewrite check_components_none, Forall_good_passes. split.
      * intros H. right. right. exists (v :: l). rewrite <- En. auto.
      * intros [H|[H|(values & [= <-] & _ & H)]]; [discriminate | discriminate | exact H].
    + split; [discriminate|].
      intros [H|[H|(values & [= <-] & [H|H] & _)]]; try discriminate;
        rewrite <- En in H; contradiction.
  - split; [auto | reflexivity].
Qed.

(** The loop reports the first component it refuses. After components that
    pass, a value that is not a number is reported by its index. A number
    that does not pass is reported by its channel, with its value as [str]
    shows it; when [str] refuses the value, an [int] with more digits than
    the limit allows, the f-string of the message raises [ValueError]
    instead. *)
Theorem color_check_reports_first (env : environment) (str_other : pyval -> string)
    (pre post : list pyval) (value : pyval) :
  Forall passes pre ->
  (isinstance_number value = false ->
   check_components env str_other 0 (pre ++ value :: post)%list
   = Ok (Some (msg_color_not_number (List.length pre))))
  /\ (isinstance_number value = true -> ~ passes value ->
      (formats env value ->
       check_components env str_other 0 (pre ++ value :: post)%list
       = Ok (Some (msg_color_range (List.length pre) (str_text str_other value))))
      /\ (str_refused (int_max_str_digits env) value = true ->
          check_components env str_other 0 (pre ++ value :: post)%list
          = Raise (ValueError_digits (int_max_str_digits env)))).
Proof.
  intros Hpre. apply Forall_good_passes in Hpre.
  assert (Hgen : forall i,
            check_components env str_other i (pre ++ value :: post)%list
            = check_components env str_other (i + List.length pre) (value :: post)).
  { induction Hpre as [|v l (Hn & Hl & Hg) _ IH]; intros i.
    - cbn. now rewrite Nat.add_0_r.
    - cbn [app check_components]. rewrite Hn, Hl, Hg. cbn [negb orb].
      rewrite IH. cbn [List.length].
      replace (S i + List.length l)%nat with (i + S (List.length l))%nat by lia. reflexivity. }
  rewrite (Hgen 0). cbn [Nat.add check_components]. split.
  - intros ->. reflexivity.
  - intros Hn Hbad. rewrite Hn. cbn [negb].
    assert (Hout : lt_zero value || gt_one value = true).
    { destruct (lt_zero value) eqn:El; [reflexivity|].
      destruct (gt_one value) eqn:Eg; [reflexivity|].
      exfalso. apply Hbad, good_component_passes. repeat split; assumption. }
    rewrite Hout. split.
    + intros Hf. now rewrite (py_str_formats env str_other value Hf).
    + intros Hr. now rewrite (py_str_refused env str_other value Hr).
Qed.

Lemma color_check_reports_first_witness :
  check_components Scenario.env_ok Scenario.str_other 0
    ([PInt 1; PInt 0] ++ PInt 2 :: [PStr "x"])%list
  = Ok (Some (msg_color_range 2 "2"))
  /\ check_components Scenario.env_ok Scenario.str_other 0
       ([PInt 1; PFloat nan] ++ PInt int_4301_digits :: [])%list
     = Raise (ValueError_digits 4300).
Proof.
  split.
  - refine (proj1 (proj2 (color_check_reports_first Scenario.env_ok Scenario.str_other
                            [PInt 1; PInt 0] [PStr "x"] (PInt 2) _) _ _) _).
    + constructor; [left; cbn; lia|]. constructor; [left; cbn; lia | constructor].
    + reflexivity.
    + intros [H|[]]. cbn in H. lia.
    + reflexivity.
  - refine (proj2 (proj2 (color_check_reports_first Scenario.env_ok Scenario.str_other
                            [PInt 1; PFloat nan] [] (PInt int_4301_digits) _) _ _) _).
    + constructor; [left; cbn; lia|]. constructor; [right; reflexivity | constructor].
    + reflexivity.
    + intros [H|[]]. cbn in H. unfold int_4301_digits in H. lia.
    + vm_compute. reflexivity.
Defined.

(** ** The tools that only talk to Unity *)

(** The events of a tool that only talks to Unity: the connection, commands,
    and a look at a local path that [looks] allows. Nothing else: no HTTP
    request, no other file system call, no output. *)
Definition unity_event (looks : string -> Prop) (ev : event) : Prop :=
  match ev with
  | EvConnect | EvSend _ _ => True
  | EvFs (OpExists p) => looks p
  | _ => False
  end.

(** [unity_only looks w w']: the file system is unchanged and the new
    events are Unity events. *)
Definition unity_only (looks : string -> Prop) (w w' : world) : Prop :=
  w_fs w' = w_fs w /\ emits (unity_event looks) w w'.

(** No local path is looked at. *)
Definition no_path : string -> Prop := fun _ => False.

(** The one path a [str] argument names; no path for another value. *)
Definition path_of (v : pyval) : string -> Prop := fun p => v = PStr p.

Lemma unity_only_refl (looks : string -> Prop) (w : world) : unity_only looks w w.
Proof. split; [reflexivity | apply emits_refl]. Qed.

Lemma unity_only_trans (looks : string -> Prop) (a b c : world) :
  unity_only looks a b -> unity_only looks b c -> unity_only looks a c.
Proof.
  intros [F1 E1] [F2 E2]. split; [congruence | eapply emits_trans; eassumption].
Qed.

Lemma unity_only_get_unity_connection (looks : string -> Prop) (env : environment) :
  stable (unity_only looks) (get_unity_connection env).
Proof.
  intros w. split; [|apply emits_get_unity_connection; exact I].
  unfold get_unity_connection. destruct (connect env (w_trace w)); reflexivity.
Qed.

Lemma unity_only_send_command (looks : string -> Prop) (env : environment)
    (cmd : string) (params : pyval) :
  stable (unity_only looks) (send_command env cmd params).
Proof. intros w. split; [reflexivity | apply emits_send_command; exact I]. Qed.

Lemma unity_only_os_path_exists (looks : string -> Prop) (env : environment) (p : string) :
  looks p -> stable (unity_only looks) (os_path_exists env p).
Proof.
  intros Hp w. split; [|apply emits_os_path_exists; exact Hp].
  unfold os_path_exists. destruct (fs_fault env (w_trace w) (OpExists p)); reflexivity.
Qed.

Ltac unity_auto L :=
  repeat first
    [ apply (stable_ret _ (unity_only_refl L))
    | apply (stable_raise _ (unity_only_refl L))
    | apply (stable_lift _ (unity_only_refl L))
    | apply (stable_bind _ (unity_only_trans L))
    | apply (stable_try_except _ (unity_only_trans L))
    | apply unity_only_get_unity_connection
    | apply unity_only_send_command
    | match goal with |- forall _, _ => intro end
    | match goal with |- stable _ (match ?x with _ => _ end) => destruct x end ].

Lemma unity_only_import_asset (env : environment) (str_other : pyval -> string)
    (source_path target_path : pyval) (overwrite : bool) :
  stable (unity_only (path_of source_path))
    (import_asset env str_other source_path target_path overwrite).
Proof.
  unfold import_asset, import_asset_try.
  apply (stable_try_except _ (unity_only_trans _)); [|unity_auto (path_of source_path)].
  apply (stable_bind _ (unity_only_trans _)); [apply unity_only_get_unity_connection|].
  intros _. destruct (valid_string source_path) as [s|] eqn:Es;
    [|apply (stable_ret _ (unity_only_refl _))].
  destruct (valid_string target_path) as [t|]; [|apply (stable_ret _ (unity_only_refl _))].
  apply (stable_bind _ (unity_only_trans _)).
  { apply unity_only_os_path_exists. exact (proj1 (valid_string_inv _ _ Es)). }
  unity_auto (path_of source_path).
Qed.

Lemma unity_only_instantiate_prefab (env : environment) (str_other : pyval -> string)
    (prefab_path : pyval) (pl : placement) :
  stable (unity_only no_path) (instantiate_prefab env str_other prefab_path pl).
Proof. unfold instantiate_prefab, instantiate_found. unity_auto no_path. Qed.

Lemma unity_only_create_prefab (env : environment) (str_other : pyval -> string)
    (object_name prefab_path : pyval) (overwrite : bool) :
  stable (unity_only no_path)
    (create_prefab env str_other object_name prefab_path overwrite).
Proof. unfold create_prefab, create_found. unity_auto no_path. Qed.

Lemma unity_only_apply_prefab (env : environment) (str_other : pyval -> string)
    (object_name : pyval) :
  stable (unity_only no_path) (apply_prefab env str_other object_name).
Proof. unfold apply_prefab. unity_auto no_path. Qed.

Lemma unity_only_one_command (env : environment) (cmd : string) (params : pyval)
    (default prefix : string) :
  stable (unity_only no_path) (one_command env cmd params default prefix).
Proof. unfold one_command. unity_auto no_path. Qed.

Lemma unity_only_set_material (env : environment) (str_other : pyval -> string)
    (object_name : string) (material_name : option string) (color : option (list pyval))
    (create_if_missing : bool) :
  stable (unity_only no_path)
    (set_material env str_other object_name material_name color create_if_missing).
Proof. unfold set_material, set_material_try, check_material. unity_auto no_path. Qed.

(** The local asset tools never change the file system and never send an
    HTTP request. [instantiate_prefab], [create_prefab] and [apply_prefab]
    make no file system call at all; the only one of [import_asset] is the
    look at the path its [source_path] argument names. *)
Theorem asset_tools_only_talk_to_unity (env : environment) (str_other : pyval -> string)
    (w : world) :
  (forall source_path target_path overwrite,
     unity_only (path_of source_path) w
       (snd (import_asset env str_other source_path target_path overwrite w)))
  /\ (forall prefab_path pl,
        unity_only no_path w (snd (instantiate_prefab env str_other prefab_path pl w)))
  /\ (forall object_name prefab_path overwrite,
        unity_only no_path w
          (snd (create_prefab env str_other object_name prefab_path overwrite w)))
  /\ (forall object_name,
        unity_only no_path w (snd (apply_prefab env str_other object_name w))).
Proof.
  split; [|split; [|split]]; intros.
  - apply unity_only_import_asset.
  - apply unity_only_instantiate_prefab.
  - apply unity_only_create_prefab.
  - apply unity_only_apply_prefab.
Qed.

(** The material tools never change the file system, make no file system
    call, not even a look at a path, and never send an HTTP request: they
    connect to Unity and send commands, nothing else. *)
Theorem material_tools_only_talk_to_unity (env : environment) (str_other : pyval -> string)
    (w : world) :
  (forall object_name material_name color create_if_missing,
     unity_only no_path w
       (snd (set_material env str_other object_name material_name color create_if_missing w)))
  /\ (forall material_name shader_type render_mode save_path create_if_missing,
        unity_only no_path w
          (snd (create_advanced_material env material_name shader_type render_mode save_path
                  create_if_missing w)))
  /\ (forall material_path color metallic smoothness normal_scale occlusion_strength
        height_scale emission_color emission_intensity,
        unity_only no_path w
          (snd (set_material_properties env material_path color metallic smoothness
                  normal_scale occlusion_strength height_scale emission_color
                  emission_intensity w)))
  /\ (forall material_path texture_type texture_path tiling offset,
        unity_only no_path w
          (snd (set_material_texture env material_path texture_type texture_path tiling
                  offset w)))
  /\ (forall material_name template save_path,
        unity_only no_path w
          (snd (create_material_from_template env material_name template save_path w))).
Proof.
  split; [|split; [|split; [|split]]]; intros.
  - apply unity_only_set_material.
  - apply unity_only_one_command.
  - apply unity_only_one_command.
  - apply unity_only_one_command.
  - apply unity_only_one_command.
Qed.

(** A look at a system file is not a Unity event of any of these tools,
    whatever their arguments, unless [import_asset] is given that very
    path. *)
Example unity_event_examples :
  ~ unity_event no_path (EvFs (OpExists "/etc/passwd"))
  /\ ~ unity_event (path_of (PStr "/home/u/model.fbx")) (EvFs (OpExists "/etc/passwd"))
  /\ ~ unity_event (path_of (PInt 3)) (EvFs (OpExists "/etc/passwd"))
  /\ unity_event (path_of (PStr "/home/u/model.fbx")) (EvFs (OpExists "/home/u/model.fbx"))
  /\ ~ unity_event (path_of (PStr "/home/u/model.fbx")) (EvFs (OpRemove "/home/u/model.fbx"))
  /\ ~ unity_event no_path (EvHttpGet "https://host/a.png").
Proof.
  cbn. unfold no_path, path_of. repeat split; try (intros H; exact H); try discriminate.
Qed.

(** ** [import_asset] *)

(** A source file that is not there ends the call before any command is
    sent: the connection is obtained, the path is looked at, and the error
    names the source. *)
Theorem import_asset_missing_source (env : environment) (str_other : pyval -> string)
    (source_path target_path : string) (overwrite : bool) (w : world) :
  source_path <> "" -> target_path <> "" ->
  connect env (w_trace w) = None ->
  w_fs w !! source_path = None ->
  import_asset env str_other (PStr source_path) (PStr target_path) overwrite w
  = (Ok (PStr (msg_source_missing source_path)),
     log (EvFs (OpExists source_path)) (log EvConnect w)).
Proof.
  intros Hs Ht Hc Hfs. unfold import_asset. apply try_except_ok.
  unfold import_asset_try.
  rewrite (bind_ok _ _ w (log EvConnect w) tt)
    by (unfold get_unity_connection; now rewrite Hc).
  rewrite (valid_string_PStr source_path Hs), (valid_string_PStr target_path Ht).
  unfold bind, os_path_exists. cbn [log w_fs w_trace].
  destruct (fs_fault env (EvConnect :: w_trace w) (OpExists source_path)); [reflexivity|].
  rewrite Hfs. reflexivity.
Qed.

Lemma import_asset_missing_source_witness :
  import_asset Scenario.env_ok Scenario.str_other (PStr "/home/u/model.fbx")
    (PStr "Assets/model.fbx") false Scenario.w0
  = (Ok (PStr (msg_source_missing "/home/u/model.fbx")),
     log (EvFs (OpExists "/home/u/model.fbx")) (log EvConnect Scenario.w0)).
Proof.
  apply (import_asset_missing_source Scenario.env_ok Scenario.str_other "/home/u/model.fbx"
           "Assets/model.fbx" false Scenario.w0).
  - discriminate.
  - discriminate.
  - reflexivity.
  - reflexivity.
Defined.

(** When the source file is there and the listing holds an entry whose
    path is the target path as given, with [overwrite] false, the call
    returns the "already exists" message and [IMPORT_ASSET] is not sent. *)
Theorem import_asset_existing_target (env : environment) (str_other : pyval -> string)
    (source_path target_path : string) (w : world) (found : node)
    (listing : pyval) (pre post : list pyval) (entry : pyval) :
  source_path <> "" -> target_path <> "" ->
  connect env (w_trace w) = None ->
  fs_fault env (EvConnect :: w_trace w) (OpExists source_path) = None ->
  w_fs w !! source_path = Some found ->
  reply env (EvFs (OpExists source_path) :: EvConnect :: w_trace w) "GET_ASSET_LIST"
    (asset_list_params target_path) = Ok listing ->
  py_get listing "assets" (PList []) = Ok (PList (pre ++ entry :: post)) ->
  Forall (fun a => is_dict a = true) pre ->
  has_path target_path entry ->
  import_asset env str_other (PStr source_path) (PStr target_path) false w
  = (Ok (PStr (msg_asset_exists target_path)),
     {| w_fs := w_fs w;
        w_trace := EvSend "GET_ASSET_LIST" (asset_list_params target_path)
                   :: EvFs (OpExists source_path) :: EvConnect :: w_trace w |}).
Proof.
  intros Hs Ht Hc Hf Hfs Hr Hg Hpre Hentry.
  unfold import_asset. apply try_except_ok. unfold import_asset_try.
  rewrite (bind_ok _ _ w (log EvConnect w) tt)
    by (unfold get_unity_connection; now rewrite Hc).
  rewrite (valid_string_PStr source_path Hs), (valid_string_PStr target_path Ht).
  erewrite bind_ok.
  2:{ unfold os_path_exists. cbn [log w_fs w_trace]. rewrite Hf, Hfs. reflexivity. }
  rewrite bool_decide_eq_true_2 by eauto. cbn [negb].
  erewrite bind_ok by (unfold send_command; simpl; rewrite Hr; reflexivity).
  erewrite bind_ok by (unfold lift; rewrite Hg; reflexivity).
  erewrite bind_ok.
  2:{ unfold lift, any_field_eq. simpl.
      rewrite (any_get_eq_found "path" target_path pre post entry Hpre); [reflexivity|].
      destruct entry; try contradiction. eauto. }
  reflexivity.
Qed.

Definition reply_has_model (t : list event) (cmd : string) (params : pyval) : result pyval :=
  if String.eqb cmd "GET_ASSET_LIST"
  then Ok (PDict [("assets", PList [PDict [("path", PStr "model.fbx")]])])
  else Ok (PDict [("success", PBool true)]).

Lemma import_asset_existing_target_witness :
  import_asset (Scenario.make_env reply_has_model Scenario.body_ok) Scenario.str_other
    (PStr "/home/u") (PStr "model.fbx") false Scenario.w0
  = (Ok (PStr (msg_asset_exists "model.fbx")),
     {| w_fs := w_fs Scenario.w0;
        w_trace := [EvSend "GET_ASSET_LIST" (asset_list_params "model.fbx");
                    EvFs (OpExists "/home/u"); EvConnect] |}).
Proof.
  apply (import_asset_existing_target (Scenario.make_env reply_has_model Scenario.body_ok)
           Scenario.str_other "/home/u" "model.fbx" Scenario.w0 Dir
           (PDict [("assets", PList [PDict [("path", PStr "model.fbx")]])])
           [] [] (PDict [("path", PStr "model.fbx")])).
  - discriminate.
  - discriminate.
  - reflexivity.
  - reflexivity.
  - reflexivity.
  - reflexivity.
  - reflexivity.
  - constructor.
  - reflexivity.
Defined.

Lemma emits_import_asset (env : environment) (str_other : pyval -> string)
    (source_path : pyval) (target_path : string) (overwrite : bool) :
  target_path <> "" ->
  stable (emits (uses_target target_path overwrite))
    (import_asset env str_other source_path (PStr target_path) overwrite).
Proof.
  intros Ht. unfold import_asset, import_asset_try.
  rewrite (valid_string_PStr target_path Ht).
  apply (stable_try_except _ (emits_trans _));
    [|intros e; emits_auto (uses_target target_path overwrite)].
  apply (stable_bind _ (emits_trans _)); [apply emits_get_unity_connection; exact I|].
  intros _. destruct (valid_string source_path) as [s|]; [|apply (stable_ret _ (emits_refl _))].
  apply (stable_bind _ (emits_trans _)); [apply emits_os_path_exists; exact I|].
  intros present. destruct (negb present); [apply (stable_ret _ (emits_refl _))|].
  apply (stable_bind _ (emits_trans _)).
  { apply emits_send_command. left. split; reflexivity. }
  intros listing.
  apply (stable_bind _ (emits_trans _)); [apply (stable_lift _ (emits_refl _))|].
  intros existing.
  apply (stable_bind _ (emits_trans _)); [apply (stable_lift _ (emits_refl _))|].
  intros asset_exists.
  destruct (asset_exists && negb overwrite); [apply (stable_ret _ (emits_refl _))|].
  apply (stable_bind _ (emits_trans _)).
  { apply emits_send_command. right. split; [reflexivity | now exists s]. }
  intros response. emits_auto (uses_target target_path overwrite).
Qed.

(** [import_asset] takes the target path as it is given: every existence
    query and every [IMPORT_ASSET] command names that very path, no
    [Assets/] is put in front. For a path without a slash the query asks
    for the path itself in the folder [Assets]. *)
Theorem import_asset_uses_path_as_given (env : environment) (str_other : pyval -> string)
    (source_path : pyval) (target_path : string) (overwrite : bool) (w : world) :
  target_path <> "" ->
  emits (uses_target target_path overwrite) w
    (snd (import_asset env str_other source_path (PStr target_path) overwrite w))
  /\ (has_char slash target_path = false ->
      asset_list_params target_path
      = PDict [("search_pattern", PStr target_path); ("folder", PStr "Assets")]).
Proof.
  intros Ht. split; [apply emits_import_asset, Ht|].
  intros Hno. unfold asset_list_params. rewrite (py_split_no_sep slash target_path Hno).
  reflexivity.
Qed.

Lemma import_asset_uses_path_as_given_witness :
  emits (uses_target "model.fbx" false) Scenario.w0
    (snd (import_asset Scenario.env_ok Scenario.str_other (PStr "/home/u") (PStr "model.fbx")
            false Scenario.w0))
  /\ (has_char slash "model.fbx" = false ->
      asset_list_params "model.fbx"
      = PDict [("search_pattern", PStr "model.fbx"); ("folder", PStr "Assets")]).
Proof.
  apply (import_asset_uses_path_as_given Scenario.env_ok Scenario.str_other (PStr "/home/u")
           "model.fbx" false Scenario.w0).
  discriminate.
Defined.

(** ** The [.prefab] extension *)

(** The path both prefab tools go on with: the path as given when it ends
    with [.prefab] in any case, and with [.prefab] added otherwise. *)
Definition with_prefab_extension (path : string) : string :=
  if lacks_prefab_extension path then path +:+ ".prefab" else path.

Lemma lower_append (a b : string) : lower (a +:+ b) = lower a +:+ lower b.
Proof.
  induction a as [|x a IH]; [reflexivity|].
  change (String x a +:+ b) with (String x (a +:+ b)). cbn [lower].
  rewrite IH. reflexivity.
Qed.

Lemma string_of_list_ascii_app (a b : list ascii) :
  string_of_list_ascii (a ++ b)%list = string_of_list_ascii a +:+ string_of_list_ascii b.
Proof. induction a as [|x a IH]; [reflexivity|]. cbn. now rewrite IH. Qed.

Definition rev_string (s : string) : string :=
  string_of_list_ascii (rev (list_ascii_of_string s)).

Lemma rev_string_append (a b : string) : rev_string (a +:+ b) = rev_string b +:+ rev_string a.
Proof.
  unfold rev_string. rewrite list_ascii_append, rev_app_distr.
  apply string_of_list_ascii_app.
Qed.

Lemma prefix_append (p rest : string) : String.prefix p (p +:+ rest) = true.
Proof.
  induction p as [|a p IH]; [destruct rest; reflexivity|].
  change (String a p +:+ rest) with (String a (p +:+ rest)). cbn [String.prefix].
  destruct (ascii_dec a a); [exact IH | contradiction].
Qed.

Lemma prefix_append_r (p s rest : string) :
  String.prefix p s = true -> String.prefix p (s +:+ rest) = true.
Proof.
  intros H. destruct (prefix_split p s H) as [r ->].
  rewrite append_assoc. apply prefix_append.
Qed.

(** [(a + suffix).endswith(suffix)] *)
Lemma endswith_append (suffix a : string) : endswith suffix (a +:+ suffix) = true.
Proof. unfold endswith. fold (rev_string suffix). fold (rev_string (a +:+ suffix)).
  rewrite rev_string_append. apply prefix_append. Qed.

Lemma endswith_append_l (suffix a s : string) :
  endswith suffix s = true -> endswith suffix (a +:+ s) = true.
Proof.
  unfold endswith. fold (rev_string suffix) (rev_string s) (rev_string (a +:+ s)).
  rewrite rev_string_append. apply prefix_append_r.
Qed.

Lemma lacks_prefab_extension_added (path : string) :
  lacks_prefab_extension (path +:+ ".prefab") = false.
Proof.
  unfold lacks_prefab_extension. rewrite lower_append.
  change (lower ".prefab") with ".prefab". now rewrite endswith_append.
Qed.

(** A path is its file name, or a directory, a slash and its file name. *)
Lemma path_decompose (path : string) :
  path_name path = path \/ exists dir, path = dir +:+ "/" +:+ path_name path.
Proof.
  unfold path_name. pose proof (py_join_split slash path) as Hjoin.
  pose proof (py_split_not_nil slash path) as Hnil.
  destruct (py_split slash path) as [|x [|y l]]; [contradiction| |].
  - left. exact Hjoin.
  - right. exists (py_join "/" (but_last (x :: y :: l))).
    rewrite <- Hjoin at 1. symmetry. apply (join_but_last "/").
Qed.

(** A prefix without a slash cannot reach past a slash. *)
Lemma prefix_stops_at_slash (r x rest : string) :
  has_char slash r = false ->
  String.prefix r (x +:+ String slash rest) = String.prefix r x.
Proof.
  revert x. induction r as [|a r IH]; intros x Hr.
  - destruct x; reflexivity.
  - cbn [has_char] in Hr. destruct (Ascii.eqb_spec a slash) as [->|Hne]; [discriminate|].
    cbn [orb] in Hr. destruct x as [|b x].
    + change ("" +:+ String slash rest) with (String slash rest). cbn [String.prefix].
      destruct (ascii_dec a slash); [contradiction | reflexivity].
    + change (String b x +:+ String slash rest) with (String b (x +:+ String slash rest)).
      cbn [String.prefix]. destruct (ascii_dec a b); [apply IH, Hr | reflexivity].
Qed.

Lemma has_char_rev_string (c : ascii) (s : string) :
  has_char c s = false -> has_char c (rev_string s) = false.
Proof.
  intros H. unfold rev_string.
  assert (Hl : Forall (fun a => Ascii.eqb a c = false) (rev (list_ascii_of_string s)))
    by (apply Forall_rev, has_char_list, H).
  induction Hl as [|a l Ha _ IH]; [reflexivity|]. cbn. now rewrite Ha.
Qed.

(** A suffix without a slash ends a path exactly when it ends its file
    name. *)
Lemma endswith_path_name (suffix path : string) :
  has_char slash suffix = false ->
  endswith suffix (path_name path) = endswith suffix path.
Proof.
  intros Hs. destruct (path_decompose path) as [->|(dir & E)]; [reflexivity|].
  rewrite E at 2. unfold endswith.
  fold (rev_string suffix) (rev_string (path_name path))
       (rev_string (dir +:+ "/" +:+ path_name path)).
  change (dir +:+ "/" +:+ path_name path) with (dir +:+ (String slash "" +:+ path_name path)).
  rewrite <- append_assoc, rev_string_append, rev_string_append.
  change (rev_string (String slash "")) with (String slash "").
  change (String slash "" +:+ rev_string dir) with (String slash (rev_string dir)).
  symmetry. apply prefix_stops_at_slash, has_char_rev_string, Hs.
Qed.

Lemma lower_ascii_slash (a : ascii) : Ascii.eqb (lower_ascii a) slash = Ascii.eqb a slash.
Proof. destruct a as [[] [] [] [] [] [] [] []]; reflexivity. Qed.

Lemma py_split_lower (s : string) :
  py_split slash (lower s) = map lower (py_split slash s).
Proof.
  induction s as [|a s IH]; [reflexivity|].
  cbn [lower py_split]. rewrite lower_ascii_slash, IH.
  pose proof (py_split_not_nil slash s) as Hnil.
  destruct (Ascii.eqb a slash); [reflexivity|].
  destruct (py_split slash s) as [|h t]; [contradiction | reflexivity].
Qed.

Lemma path_name_lower (path : string) : path_name (lower path) = lower (path_name path).
Proof.
  unfold path_name, last_item. rewrite py_split_lower.
  pose proof (py_split_not_nil slash path) as Hnil.
  induction (py_split slash path) as [|x l IH]; [contradiction|].
  destruct l as [|y l']; [reflexivity|]. apply IH. discriminate.
Qed.

(** Both prefab tools decide alike: [instantiate_prefab] looks at the file
    name, [create_prefab] at the whole path. *)
Lemma lacks_prefab_extension_name (path : string) :
  lacks_prefab_extension (path_name path) = lacks_prefab_extension path.
Proof.
  unfold lacks_prefab_extension. rewrite <- path_name_lower.
  now rewrite (endswith_path_name ".prefab" (lower path)).
Qed.

Lemma path_name_append (path suffix : string) :
  has_char slash suffix = false ->
  path_name (path +:+ suffix) = path_name path +:+ suffix
  /\ path_dir (path +:+ suffix) = path_dir path.
Proof.
  intros Hs. unfold path_name, path_dir.
  rewrite (py_split_append slash path suffix Hs). split.
  - apply last_item_app.
  - unfold but_last. rewrite removelast_last. reflexivity.
Qed.

Lemma prefab_extension_facts (path : string) :
  lacks_prefab_extension (with_prefab_extension path) = false
  /\ with_prefab_extension (with_prefab_extension path) = with_prefab_extension path
  /\ (lacks_prefab_extension path = false -> with_prefab_extension path = path)
  /\ path_name (with_prefab_extension path)
     = (if lacks_prefab_extension (path_name path)
        then path_name path +:+ ".prefab" else path_name path)
  /\ path_dir (with_prefab_extension path) = path_dir path.
Proof.
  assert (H1 : lacks_prefab_extension (with_prefab_extension path) = false).
  { unfold with_prefab_extension. destruct (lacks_prefab_extension path) eqn:E;
      [apply lacks_prefab_extension_added | exact E]. }
  split; [exact H1|]. split.
  { unfold with_prefab_extension at 1. now rewrite H1. }
  split.
  { intros E. unfold with_prefab_extension. now rewrite E. }
  rewrite lacks_prefab_extension_name. unfold with_prefab_extension.
  destruct (lacks_prefab_extension path); [|split; reflexivity].
  apply path_name_append. reflexivity.
Qed.

(** The path with its extension ends with [.prefab]; adding the extension
    twice changes nothing; a path that has it, in any case, is kept; the
    file name and the folder of the path go along: the file name gets the
    extension exactly when the path does, the folder stays. *)
Theorem prefab_extension (path : string) :
  lacks_prefab_extension (with_prefab_extension path) = false
  /\ with_prefab_extension (with_prefab_extension path) = with_prefab_extension path
  /\ (lacks_prefab_extension path = false -> with_prefab_extension path = path)
  /\ path_name (with_prefab_extension path)
     = (if lacks_prefab_extension (path_name path)
        then path_name path +:+ ".prefab" else path_name path)
  /\ path_dir (with_prefab_extension path) = path_dir path.
Proof. apply prefab_extension_facts. Qed.

Lemma prefab_extension_witness :
  lacks_prefab_extension "Trees/Oak.PREFAB" = false
  /\ with_prefab_extension "Trees/Oak.PREFAB" = "Trees/Oak.PREFAB"
  /\ with_prefab_extension "Trees/Oak" = "Trees/Oak.prefab".
Proof.
  split; [reflexivity|]. split; [|reflexivity].
  apply (proj1 (proj2 (proj2 (prefab_extension "Trees/Oak.PREFAB")))). reflexivity.
Defined.

(** ** The commands of the prefab tools *)

(** The commands [instantiate_prefab] may send for the prefab path [q]. *)
Definition instantiate_event (q : string) (pl : placement) (ev : event) : Prop :=
  match ev with
  | EvConnect => True
  | EvSend cmd params =>
      (cmd = "GET_ASSET_LIST" /\ params = prefab_list_params (path_name q) (path_dir q))
      \/ (cmd = "INSTANTIATE_PREFAB" /\ params = instantiate_params q pl)
  | _ => False
  end.

(** The commands [create_prefab] may send for the object [name] and the
    prefab path [q]. *)
Definition create_event (name q : string) (overwrite : bool) (ev : event) : Prop :=
  match ev with
  | EvConnect => True
  | EvSend cmd params =>
      (cmd = "FIND_OBJECTS_BY_NAME" /\ params = find_params (PStr name))
      \/ (cmd = "GET_ASSET_LIST" /\ params = prefab_list_params (path_name q) (path_dir q))
      \/ (cmd = "CREATE_PREFAB" /\ params = create_prefab_params name q overwrite)
  | _ => False
  end.

Lemma emits_instantiate_prefab (env : environment) (str_other : pyval -> string)
    (path : string) (pl : placement) :
  path <> "" ->
  stable (emits (instantiate_event (with_prefab_extension path) pl))
    (instantiate_prefab env str_other (PStr path) pl).
Proof.
  intros Hp. unfold instantiate_prefab. rewrite (valid_string_PStr path Hp).
  destruct (prefab_extension_facts path) as (_ & _ & _ & Hname & Hdir).
  rewrite lacks_prefab_extension_name in *.
  set (q := with_prefab_extension path) in *.
  assert (Hq : (if lacks_prefab_extension path then path +:+ ".prefab" else path) = q)
    by reflexivity.
  rewrite Hq, <- Hname, <- Hdir.
  apply (stable_try_except _ (emits_trans _)); [|intros e; apply (stable_ret _ (emits_refl _))].
  apply (stable_bind _ (emits_trans _)); [apply emits_get_unity_connection; exact I|].
  intros _. destruct (first_not_number (position_params pl));
    [apply (stable_ret _ (emits_refl _))|].
  apply (stable_try_except _ (emits_trans _)); [|intros e; apply (stable_ret _ (emits_refl _))].
  unfold instantiate_found.
  apply (stable_bind _ (emits_trans _)).
  { apply emits_send_command. left. split; reflexivity. }
  intros listing.
  apply (stable_bind _ (emits_trans _)); [apply (stable_lift _ (emits_refl _))|].
  intros assets.
  apply (stable_bind _ (emits_trans _)); [apply (stable_lift _ (emits_refl _))|].
  intros found. destruct (negb found); [apply (stable_ret _ (emits_refl _))|].
  apply (stable_bind _ (emits_trans _)).
  { apply emits_send_command. right. split; reflexivity. }
  intros response. emits_auto (instantiate_event q pl).
Qed.

Lemma emits_create_prefab (env : environment) (str_other : pyval -> string)
    (name path : string) (overwrite : bool) :
  name <> "" -> path <> "" ->
  stable (emits (create_event name (with_prefab_extension path) overwrite))
    (create_prefab env str_other (PStr name) (PStr path) overwrite).
Proof.
  intros Hn Hp. unfold create_prefab.
  rewrite (valid_string_PStr name Hn), (valid_string_PStr path Hp).
  fold (with_prefab_extension path). set (q := with_prefab_extension path).
  apply (stable_try_except _ (emits_trans _)); [|intros e; apply (stable_ret _ (emits_refl _))].
  apply (stable_bind _ (emits_trans _)); [apply emits_get_unity_connection; exact I|].
  intros _.
  apply (stable_bind _ (emits_trans _)).
  { apply emits_send_command. left. split; reflexivity. }
  intros found.
  apply (stable_bind _ (emits_trans _)); [apply (stable_lift _ (emits_refl _))|].
  intros objects. destruct (negb (truthy objects)); [apply (stable_ret _ (emits_refl _))|].
  apply (stable_try_except _ (emits_trans _)); [|intros e; apply (stable_ret _ (emits_refl _))].
  unfold create_found.
  apply (stable_bind _ (emits_trans _)).
  { apply emits_send_command. right. left. split; reflexivity. }
  intros listing.
  apply (stable_bind _ (emits_trans _)); [apply (stable_lift _ (emits_refl _))|].
  intros assets.
  apply (stable_bind _ (emits_trans _)); [apply (stable_lift _ (emits_refl _))|].
  intros exists_. destruct (exists_ && negb overwrite); [apply (stable_ret _ (emits_refl _))|].
  apply (stable_bind _ (emits_trans _)).
  { apply emits_send_command. right. right. split; reflexivity. }
  intros response. emits_auto (create_event name q overwrite).
Qed.

(** Both prefab tools work with the same path, the path given with its
    [.prefab] extension: each looks it up by its file name in its folder,
    and the command that instantiates or creates the prefab carries it.
    Nothing else is sent, apart from the look-up of the object by
    [create_prefab]. *)
Theorem prefab_tools_send_extended_path (env : environment) (str_other : pyval -> string)
    (name path : string) (pl : placement) (overwrite : bool) (w : world) :
  name <> "" -> path <> "" ->
  lacks_prefab_extension (with_prefab_extension path) = false
  /\ emits (instantiate_event (with_prefab_extension path) pl) w
       (snd (instantiate_prefab env str_other (PStr path) pl w))
  /\ emits (create_event name (with_prefab_extension path) overwrite) w
       (snd (create_prefab env str_other (PStr name) (PStr path) overwrite w)).
Proof.
  intros Hn Hp. split; [apply prefab_extension_facts|]. split.
  - apply emits_instantiate_prefab, Hp.
  - apply emits_create_prefab; assumption.
Qed.

Definition numbers : placement :=
  mkPlacement (PInt 0) (PFloat 1.5%float) (PInt 0) (PInt 0) (PBool true) (PInt 90).

Lemma prefab_tools_send_extended_path_witness :
  lacks_prefab_extension (with_prefab_extension "Trees/Oak") = false
  /\ emits (instantiate_event (with_prefab_extension "Trees/Oak") numbers) Scenario.w0
       (snd (instantiate_prefab Scenario.env_ok Scenario.str_other (PStr "Trees/Oak") numbers
               Scenario.w0))
  /\ emits (create_event "Cube" (with_prefab_extension "Trees/Oak") false) Scenario.w0
       (snd (create_prefab Scenario.env_ok Scenario.str_other (PStr "Cube") (PStr "Trees/Oak")
               false Scenario.w0)).
Proof.
  apply (prefab_tools_send_extended_path Scenario.env_ok Scenario.str_other "Cube" "Trees/Oak"
           numbers false Scenario.w0); discriminate.
Defined.

(** ** [instantiate_prefab]: what is refused before the look-up *)

Lemma first_not_number_found (pre post : list (string * pyval)) (name : string)
    (value : pyval) :
  Forall (fun kv => isinstance_number (snd kv) = true) pre ->
  isinstance_number value = false ->
  first_not_number (pre ++ (name, value) :: post)%list = Some name.
Proof.
  intros Hpre Hv. induction Hpre as [|[k v] l Hk _ IH]; cbn [app first_not_number].
  - now rewrite Hv.
  - cbn [snd] in Hk. rewrite Hk. exact IH.
Qed.

(** A coordinate that is not a number ends the call right after the
    connection: no command is sent, and the message names the first such
    coordinate in the order [position_x], [position_y], [position_z],
    [rotation_x], [rotation_y], [rotation_z]. *)
Theorem instantiate_prefab_checks_numbers (env : environment) (str_other : pyval -> string)
    (path : string) (pl : placement) (w : world)
    (pre post : list (string * pyval)) (name : string) (value : pyval) :
  path <> "" ->
  connect env (w_trace w) = None ->
  position_params pl = (pre ++ (name, value) :: post)%list ->
  Forall (fun kv => isinstance_number (snd kv) = true) pre ->
  isinstance_number value = false ->
  instantiate_prefab env str_other (PStr path) pl w
  = (Ok (PStr (msg_not_a_number name)), log EvConnect w).
Proof.
  intros Hp Hc Hsplit Hpre Hv. unfold instantiate_prefab. apply try_except_ok.
  rewrite (bind_ok _ _ w (log EvConnect w) tt)
    by (unfold get_unity_connection; now rewrite Hc).
  rewrite (valid_string_PStr path Hp), Hsplit.
  rewrite (first_not_number_found pre post name value Hpre Hv). reflexivity.
Qed.

Lemma instantiate_prefab_checks_numbers_witness :
  instantiate_prefab Scenario.env_ok Scenario.str_other (PStr "Trees/Oak")
    (mkPlacement (PInt 0) (PBool true) (PFloat 2.5%float) (PStr "90") PNone (PInt 0))
    Scenario.w0
  = (Ok (PStr (msg_not_a_number "rotation_x")), log EvConnect Scenario.w0).
Proof.
  apply (instantiate_prefab_checks_numbers Scenario.env_ok Scenario.str_other "Trees/Oak"
           (mkPlacement (PInt 0) (PBool true) (PFloat 2.5%float) (PStr "90") PNone (PInt 0))
           Scenario.w0
           [("position_x", PInt 0); ("position_y", PBool true);
            ("position_z", PFloat 2.5%float)]
           [("rotation_y", PNone); ("rotation_z", PInt 0)] "rotation_x" (PStr "90")).
  - discriminate.
  - reflexivity.
  - reflexivity.
  - repeat constructor.
  - reflexivity.
Defined.

(** ** A listing without the path *)

(** An entry of a listing that is a mapping and whose [path] is not [p]. *)
Definition other_path (p : string) (asset : pyval) : Prop :=
  match asset with
  | PDict d => assoc "path" d <> Some (PStr p)
  | _ => False
  end.

Lemma py_eq_str_false (v : pyval) (s : string) : v <> PStr s -> py_eq_str v s = false.
Proof.
  intros H. destruct v; try reflexivity. cbn.
  destruct (String.eqb_spec s0 s) as [->|]; [contradiction | reflexivity].
Qed.

Lemma any_get_eq_absent (p : string) (assets : list pyval) :
  Forall (other_path p) assets -> any_get_eq "path" p assets = Ok false.
Proof.
  induction 1 as [|a l Ha _ IH]; [reflexivity|].
  destruct a; try contradiction. cbn [any_get_eq py_get].
  rewrite py_eq_str_false; [exact IH|].
  cbn in Ha. destruct (assoc "path" d); [congruence | discriminate].
Qed.

(** When the listing does not hold the prefab path (with its extension),
    [instantiate_prefab] returns "not found" and [INSTANTIATE_PREFAB] is
    not sent. *)
Theorem instantiate_prefab_not_listed (env : environment) (str_other : pyval -> string)
    (path : string) (pl : placement) (w : world) (listing : pyval) (assets : list pyval) :
  path <> "" ->
  connect env (w_trace w) = None ->
  first_not_number (position_params pl) = None ->
  reply env (EvConnect :: w_trace w) "GET_ASSET_LIST"
    (prefab_list_params (path_name (with_prefab_extension path))
       (path_dir (with_prefab_extension path))) = Ok listing ->
  py_get listing "assets" (PList []) = Ok (PList assets) ->
  Forall (other_path (with_prefab_extension path)) assets ->
  instantiate_prefab env str_other (PStr path) pl w
  = (Ok (PStr (msg_prefab_not_found (with_prefab_extension path))),
     log (EvSend "GET_ASSET_LIST"
            (prefab_list_params (path_name (with_prefab_extension path))
               (path_dir (with_prefab_extension path))))
       (log EvConnect w)).
Proof.
  intros Hp Hc Hnum Hr Hg Habs. unfold instantiate_prefab. apply try_except_ok.
  rewrite (bind_ok _ _ w (log EvConnect w) tt)
    by (unfold get_unity_connection; now rewrite Hc).
  rewrite (valid_string_PStr path Hp), Hnum.
  destruct (prefab_extension_facts path) as (_ & _ & _ & Hname & Hdir).
  rewrite lacks_prefab_extension_name in *.
  set (q := with_prefab_extension path) in *.
  assert (Hq : (if lacks_prefab_extension path then path +:+ ".prefab" else path) = q)
    by reflexivity.
  rewrite Hq, <- Hname, <- Hdir. apply try_except_ok. unfold instantiate_found.
  erewrite bind_ok by (unfold send_command; simpl; rewrite Hr; reflexivity).
  erewrite bind_ok by (unfold lift; rewrite Hg; reflexivity).
  erewrite bind_ok.
  2:{ unfold lift, any_field_eq. simpl. rewrite (any_get_eq_absent q assets Habs).
      reflexivity. }
  reflexivity.
Qed.

Lemma instantiate_prefab_not_listed_witness :
  instantiate_prefab Scenario.env_ok Scenario.str_other (PStr "Trees/Oak") numbers Scenario.w0
  = (Ok (PStr (msg_prefab_not_found "Trees/Oak.prefab")),
     log (EvSend "GET_ASSET_LIST" (prefab_list_params "Oak.prefab" "Trees"))
       (log EvConnect Scenario.w0)).
Proof.
  apply (instantiate_prefab_not_listed Scenario.env_ok Scenario.str_other "Trees/Oak" numbers
           Scenario.w0 (PDict [("assets", PList [])]) []).
  - discriminate.
  - reflexivity.
  - reflexivity.
  - reflexivity.
  - reflexivity.
  - constructor.
Defined.

(** ** [create_prefab] *)

(** When no object of that name is found, [create_prefab] stops after the
    look-up of the object: the prefab is neither looked up nor created. *)
Theorem create_prefab_object_not_found (env : environment) (str_other : pyval -> string)
    (name path : string) (overwrite : bool) (w : world) (found objects : pyval) :
  name <> "" -> path <> "" ->
  connect env (w_trace w) = None ->
  reply env (EvConnect :: w_trace w) "FIND_OBJECTS_BY_NAME" (find_params (PStr name))
  = Ok found ->
  py_get found "objects" (PList []) = Ok objects ->
  truthy objects = false ->
  create_prefab env str_other (PStr name) (PStr path) overwrite w
  = (Ok (PStr (msg_game_object_not_found name)),
     log (EvSend "FIND_OBJECTS_BY_NAME" (find_params (PStr name))) (log EvConnect w)).
Proof.
  intros Hn Hp Hc Hr Hg Ht. unfold create_prefab. apply try_except_ok.
  rewrite (bind_ok _ _ w (log EvConnect w) tt)
    by (unfold get_unity_connection; now rewrite Hc).
  rewrite (valid_string_PStr name Hn), (valid_string_PStr path Hp).
  erewrite bind_ok by (unfold send_command; simpl; rewrite Hr; reflexivity).
  erewrite bind_ok by (unfold lift; rewrite Hg; reflexivity).
  rewrite Ht. reflexivity.
Qed.

Definition reply_empty_scene (t : list event) (cmd : string) (params : pyval)
    : result pyval :=
  Ok (PDict [("objects", PList [])]).

Lemma create_prefab_object_not_found_witness :
  create_prefab (Scenario.make_env reply_empty_scene Scenario.body_ok) Scenario.str_other
    (PStr "Cube") (PStr "Trees/Oak") false Scenario.w0
  = (Ok (PStr (msg_game_object_not_found "Cube")),
     log (EvSend "FIND_OBJECTS_BY_NAME" (find_params (PStr "Cube")))
       (log EvConnect Scenario.w0)).
Proof.
  apply (create_prefab_object_not_found (Scenario.make_env reply_empty_scene Scenario.body_ok)
           Scenario.str_other "Cube" "Trees/Oak" false Scenario.w0
           (PDict [("objects", PList [])]) (PList [])).
  - discriminate.
  - discriminate.
  - reflexivity.
  - reflexivity.
  - reflexivity.
  - reflexivity.
Defined.

(** When the object is found and the listing holds the prefab path (with
    its extension), with [overwrite] false, [create_prefab] returns the
    "already exists" message and [CREATE_PREFAB] is not sent. *)
Theorem create_prefab_existing (env : environment) (str_other : pyval -> string)
    (name path : string) (w : world) (found objects listing : pyval)
    (pre post : list pyval) (entry : pyval) :
  name <> "" -> path <> "" ->
  connect env (w_trace w) = None ->
  reply env (EvConnect :: w_trace w) "FIND_OBJECTS_BY_NAME" (find_params (PStr name))
  = Ok found ->
  py_get found "objects" (PList []) = Ok objects ->
  truthy objects = true ->
  reply env (EvSend "FIND_OBJECTS_BY_NAME" (find_params (PStr name)) :: EvConnect :: w_trace w)
    "GET_ASSET_LIST"
    (prefab_list_params (path_name (with_prefab_extension path))
       (path_dir (with_prefab_extension path))) = Ok listing ->
  py_get listing "assets" (PList []) = Ok (PList (pre ++ entry :: post)) ->
  Forall (fun a => is_dict a = true) pre ->
  has_path (with_prefab_extension path) entry ->
  create_prefab env str_other (PStr name) (PStr path) false w
  = (Ok (PStr (msg_prefab_exists (with_prefab_extension path))),
     log (EvSend "GET_ASSET_LIST"
            (prefab_list_params (path_name (with_prefab_extension path))
               (path_dir (with_prefab_extension path))))
       (log (EvSend "FIND_OBJECTS_BY_NAME" (find_params (PStr name))) (log EvConnect w))).
Proof.
  intros Hn Hp Hc Hr Hg Ht Hr2 Hg2 Hpre Hentry. unfold create_prefab. apply try_except_ok.
  rewrite (bind_ok _ _ w (log EvConnect w) tt)
    by (unfold get_unity_connection; now rewrite Hc).
  rewrite (valid_string_PStr name Hn), (valid_string_PStr path Hp).
  erewrite bind_ok by (unfold send_command; simpl; rewrite Hr; reflexivity).
  erewrite bind_ok by (unfold lift; rewrite Hg; reflexivity).
  rewrite Ht. cbn [negb]. fold (with_prefab_extension path).
  apply try_except_ok. unfold create_found.
  erewrite bind_ok by (unfold send_command; simpl; rewrite Hr2; reflexivity).
  erewrite bind_ok by (unfold lift; rewrite Hg2; reflexivity).
  erewrite bind_ok.
  2:{ unfold lift, any_field_eq. simpl.
      rewrite (any_get_eq_found "path" (with_prefab_extension path) pre post entry Hpre);
        [reflexivity|].
      destruct entry; try contradiction. eauto. }
  reflexivity.
Qed.

Definition reply_has_oak (t : list event) (cmd : string) (params : pyval) : result pyval :=
  if String.eqb cmd "GET_ASSET_LIST"
  then Ok (PDict [("assets", PList [PDict [("path", PStr "Trees/Oak.prefab")]])])
  else Ok (PDict [("objects", PList [PStr "Cube"])]).

Lemma create_prefab_existing_witness :
  create_prefab (Scenario.make_env reply_has_oak Scenario.body_ok) Scenario.str_other
    (PStr "Cube") (PStr "Trees/Oak") false Scenario.w0
  = (Ok (PStr (msg_prefab_exists "Trees/Oak.prefab")),
     log (EvSend "GET_ASSET_LIST" (prefab_list_params "Oak.prefab" "Trees"))
       (log (EvSend "FIND_OBJECTS_BY_NAME" (find_params (PStr "Cube")))
          (log EvConnect Scenario.w0))).
Proof.
  apply (create_prefab_existing (Scenario.make_env reply_has_oak Scenario.body_ok)
           Scenario.str_other "Cube" "Trees/Oak" Scenario.w0
           (PDict [("objects", PList [PStr "Cube"])]) (PList [PStr "Cube"])
           (PDict [("assets", PList [PDict [("path", PStr "Trees/Oak.prefab")]])])
           [] [] (PDict [("path", PStr "Trees/Oak.prefab")])).
  - discriminate.
  - discriminate.
  - reflexivity.
  - reflexivity.
  - reflexivity.
  - reflexivity.
  - reflexivity.
  - reflexivity.
  - constructor.
  - reflexivity.
Defined.

(** ** [apply_prefab] *)

(** For an object that is found but is not a prefab instance,
    [apply_prefab] says so and [APPLY_PREFAB] is not sent. The message
    shows the name as [str] formats it; for a name that [str] refuses, the
    tool returns the message of its handler instead. *)
Theorem apply_prefab_needs_instance (env : environment) (str_other : pyval -> string)
    (object_name : pyval) (w : world) (found objects props flag : pyval) :
  connect env (w_trace w) = None ->
  reply env (EvConnect :: w_trace w) "FIND_OBJECTS_BY_NAME" (find_params object_name)
  = Ok found ->
  py_get found "objects" (PList []) = Ok objects ->
  truthy objects = true ->
  reply env (EvSend "FIND_OBJECTS_BY_NAME" (find_params object_name) :: EvConnect :: w_trace w)
    "GET_OBJECT_PROPERTIES" (find_params object_name) = Ok props ->
  py_get props "isPrefabInstance" (PBool false) = Ok flag ->
  truthy flag = false ->
  apply_prefab env str_other object_name w
  = (Ok (PStr (match py_str env str_other object_name with
               | Ok shown => msg_not_prefab_instance shown
               | Raise e => msg_apply_exception e
               end)),
     log (EvSend "GET_OBJECT_PROPERTIES" (find_params object_name))
       (log (EvSend "FIND_OBJECTS_BY_NAME" (find_params object_name)) (log EvConnect w))).
Proof.
  intros Hc Hr Hg Ht Hr2 Hg2 Ht2. unfold apply_prefab, try_except.
  rewrite (bind_ok _ _ w (log EvConnect w) tt)
    by (unfold get_unity_connection; now rewrite Hc).
  erewrite bind_ok by (unfold send_command; simpl; rewrite Hr; reflexivity).
  erewrite bind_ok by (unfold lift; rewrite Hg; reflexivity).
  rewrite Ht. cbn [negb].
  erewrite bind_ok by (unfold send_command; simpl; rewrite Hr2; reflexivity).
  erewrite bind_ok by (unfold lift; rewrite Hg2; reflexivity).
  rewrite Ht2. cbn [negb]. unfold bind, lift, ret.
  destruct (py_str env str_other object_name); reflexivity.
Qed.

Definition reply_plain_object (t : list event) (cmd : string) (params : pyval)
    : result pyval :=
  if String.eqb cmd "FIND_OBJECTS_BY_NAME" then Ok (PDict [("objects", PList [PStr "Cube"])])
  else Ok (PDict [("name", PStr "Cube")]).

Lemma apply_prefab_needs_instance_witness :
  apply_prefab (Scenario.make_env reply_plain_object Scenario.body_ok) Scenario.str_other
    (PStr "Cube") Scenario.w0
  = (Ok (PStr (msg_not_prefab_instance "Cube")),
     log (EvSend "GET_OBJECT_PROPERTIES" (find_params (PStr "Cube")))
       (log (EvSend "FIND_OBJECTS_BY_NAME" (find_params (PStr "Cube")))
          (log EvConnect Scenario.w0))).
Proof.
  apply (apply_prefab_needs_instance (Scenario.make_env reply_plain_object Scenario.body_ok)
           Scenario.str_other (PStr "Cube") Scenario.w0
           (PDict [("objects", PList [PStr "Cube"])]) (PList [PStr "Cube"])
           (PDict [("name", PStr "Cube")]) (PBool false)).
  - reflexivity.
  - reflexivity.
  - reflexivity.
  - reflexivity.
  - reflexivity.
  - reflexivity.
  - reflexivity.
Defined.

(** [apply_prefab] does not look at [success]: for a prefab instance, when
    the answer to [APPLY_PREFAB] is a mapping without a [message], the tool
    reports that the changes were applied, whatever else the answer holds. *)
Theorem apply_prefab_ignores_success (env : environment) (str_other : pyval -> string)
    (object_name : pyval) (w : world) (found objects props flag : pyval)
    (answer : list (string * pyval)) :
  connect env (w_trace w) = None ->
  reply env (EvConnect :: w_trace w) "FIND_OBJECTS_BY_NAME" (find_params object_name)
  = Ok found ->
  py_get found "objects" (PList []) = Ok objects ->
  truthy objects = true ->
  reply env (EvSend "FIND_OBJECTS_BY_NAME" (find_params object_name) :: EvConnect :: w_trace w)
    "GET_OBJECT_PROPERTIES" (find_params object_name) = Ok props ->
  py_get props "isPrefabInstance" (PBool false) = Ok flag ->
  truthy flag = true ->
  reply env (EvSend "GET_OBJECT_PROPERTIES" (find_params object_name)
             :: EvSend "FIND_OBJECTS_BY_NAME" (find_params object_name)
             :: EvConnect :: w_trace w)
    "APPLY_PREFAB" (PDict [("object_name", object_name)]) = Ok (PDict answer) ->
  assoc "message" answer = None ->
  fst (apply_prefab env str_other object_name w)
  = Ok (PStr "Prefab changes applied successfully").
Proof.
  intros Hc Hr Hg Ht Hr2 Hg2 Ht2 Hr3 Hm. unfold apply_prefab.
  erewrite try_except_ok; [reflexivity|].
  rewrite (bind_ok _ _ w (log EvConnect w) tt)
    by (unfold get_unity_connection; now rewrite Hc).
  erewrite bind_ok by (unfold send_command; simpl; rewrite Hr; reflexivity).
  erewrite bind_ok by (unfold lift; rewrite Hg; reflexivity).
  rewrite Ht. cbn [negb].
  erewrite bind_ok by (unfold send_command; simpl; rewrite Hr2; reflexivity).
  erewrite bind_ok by (unfold lift; rewrite Hg2; reflexivity).
  rewrite Ht2. cbn [negb].
  erewrite bind_ok by (unfold send_command; simpl; rewrite Hr3; reflexivity).
  unfold lift. cbn [py_get]. rewrite Hm. reflexivity.
Qed.

(** An instance whose [APPLY_PREFAB] is answered with a failure. *)
Definition reply_apply_fails (t : list event) (cmd : string) (params : pyval)
    : result pyval :=
  if String.eqb cmd "FIND_OBJECTS_BY_NAME" then Ok (PDict [("objects", PList [PStr "Cube"])])
  else if String.eqb cmd "GET_OBJECT_PROPERTIES"
  then Ok (PDict [("isPrefabInstance", PBool true)])
  else Ok (PDict [("success", PBool false); ("error", PStr "Prefab asset is locked")]).

Lemma apply_prefab_ignores_success_witness :
  fst (apply_prefab (Scenario.make_env reply_apply_fails Scenario.body_ok) Scenario.str_other
         (PStr "Cube") Scenario.w0)
  = Ok (PStr "Prefab changes applied successfully").
Proof.
  apply (apply_prefab_ignores_success (Scenario.make_env reply_apply_fails Scenario.body_ok)
           Scenario.str_other (PStr "Cube") Scenario.w0
           (PDict [("objects", PList [PStr "Cube"])]) (PList [PStr "Cube"])
           (PDict [("isPrefabInstance", PBool true)]) (PBool true)
           [("success", PBool false); ("error", PStr "Prefab asset is locked")]).
  - reflexivity.
  - reflexivity.
  - reflexivity.
  - reflexivity.
  - reflexivity.
  - reflexivity.
  - reflexivity.
  - reflexivity.
  - reflexivity.
Defined.

(** ** The parameters of the material tools *)

(** What reaches Unity for an optional argument: the value unless it is
    [None]. *)
Definition sent (value : pyval) : option pyval :=
  match value with
  | PNone => None
  | _ => Some value
  end.

Lemma assoc_unless_none (k key : string) (value : pyval) (rest : list (string * pyval)) :
  assoc k (unless_none key value ++ rest)%list
  = if String.eqb key k
    then match sent value with Some v => Some v | None => assoc k rest end
    else assoc k rest.
Proof.
  destruct value; cbn [unless_none app assoc sent];
    destruct (String.eqb key k); reflexivity.
Qed.

Lemma assoc_unless_none_last (k key : string) (value : pyval) :
  assoc k (unless_none key value)
  = if String.eqb key k then sent value else None.
Proof.
  destruct value; cbn [unless_none assoc sent]; destruct (String.eqb key k); reflexivity.
Qed.

(** [set_material_properties] sends the material path and exactly those
    optional arguments that are not [None]: an empty colour list and a zero
    are sent (the test is [is not None], not truth), an argument left out
    is absent from the command. *)
Theorem material_properties_params_lookup
    (material_path color metallic smoothness normal_scale occlusion_strength
       height_scale emission_color emission_intensity : pyval) :
  let params := material_properties_params material_path color metallic smoothness
                  normal_scale occlusion_strength height_scale emission_color
                  emission_intensity in
  assoc "material_path" params = Some material_path
  /\ assoc "color" params = sent color
  /\ assoc "metallic" params = sent metallic
  /\ assoc "smoothness" params = sent smoothness
  /\ assoc "normal_scale" params = sent normal_scale
  /\ assoc "occlusion_strength" params = sent occlusion_strength
  /\ assoc "height_scale" params = sent height_scale
  /\ assoc "emission_color" params = sent emission_color
  /\ assoc "emission_intensity" params = sent emission_intensity
  /\ sent (PList []) = Some (PList []) /\ sent (PInt 0) = Some (PInt 0).
Proof.
  cbn zeta. unfold material_properties_params. cbn [assoc].
  repeat split;
    repeat (rewrite ?assoc_unless_none, ?assoc_unless_none_last; cbn [String.eqb Ascii.eqb Bool.eqb]);
    try reflexivity.
  all: match goal with |- context [sent ?v] => destruct (sent v); reflexivity end.
Qed.

(** [set_material_texture] sends the three paths and names, and the tiling
    and the offset exactly when they are not [None]. *)
Theorem material_texture_params_lookup
    (material_path texture_type texture_path tiling offset : pyval) :
  let params := material_texture_params material_path texture_type texture_path tiling
                  offset in
  assoc "material_path" params = Some material_path
  /\ assoc "texture_type" params = Some texture_type
  /\ assoc "texture_path" params = Some texture_path
  /\ assoc "tiling" params = sent tiling
  /\ assoc "offset" params = sent offset.
Proof.
  cbn zeta. unfold material_texture_params. cbn [assoc app].
  repeat split;
    repeat (rewrite ?assoc_unless_none, ?assoc_unless_none_last; cbn [String.eqb Ascii.eqb Bool.eqb]);
    try reflexivity.
  all: match goal with |- context [sent ?v] => destruct (sent v); reflexivity end.
Qed.

(** ** [import_remote_asset]: arguments that are refused *)

(** Anything but a non-empty [str]: [None], a number, a list, the empty
    string. *)
Definition not_a_nonempty_str (v : pyval) : Prop := forall s, v = PStr s -> s = "".

Lemma valid_string_none (v : pyval) : not_a_nonempty_str v -> valid_string v = None.
Proof.
  intros H. unfold valid_string. destruct v; cbn; try reflexivity;
    try (destruct (negb _); reflexivity).
  rewrite (H s eq_refl). reflexivity.
Qed.

(** A URL or a target path that is not a non-empty string is refused once
    the connection is obtained and before anything is sent or downloaded;
    the URL is looked at first. *)
Theorem import_remote_asset_refuses_arguments (env : environment)
    (str_other : pyval -> string) (url target_path : pyval)
    (overwrite temp_download : bool) (w : world) :
  connect env (w_trace w) = None ->
  (not_a_nonempty_str url ->
   import_remote_asset env str_other url target_path overwrite temp_download w
   = (Ok (PStr msg_bad_url), log EvConnect w))
  /\ (forall u, url = PStr u -> u <> "" -> not_a_nonempty_str target_path ->
      import_remote_asset env str_other url target_path overwrite temp_download w
      = (Ok (PStr msg_bad_target), log EvConnect w)).
Proof.
  intros Hc. split.
  - intros Hu. unfold import_remote_asset. apply try_except_ok.
    unfold import_remote_asset_try.
    rewrite (bind_ok _ _ w (log EvConnect w) tt)
      by (unfold get_unity_connection; now rewrite Hc).
    rewrite (valid_string_none url Hu). reflexivity.
  - intros u -> Hu Ht. unfold import_remote_asset. apply try_except_ok.
    unfold import_remote_asset_try.
    rewrite (bind_ok _ _ w (log EvConnect w) tt)
      by (unfold get_unity_connection; now rewrite Hc).
    rewrite (valid_string_PStr u Hu), (valid_string_none target_path Ht). reflexivity.
Qed.

Lemma import_remote_asset_refuses_arguments_witness :
  import_remote_asset Scenario.env_ok Scenario.str_other (PInt 3) (PStr "a.png") false true
    Scenario.w0 = (Ok (PStr msg_bad_url), log EvConnect Scenario.w0)
  /\ import_remote_asset Scenario.env_ok Scenario.str_other (PStr Scenario.url) (PStr "")
       false true Scenario.w0 = (Ok (PStr msg_bad_target), log EvConnect Scenario.w0).
Proof.
  split.
  - apply (proj1 (import_remote_asset_refuses_arguments Scenario.env_ok Scenario.str_other
                    (PInt 3) (PStr "a.png") false true Scenario.w0 eq_refl)).
    intros s [=].
  - apply (proj2 (import_remote_asset_refuses_arguments Scenario.env_ok Scenario.str_other
                    (PStr Scenario.url) (PStr "") false true Scenario.w0 eq_refl)
             Scenario.url eq_refl).
    + discriminate.
    + intros s [= <-]. reflexivity.
Defined.

(** ** What a batch downloads and where it imports to *)

(** The events of [import_remote_asset] for the URL [url] and the
    normalized target path [target_path]: its commands name that path, its
    HTTP request goes to that URL. *)
Definition remote_event (url target_path : string) (overwrite : bool) (ev : event) : Prop :=
  match ev with
  | EvSend _ _ => uses_target target_path overwrite ev
  | EvHttpGet u => u = url
  | _ => True
  end.

Lemma download_event_remote (url p target_path : string) (overwrite : bool) (ev : event) :
  download_event url p ev -> remote_event url target_path overwrite ev.
Proof. destruct ev; cbn; intros H; try exact I; try exact H; contradiction. Qed.

Lemma emits_remote_fetch_and_import (env : environment) (str_other : pyval -> string)
    (url target_path : string) (overwrite : bool) (temp_dir : option string)
    (download_path : string) :
  stable (emits (remote_event url target_path overwrite))
    (fetch_and_import env str_other url target_path overwrite temp_dir download_path).
Proof.
  unfold fetch_and_import.
  apply (stable_bind _ (emits_trans _)).
  { eapply stable_emits_weaken; [|apply emits_download_file].
    apply download_event_remote. }
  intros ok. destruct (negb ok); [apply (stable_ret _ (emits_refl _))|].
  apply (stable_bind _ (emits_trans _)); [apply emits_os_path_exists; exact I|].
  intros present. destruct (negb present); [apply (stable_ret _ (emits_refl _))|].
  apply (stable_bind _ (emits_trans _)).
  { apply emits_send_command. right. split; [reflexivity | now exists download_path]. }
  intros response.
  apply (stable_bind _ (emits_trans _)); [apply emits_cleanup; intros op; exact I|].
  intros _. emits_auto (remote_event url target_path overwrite).
Qed.

Lemma emits_remote_import (env : environment) (str_other : pyval -> string)
    (url target_path : string) (overwrite temp_download : bool) :
  target_path <> "" ->
  stable (emits (remote_event url (normalize_target target_path) overwrite))
    (import_remote_asset env str_other (PStr url) (PStr target_path) overwrite temp_download).
Proof.
  intros Ht. unfold import_remote_asset, import_remote_asset_try.
  rewrite (valid_string_PStr target_path Ht).
  apply (stable_try_except _ (emits_trans _)); [|intros e; apply (stable_ret _ (emits_refl _))].
  apply (stable_bind _ (emits_trans _)); [apply emits_get_unity_connection; exact I|].
  intros _. destruct (valid_string (PStr url)) as [u|] eqn:Eu;
    [|apply (stable_ret _ (emits_refl _))].
  apply valid_string_inv in Eu. destruct Eu as [[= <-] _].
  apply (stable_bind _ (emits_trans _)).
  { apply emits_send_command. left. split; reflexivity. }
  intros listing.
  apply (stable_bind _ (emits_trans _)); [apply (stable_lift _ (emits_refl _))|].
  intros existing.
  apply (stable_bind _ (emits_trans _)); [apply (stable_lift _ (emits_refl _))|].
  intros asset_exists.
  destruct (asset_exists && negb overwrite); [apply (stable_ret _ (emits_refl _))|].
  destruct temp_download.
  - apply (stable_bind _ (emits_trans _)); [apply emits_tempfile_mkdtemp; exact I|].
    intros temp_dir. apply emits_remote_fetch_and_import.
  - apply (stable_bind _ (emits_trans _)); [apply emits_fs_call; exact I|].
    intros _. apply emits_remote_fetch_and_import.
Qed.

(** The target path the batch gives to the item [url]. *)
Definition batch_target (target_folder url : string) : string :=
  normalize_target (target_folder +:+ "/" +:+ url_filename url).

(** A command of a batch names the target of one of its URLs, and an HTTP
    request of a batch goes to one of its URLs. *)
Definition batch_event (urls : list pyval) (target_folder : string) (overwrite : bool)
    (ev : event) : Prop :=
  match ev with
  | EvSend _ _ =>
      exists url, In (PStr url) urls
                  /\ uses_target (batch_target target_folder url) overwrite ev
  | EvHttpGet u => In (PStr u) urls
  | _ => True
  end.

Lemma emits_batch_item (env : environment) (str_other : pyval -> string)
    (urls : list pyval) (n i : nat) (url : pyval) (target_folder : string)
    (overwrite : bool) :
  In url urls ->
  stable (emits (batch_event urls target_folder overwrite))
    (batch_item env str_other n i url target_folder overwrite).
Proof.
  intros Hin. unfold batch_item.
  apply (stable_try_except _ (emits_trans _));
    [|intros e; emits_auto (batch_event urls target_folder overwrite)].
  destruct url as [| | | |u| |]; try apply (stable_raise _ (emits_refl _)).
  apply (stable_bind _ (emits_trans _));
    [|intros r; emits_auto (batch_event urls target_folder overwrite)].
  eapply stable_emits_weaken; [|apply emits_remote_import].
  - intros ev Hev. destruct ev; try exact I.
    + exists u. split; [exact Hin | exact Hev].
    + cbn in Hev. subst. exact Hin.
  - exact (append_not_empty target_folder slash (url_filename u)).
Qed.

Lemma emits_batch_loop (env : environment) (str_other : pyval -> string)
    (urls : list pyval) (n : nat) (target_folder : string) (overwrite : bool)
    (items : list pyval) :
  (forall url, In url items -> In url urls) ->
  forall i, stable (emits (batch_event urls target_folder overwrite))
              (batch_loop env str_other n i items target_folder overwrite).
Proof.
  induction items as [|url rest IH]; intros Hsub i; cbn [batch_loop].
  - apply (stable_ret _ (emits_refl _)).
  - apply (stable_bind _ (emits_trans _)).
    { apply emits_batch_item, Hsub. left. reflexivity. }
    intros line. apply (stable_bind _ (emits_trans _)).
    { apply IH. intros u Hu. apply Hsub. right. exact Hu. }
    intros lines. apply (stable_ret _ (emits_refl _)).
Qed.

(** A batch downloads only URLs of its list, and whatever it sends to Unity
    is about one of them: each existence query and each [IMPORT_ASSET]
    command names the target folder, a slash and the file name of a URL of
    the list, normalized to begin with [Assets/]. *)
Theorem batch_stays_with_its_urls (env : environment) (str_other : pyval -> string)
    (urls : list pyval) (target_folder : string) (overwrite : bool) (w : world) :
  emits (batch_event urls target_folder overwrite) w
    (snd (batch_import_remote_assets env str_other (PList urls) target_folder overwrite w)).
Proof.
  unfold batch_import_remote_assets. destruct (negb (truthy (PList urls))).
  - apply emits_refl.
  - change (emits (batch_event urls target_folder overwrite) w
      (snd ((results <- batch_loop env str_other (List.length urls) 0 urls target_folder
                          overwrite ;;
             ret (PStr (py_join newline results))) w))).
    revert w. apply (stable_bind _ (emits_trans _)).
    + apply emits_batch_loop. auto.
    + intros lines. apply (stable_ret _ (emits_refl _)).
Qed.
